(** * AI interview simulator: the orchestration core, embedded and verified

    A shallow embedding of the Python sources under [ai-interview-simulator/]
    ([config.py], [core/llm_client.py], [agents/base_agent.py],
    [agents/committee_agent.py], [core/memory.py], [core/workflow.py])
    together with the properties the specification states about them.

    Modelling conventions.
    - A Python [str] is the list of its Unicode code points ([py_str]), so that
      [len] counts characters as CPython does.  Literals are written as UTF-8
      text and decoded by [u].
    - A Python [float] is a primitive binary64 float; [int] is [Z].
    - A value parsed from the model's JSON answer is a [json] tree.
    - A Python exception is a value of [exn]; code that may raise returns
      [res A].  Code that also mutates objects or talks to the outside world
      runs in the state-and-exception monad [M] of module [Workflow].
    - The language model is an oracle whose n-th answer is arbitrary, and
      so is the candidate.  The prompts sent to the model are not modelled
      beyond the exceptions that assembling them can raise.  Wall-clock
      fields ([timestamp], [started_at], [added_at], [updated_at]) are left
      out and callbacks only observe.  A file can always be opened for
      writing; dumping JSON to it raises when a string of the data cannot
      be encoded in UTF-8, and leaves a truncated file.
    - The candidate's stored profile is a typed record; the fields that the
      code copies from the model's answer without checking them stay
      [json] values. *)

From Stdlib Require Import ZArith List Bool String Ascii Floats Lia.
From Stdlib Require Import Permutation Sorted.
Import ListNotations.

Set Warnings "-inexact-float,-register-all,-notation-for-abbreviation".
Local Open Scope Z_scope.

(* ================================================================== *)
(** * Python values                                                    *)
(* ================================================================== *)

Module Py.

(** ** Exceptions and partial results *)

Inductive exn : Type :=
| TypeError | AttributeError | ValueError | OverflowError | KeyError
| UnicodeEncodeError.

Inductive res (A : Type) : Type :=
| Ok (a : A)
| Raise (e : exn).
Arguments Ok {A} a.
Arguments Raise {A} e.

Definition rbind {A B} (c : res A) (k : A -> res B) : res B :=
  match c with
  | Ok a => k a
  | Raise e => Raise e
  end.

(** ** Strings as code-point lists *)

Definition py_str := list N.

Definition str_eqb (a b : py_str) : bool :=
  if list_eq_dec N.eq_dec a b then true else false.

(** UTF-8 decoding of a literal: [need] continuation bytes are still
    expected for the code point accumulated in [acc]. *)
Fixpoint utf8_go (need : nat) (acc : N) (bs : list N) : py_str :=
  match bs with
  | [] => []
  | b :: bs' =>
      match need with
      | S k =>
          let acc' := (acc * 64 + b mod 64)%N in
          match k with
          | O => acc' :: utf8_go O 0%N bs'
          | S _ => utf8_go k acc' bs'
          end
      | O =>
          if (b <? 128)%N then b :: utf8_go O 0%N bs'
          else if (b <? 224)%N then utf8_go 1 (b mod 32)%N bs'
          else if (b <? 240)%N then utf8_go 2 (b mod 16)%N bs'
          else utf8_go 3 (b mod 8)%N bs'
      end
  end.

Definition u (s : string) : py_str :=
  utf8_go O 0%N (map N_of_ascii (list_ascii_of_string s)).

(** [len] of a string or of a list *)
Definition len {A} (s : list A) : Z := Z.of_nat (List.length s).

(** [s.startswith(p)] *)
Fixpoint startswith (p s : py_str) : bool :=
  match p, s with
  | [], _ => true
  | _ :: _, [] => false
  | a :: p', b :: s' => (a =? b)%N && startswith p' s'
  end.

(** [p in s] for two strings: substring search. *)
Fixpoint str_contains (p s : py_str) : bool :=
  startswith p s ||
  match s with
  | [] => false
  | _ :: s' => str_contains p s'
  end.

(** The characters [str.isspace] accepts, which [str.strip()] removes. *)
Definition isspace (c : N) : bool :=
  ((9 <=? c) && (c <=? 13) || (28 <=? c) && (c <=? 32) ||
   (c =? 133) || (c =? 160) || (c =? 5760) ||
   (8192 <=? c) && (c <=? 8202) ||
   (c =? 8232) || (c =? 8233) || (c =? 8239) || (c =? 8287) ||
   (c =? 12288))%N.

Fixpoint lstrip (s : py_str) : py_str :=
  match s with
  | [] => []
  | c :: s' => if isspace c then lstrip s' else s
  end.

Definition rstrip (s : py_str) : py_str := rev (lstrip (rev s)).

Definition strip (s : py_str) : py_str := rstrip (lstrip s).

(** [s.replace(old, new)] for a non-empty [old]: every non-overlapping
    occurrence, scanning left to right.  [skip] counts the characters of an
    occurrence already replaced that remain to be passed over. *)
Fixpoint replace_go (old new : py_str) (skip : nat) (s : py_str) : py_str :=
  match s with
  | [] => []
  | c :: s' =>
      match skip with
      | S k => replace_go old new k s'
      | O =>
          if startswith old s
          then new ++ replace_go old new (pred (List.length old)) s'
          else c :: replace_go old new O s'
      end
  end.

Definition replace (old new s : py_str) : py_str := replace_go old new O s.

(** ** Numbers *)

(** [int(x)] for a float: truncation toward zero; NaN and the infinities
    raise. *)
Definition int_of_float (f : float) : res Z :=
  match Prim2SF f with
  | S754_nan => Raise ValueError
  | S754_infinity _ => Raise OverflowError
  | S754_zero _ => Ok 0
  | S754_finite s m e =>
      let a := match e with
               | Zneg k => Z.shiftr (Zpos m) (Zpos k)
               | _ => Z.shiftl (Zpos m) e
               end in
      Ok (if s then - a else a)
  end.

Definition Z2SF (z : Z) : spec_float :=
  match z with
  | Z0 => S754_zero false
  | Zpos p => S754_finite false p 0
  | Zneg p => S754_finite true p 0
  end.

(** [float(z)]: the nearest binary64 value.  (CPython raises OverflowError
    for integers beyond the binary64 range, about 1.8e308; here such an
    integer becomes an infinity.) *)
Definition float_of_Z (z : Z) : float :=
  SF2Prim (binary_normalize prec emax z 0 false).

(** [a / b] for two ints, [b] not zero: the correctly rounded quotient
    (same remark on the range). *)
Definition int_truediv (a b : Z) : float :=
  SF2Prim (SFdiv prec emax (Z2SF a) (Z2SF b)).

(** Rounding of a non-negative ratio [n / d] to the nearest integer, ties
    to even. *)
Definition round_half_even (n d : Z) : Z :=
  let q := n / d in
  let r2 := 2 * (n mod d) in
  if r2 <? d then q
  else if d <? r2 then q + 1
  else if Z.even q then q else q + 1.

(** [round(x, 2)]: the binary64 value nearest to the exact value of [x]
    rounded to two decimals (ties to even); NaN, infinities, zeros and
    integral values are returned as they are. *)
Definition round2 (x : float) : float :=
  match Prim2SF x with
  | S754_finite s m (Zneg k) =>
      let n := round_half_even (100 * Zpos m) (Z.pow 2 (Zpos k)) in
      let r := int_truediv n 100 in
      if s then PrimFloat.opp r else r
  | _ => x
  end.

Inductive num : Type :=
| NInt (z : Z)
| NFloat (f : float).

Definition num_to_float (x : num) : float :=
  match x with
  | NInt z => float_of_Z z
  | NFloat f => f
  end.

(** Exact comparison of an int with a float, as CPython does it. *)
Definition int_lt_float (z : Z) (f : float) : bool :=
  match Prim2SF f with
  | S754_nan => false
  | S754_infinity s => negb s
  | S754_zero _ => z <? 0
  | S754_finite s m e =>
      let v := if s then Zneg m else Zpos m in
      match e with
      | Zneg k => z * Z.pow 2 (Zpos k) <? v
      | _ => z <? v * Z.pow 2 e
      end
  end.

Definition float_lt_int (f : float) (z : Z) : bool :=
  match Prim2SF f with
  | S754_nan => false
  | S754_infinity s => s
  | S754_zero _ => 0 <? z
  | S754_finite s m e =>
      let v := if s then Zneg m else Zpos m in
      match e with
      | Zneg k => v <? z * Z.pow 2 (Zpos k)
      | _ => v * Z.pow 2 e <? z
      end
  end.

Definition float_is_nan (f : float) : bool :=
  match Prim2SF f with S754_nan => true | _ => false end.

Definition num_lt (x y : num) : bool :=
  match x, y with
  | NInt a, NInt b => a <? b
  | NInt a, NFloat g => int_lt_float a g
  | NFloat f, NInt b => float_lt_int f b
  | NFloat f, NFloat g => PrimFloat.ltb f g
  end.

(** [x <= y]: less or equal, false as soon as a NaN is involved. *)
Definition num_le (x y : num) : bool :=
  match x, y with
  | NInt a, NInt b => a <=? b
  | NInt a, NFloat g => negb (float_is_nan g) && negb (float_lt_int g a)
  | NFloat f, NInt b => negb (float_is_nan f) && negb (int_lt_float b f)
  | NFloat f, NFloat g => PrimFloat.leb f g
  end.

Definition num_add (x y : num) : num :=
  match x, y with
  | NInt a, NInt b => NInt (a + b)
  | _, _ => NFloat (PrimFloat.add (num_to_float x) (num_to_float y))
  end.

(** Truthiness of a number: zero (of either kind, of either sign) is false. *)
Definition num_truthy (x : num) : bool :=
  match x with
  | NInt z => negb (z =? 0)
  | NFloat f => negb (PrimFloat.eqb f 0%float)
  end.

(** ** JSON values, as [json.loads] builds them *)

Inductive json : Type :=
| JNull
| JBool (b : bool)
| JInt (z : Z)
| JFloat (f : float)
| JStr (s : py_str)
| JList (l : list json)
| JDict (d : list (py_str * json)).

(** A [dict] with string keys is an association list; the first binding of
    a key is the one in force. *)
Definition pydict := list (py_str * json).

Fixpoint dict_get (d : pydict) (k : py_str) : option json :=
  match d with
  | [] => None
  | (k', v) :: d' => if str_eqb k' k then Some v else dict_get d' k
  end.

(** [d.get(k, default)] *)
Definition get_default (d : pydict) (k : py_str) (default : json) : json :=
  match dict_get d k with
  | Some v => v
  | None => default
  end.

Definition dict_has (d : pydict) (k : py_str) : bool :=
  match dict_get d k with Some _ => true | None => false end.

(** [x == s] for a string [s]: only an equal string compares equal. *)
Definition eq_str (x : json) (s : py_str) : bool :=
  match x with
  | JStr t => str_eqb t s
  | _ => false
  end.

(** [s in x]: membership of the string [s] in an arbitrary value. *)
Definition str_in (s : py_str) (x : json) : res bool :=
  match x with
  | JDict d => Ok (dict_has d s)
  | JList l => Ok (existsb (fun y => eq_str y s) l)
  | JStr t => Ok (str_contains s t)
  | _ => Raise TypeError
  end.

(** [x.get(k, default)]: only a dict has the method. *)
Definition method_get (x : json) (k : py_str) (default : json) : res json :=
  match x with
  | JDict d => Ok (get_default d k default)
  | _ => Raise AttributeError
  end.

(** [for t in x]: the items a value yields when iterated. *)
Definition iterate (x : json) : res (list json) :=
  match x with
  | JList l => Ok l
  | JDict d => Ok (map (fun kv => JStr (fst kv)) d)
  | JStr s => Ok (map (fun c => JStr [c]) s)
  | _ => Raise TypeError
  end.

(** [x in vocab] for a list of strings [vocab]. *)
Definition in_strs (x : json) (vocab : list py_str) : bool :=
  existsb (eq_str x) vocab.

(** Truthiness of a value ([if x:], [x or default]). *)
Definition truthy (x : json) : bool :=
  match x with
  | JNull => false
  | JBool b => b
  | JInt z => negb (z =? 0)
  | JFloat f => negb (PrimFloat.eqb f 0%float)
  | JStr s => negb (str_eqb s [])
  | JList l => match l with [] => false | _ => true end
  | JDict d => match d with [] => false | _ => true end
  end.

(** [x[:n]]: lists and strings can be sliced; a dict or a scalar cannot. *)
Definition slice_to (n : nat) (x : json) : res json :=
  match x with
  | JList l => Ok (JList (firstn n l))
  | JStr s => Ok (JStr (firstn n s))
  | _ => Raise TypeError
  end.

Fixpoint strs_of (items : list json) : res (list py_str) :=
  match items with
  | [] => Ok []
  | JStr s :: rest => rbind (strs_of rest) (fun l => Ok (s :: l))
  | _ :: rest => Raise TypeError
  end.

Fixpoint join_strs (sep : py_str) (parts : list py_str) : py_str :=
  match parts with
  | [] => []
  | [p] => p
  | p :: rest => p ++ sep ++ join_strs sep rest
  end.

(** [sep.join(x)]: [x] is iterated and every item has to be a string. *)
Definition join (sep : py_str) (x : json) : res py_str :=
  rbind (iterate x) (fun items =>
  rbind (strs_of items) (fun parts => Ok (join_strs sep parts))).

(** ** Text written to a UTF-8 file *)

(** A surrogate code point (U+D800 to U+DFFF).  A [str] may hold one on
    its own ([json.loads] accepts the escape of a lone surrogate), and the
    UTF-8 codec refuses to encode it. *)
Definition is_surrogate (c : N) : bool := ((55296 <=? c) && (c <=? 57343))%N.

(** [s.encode("utf-8")] does not raise. *)
Definition encodable (s : py_str) : bool :=
  forallb (fun c => negb (is_surrogate c)) s.

(** [json.dump(x, f, ensure_ascii=False)] into a file opened with
    [encoding="utf-8"] does not raise: strings, keys included, are written
    as they are, so each has to be encodable.  Numbers always are, NaN and
    the infinities included. *)
Fixpoint json_encodable (x : json) : bool :=
  match x with
  | JStr s => encodable s
  | JList l => forallb json_encodable l
  | JDict d =>
      forallb (fun kv => encodable (fst kv) && json_encodable (snd kv)) d
  | _ => true
  end.

End Py.
Import Py.

Declare Scope res_scope.
Delimit Scope res_scope with res.
Notation "x <- c ;; k" := (rbind c (fun x => k))
  (at level 61, c at next level, right associativity) : res_scope.

(* ================================================================== *)
(** * core/llm_client.py: the JSON layer                               *)
(* ================================================================== *)

Module LLMClient.

(** [s.endswith(p)] *)
Definition endswith (p s : py_str) : bool := startswith (rev p) (rev s).

(** [s.find(p)]: the index of the first occurrence, or -1. *)
Fixpoint find_go (p s : py_str) (i : Z) : Z :=
  if startswith p s then i
  else match s with
       | [] => -1
       | _ :: s' => find_go p s' (i + 1)
       end.

Definition find (p s : py_str) : Z := find_go p s 0.

(** [s.rfind(p)]: the index of the last occurrence, or -1. *)
Fixpoint rfind_go (p s : py_str) (i best : Z) : Z :=
  let best := if startswith p s then i else best in
  match s with
  | [] => best
  | _ :: s' => rfind_go p s' (i + 1) best
  end.

Definition rfind (p s : py_str) : Z := rfind_go p s 0 (-1).

(** [s[start:stop]] for [0 <= start < stop] *)
Definition slice (s : py_str) (start stop : Z) : py_str :=
  firstn (Z.to_nat (stop - start)) (skipn (Z.to_nat start) s).

(** The clean-up [_parse_json_response] starts with: surrounding blanks
    and a markdown code fence are removed. *)
Definition strip_fences (response : py_str) : py_str :=
  let response := strip response in
  let response :=
    if startswith (u "```json") response then skipn 7 response
    else if startswith (u "```") response then skipn 3 response
    else response in
  let response :=
    if endswith (u "```") response
    then firstn (List.length response - 3) response
    else response in
  strip response.

Section Parse.

(** [json.loads]; [None] stands for JSONDecodeError. *)
Variable json_loads : py_str -> option json.

(** One of the two rescue attempts: the text from the first [opening] to
    the last [closing] is parsed. *)
Definition extract (opening closing response : py_str) : option json :=
  let start := find opening response in
  let stop := rfind closing response + 1 in
  if negb (start =? -1) && (start <? stop)
  then json_loads (slice response start stop)
  else None.

Definition PARSE_FAILED : py_str := u "JSON解析失败".

Definition _parse_json_response (response : py_str) : json :=
  let original_response := response in
  let response := strip_fences response in
  match json_loads response with
  | Some value => value
  | None =>
      match extract (u "{") (u "}") response with
      | Some value => value
      | None =>
          match extract (u "[") (u "]") response with
          | Some value => value
          | None =>
              JDict [ (u "error", JStr PARSE_FAILED);
                      (u "raw", JStr original_response) ]
          end
      end
  end.

End Parse.

End LLMClient.

(* ================================================================== *)
(** * config.py                                                        *)
(* ================================================================== *)

Module Config.

Definition DEFAULT_POSITION : py_str := u "数据分析师 (Data Analyst)".

(** ** Interview rounds *)

Record RoundConfig : Type := {
  name : py_str;
  weight : float;
  min_questions : Z;
  max_questions : Z;
  follow_up_enabled : bool
}.

Definition INTERVIEW_ROUNDS_CONFIG : list (py_str * RoundConfig) :=
  [ (u "HR",
     {| name := u "HR 初筛"; weight := 0.15;
        min_questions := 1; max_questions := 2; follow_up_enabled := true |});
    (u "HiringManager",
     {| name := u "业务用人经理面试"; weight := 0.25;
        min_questions := 1; max_questions := 2; follow_up_enabled := true |});
    (u "Technical",
     {| name := u "技术/分析面试"; weight := 0.35;
        min_questions := 1; max_questions := 2; follow_up_enabled := true |});
    (u "CultureFit",
     {| name := u "文化契合度面试"; weight := 0.15;
        min_questions := 1; max_questions := 1; follow_up_enabled := true |});
    (u "Committee",
     {| name := u "终面评审委员会"; weight := 0.10;
        min_questions := 0; max_questions := 0; follow_up_enabled := false |})
  ].

Definition INTERVIEW_ROUNDS : list py_str :=
  [u "HR"; u "HiringManager"; u "Technical"; u "CultureFit"; u "Committee"].

Fixpoint round_config (table : list (py_str * RoundConfig)) (key : py_str)
  : option RoundConfig :=
  match table with
  | [] => None
  | (k, c) :: rest => if str_eqb k key then Some c else round_config rest key
  end.

(** ** Scores *)

Definition SCORE_MIN : Z := 0.
Definition SCORE_MAX : Z := 10.

Record ScoreLevel : Type := {
  level : py_str;
  emoji : py_str;
  decision : py_str
}.

(** The dict literal, in insertion order, which is the order [items()]
    yields. *)
Definition SCORE_LEVELS : list ((Z * Z) * ScoreLevel) :=
  [ ((9, 10), {| level := u "优秀"; emoji := u "🌟"; decision := u "强烈推荐" |});
    ((7, 8), {| level := u "良好"; emoji := u "👍"; decision := u "推荐通过" |});
    ((5, 6), {| level := u "中等"; emoji := u "💪"; decision := u "候补/观察" |});
    ((3, 4), {| level := u "待提升"; emoji := u "📚"; decision := u "暂不推荐" |});
    ((0, 2), {| level := u "不足"; emoji := u "⚠️"; decision := u "不通过" |})
  ].

(** [table[key]] *)
Fixpoint levels_subscript (table : list ((Z * Z) * ScoreLevel)) (key : Z * Z)
  : res ScoreLevel :=
  match table with
  | [] => Raise KeyError
  | ((lo, hi), info) :: rest =>
      if (lo =? fst key) && (hi =? snd key) then Ok info
      else levels_subscript rest key
  end.

(** The [for] loop of [get_score_level]: the first band with
    [low <= score <= high]. *)
Fixpoint first_band (items : list ((Z * Z) * ScoreLevel)) (score : num)
  : option ScoreLevel :=
  match items with
  | [] => None
  | ((low, high), info) :: rest =>
      if num_le (NInt low) score && num_le score (NInt high)
      then Some info
      else first_band rest score
  end.

Definition get_score_level (score : num) : res ScoreLevel :=
  match first_band SCORE_LEVELS score with
  | Some info => Ok info
  | None => levels_subscript SCORE_LEVELS (5, 6)
  end.

(** ** Tag vocabularies *)

Definition WEAKNESS_TAGS_BY_CATEGORY : list (py_str * list py_str) :=
  [ (u "表达与结构",
     [u "结构不清晰"; u "表达冗长"; u "逻辑不连贯"; u "缺少具体案例"]);
    (u "技术能力",
     [u "统计基础薄弱"; u "SQL细节欠缺"; u "Python能力待加强";
      u "实验设计不完整"; u "指标理解不深"]);
    (u "业务理解",
     [u "缺少业务视角"; u "与岗位不够相关"; u "缺少落地结果";
      u "缺乏数据思维"; u "业务敏感度不足"]);
    (u "软技能",
     [u "沟通表达待加强"; u "项目深度不够"; u "案例准备不充分";
      u "自我认知不足"; u "团队协作经验少"])
  ].

Definition STRENGTH_TAGS_BY_CATEGORY : list (py_str * list py_str) :=
  [ (u "表达与结构",
     [u "结构清晰"; u "表达简洁"; u "逻辑严谨"; u "案例具体生动"]);
    (u "技术能力",
     [u "统计功底扎实"; u "SQL能力强"; u "Python熟练";
      u "实验设计规范"; u "指标体系清晰"]);
    (u "业务理解",
     [u "业务理解深"; u "数据驱动思维"; u "有落地成果";
      u "数据敏感度高"; u "能产出洞察"]);
    (u "软技能",
     [u "沟通表达好"; u "项目经验丰富"; u "学习能力强";
      u "有成长心态"; u "团队协作好"])
  ].

Definition WEAKNESS_TAGS : list py_str :=
  flat_map snd WEAKNESS_TAGS_BY_CATEGORY.
Definition STRENGTH_TAGS : list py_str :=
  flat_map snd STRENGTH_TAGS_BY_CATEGORY.

(** ** Follow-up configuration.  A key the dict may lack is an [option]
    field; the readers supply the default, as [.get(key, default)] does. *)

Record FollowUpConfig : Type := {
  enabled : option bool;
  max_follow_ups : option Z;
  trigger_score_threshold : option Z;
  trigger_keywords : option (list py_str)
}.

Definition FOLLOW_UP_CONFIG : FollowUpConfig :=
  {| enabled := Some true;
     max_follow_ups := Some 1;
     trigger_score_threshold := Some 6;
     trigger_keywords :=
       Some [u "不清楚"; u "不太确定"; u "可能"; u "大概"] |}.

End Config.

(* ================================================================== *)
(** * The dicts the code passes around, as records                     *)
(* ================================================================== *)

(** The dict [_normalize_evaluation_result] returns.  Both tag lists hold
    strings only: the comprehension that builds them keeps an item only
    when it equals a vocabulary string.  [raw_error] is the key only the
    fallback record carries. *)
Record Evaluation : Type := {
  score : Z;
  feedback : json;
  weakness_tags : list py_str;
  strength_tags : list py_str;
  key_points : json;
  improvement_hint : json;
  raw_error : option json
}.

(** One entry of [SessionMemory.rounds]. *)
Record RoundResult : Type := {
  r_role : py_str;
  r_question : py_str;
  r_answer : py_str;
  r_score : Z;
  r_feedback : json;
  r_weakness_tags : list py_str;
  r_strength_tags : list py_str;
  r_key_points : json;
  r_improvement_hint : json;
  r_is_follow_up : bool
}.

(** The [session_summary] dict built by [run_committee_evaluation]. *)
Record SessionSummary : Type := {
  s_rounds : list RoundResult;
  s_average_score : float;
  s_weighted_score : float;
  s_all_weakness_tags : list py_str;
  s_all_strength_tags : list py_str
}.

(** The dict [_normalize_final_evaluation] returns; [comparative_analysis]
    is the key [run_committee_evaluation] may add. *)
Record FinalEvaluation : Type := {
  final_score : num;
  fe_decision : json;
  decision_reason : json;
  overall_feedback : json;
  dimension_scores : json;
  key_strengths : json;
  key_weaknesses : json;
  improvement_suggestions : json;
  practice_focus : json;
  next_steps : json;
  fe_raw_error : option json;
  comparative_analysis : option py_str
}.

(* ================================================================== *)
(** * agents/base_agent.py: the pure part of BaseAgent                 *)
(* ================================================================== *)

Module BaseAgent.
Import Config.
Local Open Scope res_scope.

(** [max(SCORE_MIN, min(SCORE_MAX, z))] *)
Definition clamp_score (z : Z) : Z := Z.max SCORE_MIN (Z.min SCORE_MAX z).

(** The [isinstance(score, (int, float))] branch: [bool] is a subclass of
    [int], so a JSON [true] counts as the integer 1. *)
Definition normalize_score (score : json) : res Z :=
  match score with
  | JInt z => Ok (clamp_score z)
  | JBool b => Ok (clamp_score (Z.b2z b))
  | JFloat f => z <- int_of_float f ;; Ok (clamp_score z)
  | _ => Ok 5
  end.

(** [[t for t in items if t in vocab]] *)
Fixpoint keep_tags (vocab : list py_str) (items : list json) : list py_str :=
  match items with
  | [] => []
  | t :: rest =>
      if in_strs t vocab
      then match t with
           | JStr s => s :: keep_tags vocab rest
           | _ => keep_tags vocab rest
           end
      else keep_tags vocab rest
  end.

Definition _normalize_evaluation_result (result : json) : res Evaluation :=
  has_error <- str_in (u "error") result ;;
  if has_error then
    raw <- method_get result (u "raw") (JStr (u "")) ;;
    Ok {| score := 5;
          feedback := JStr (u "评估过程出现问题，请重试。");
          weakness_tags := [];
          strength_tags := [];
          key_points := JList [];
          improvement_hint := JStr (u "");
          raw_error := Some raw |}
  else
    score <- method_get result (u "score") (JInt 5) ;;
    score <- normalize_score score ;;
    weak <- method_get result (u "weakness_tags") (JList []) ;;
    weak <- iterate weak ;;
    strong <- method_get result (u "strength_tags") (JList []) ;;
    strong <- iterate strong ;;
    fb <- method_get result (u "feedback") (JStr (u "")) ;;
    kp <- method_get result (u "key_points") (JList []) ;;
    hint <- method_get result (u "improvement_hint") (JStr (u "")) ;;
    Ok {| score := score;
          feedback := fb;
          weakness_tags := keep_tags WEAKNESS_TAGS weak;
          strength_tags := keep_tags STRENGTH_TAGS strong;
          key_points := kp;
          improvement_hint := hint;
          raw_error := None |}.

(** An [Evaluation] seen as the dict it is, for the readers that use
    [.get]. *)
Definition as_dict (e : Evaluation) : pydict :=
  [ (u "score", JInt (score e));
    (u "feedback", feedback e);
    (u "weakness_tags", JList (map JStr (weakness_tags e)));
    (u "strength_tags", JList (map JStr (strength_tags e)));
    (u "key_points", key_points e);
    (u "improvement_hint", improvement_hint e) ]
  ++ match raw_error e with
     | Some raw => [(u "raw_error", raw)]
     | None => []
     end.

(** [x < z] for an int [z]. *)
Definition lt_int (x : json) (z : Z) : res bool :=
  match x with
  | JInt a => Ok (a <? z)
  | JBool b => Ok (Z.b2z b <? z)
  | JFloat f => Ok (float_lt_int f z)
  | _ => Raise TypeError
  end.

(** The [for keyword in trigger_keywords] loop: the first keyword that
    occurs in the answer ends it. *)
Fixpoint first_keyword (keywords : list py_str) (answer : py_str)
  : option py_str :=
  match keywords with
  | [] => None
  | keyword :: rest =>
      if str_contains keyword answer then Some keyword
      else first_keyword rest answer
  end.

Definition REASON_DETAIL : py_str := u "回答需要更多细节".
Definition REASON_BRIEF : py_str := u "回答较简短，可以展开".
Definition reason_keyword (keyword : py_str) : py_str :=
  u "回答中提到「" ++ keyword ++ u "」，需要澄清".

(** [FOLLOW_UP_CONFIG.get("enabled", False)] and the like *)
Definition follow_ups_enabled (cfg : FollowUpConfig) : bool :=
  match enabled cfg with Some b => b | None => false end.
Definition score_threshold (cfg : FollowUpConfig) : Z :=
  match trigger_score_threshold cfg with Some t => t | None => 6 end.
Definition keywords (cfg : FollowUpConfig) : list py_str :=
  match trigger_keywords cfg with Some l => l | None => [] end.

Definition should_follow_up (cfg : FollowUpConfig)
    (answer : py_str) (evaluation : pydict) : res (bool * py_str) :=
  if negb (follow_ups_enabled cfg)
  then Ok (false, u "")
  else
    low <- lt_int (get_default evaluation (u "score") (JInt 10))
                  (score_threshold cfg) ;;
    if low then Ok (true, REASON_DETAIL)
    else
      match first_keyword (keywords cfg) answer with
      | Some keyword => Ok (true, reason_keyword keyword)
      | None =>
          if len (strip answer) <? 50 then Ok (true, REASON_BRIEF)
          else Ok (false, u "")
      end.

End BaseAgent.

(** A text assembled for a prompt or a digest.  Only the fixed literals are
    kept; [Built] stands for a formatted text whose wording is not
    modelled.  What is modelled is whether assembling it raises. *)
Inductive text : Type :=
| Fixed (s : py_str)
| Built.

(* ================================================================== *)
(** * core/memory.py                                                   *)
(* ================================================================== *)

Module Memory.
Local Open Scope res_scope.

(** ** UserMemory *)

Record Profile : Type := {
  p_name : py_str;
  p_experience_years : Z;
  p_skills : list py_str;
  p_target_companies : list py_str;
  p_notes : py_str
}.

Record Statistics : Type := {
  total_interviews : Z;
  average_score : num;
  best_score : num;
  recent_trend : py_str;
  most_common_weakness : py_str;
  most_common_strength : py_str
}.

(** One entry of [interview_history].  [h_final_score = None] stands for a
    missing key as well as for a stored null: [h.get] cannot tell them
    apart. *)
Record Summary : Type := {
  h_final_score : option num;
  h_weighted_score : float;
  h_decision : json;
  h_rounds_count : Z;
  h_key_strengths : json;
  h_key_weaknesses : json
}.

(** [UserMemory.data]; the tag dicts keep their insertion order. *)
Record UserData : Type := {
  ud_user_id : py_str;
  ud_position : py_str;
  ud_profile : Profile;
  ud_weakness_tags : list (py_str * Z);
  ud_strength_tags : list (py_str * Z);
  ud_interview_history : list Summary;
  ud_statistics : Statistics
}.

Definition _default_profile (user_id : py_str) : UserData :=
  {| ud_user_id := user_id;
     ud_position := u "数据分析师 (Data Analyst)";
     ud_profile := {| p_name := u ""; p_experience_years := 0;
                      p_skills := []; p_target_companies := [];
                      p_notes := u "" |};
     ud_weakness_tags := [];
     ud_strength_tags := [];
     ud_interview_history := [];
     ud_statistics := {| total_interviews := 0;
                         average_score := NFloat 0.0;
                         best_score := NInt 0;
                         recent_trend := u "";
                         most_common_weakness := u "";
                         most_common_strength := u "" |} |}.

(** [sorted(tags.items(), key=lambda x: x[1], reverse=True)]: a stable
    sort, so equal counts stay in dict order. *)
Fixpoint insert_desc (x : py_str * Z) (l : list (py_str * Z))
  : list (py_str * Z) :=
  match l with
  | [] => [x]
  | y :: rest =>
      if snd y <=? snd x then x :: l else y :: insert_desc x rest
  end.

Definition sorted_desc (items : list (py_str * Z)) : list (py_str * Z) :=
  fold_right insert_desc [] items.

Definition get_top_weaknesses (data : UserData) (n : nat) : list (py_str * Z) :=
  firstn n (sorted_desc (ud_weakness_tags data)).

Definition get_top_strengths (data : UserData) (n : nat) : list (py_str * Z) :=
  firstn n (sorted_desc (ud_strength_tags data)).

(** [sum(xs)], adding left to right from the int 0.  (CPython 3.12 and later
    compensate the rounding errors of float items; nothing below depends
    on the low bits of a float sum.) *)
Definition py_sum (xs : list num) : num := fold_left num_add xs (NInt 0).

(** [total / n] for an int [n] *)
Definition div_int (total : num) (n : Z) : float :=
  match total with
  | NInt a => int_truediv a n
  | NFloat f => PrimFloat.div f (float_of_Z n)
  end.

(** [max(x, *xs)]: a later item replaces the current one only when it is
    strictly greater. *)
Fixpoint max_from (cur : num) (xs : list num) : num :=
  match xs with
  | [] => cur
  | x :: rest => max_from (if num_lt cur x then x else cur) rest
  end.

(** [[h.get("final_score", 0) for h in history if h.get("final_score")]] *)
Fixpoint truthy_scores (history : list Summary) : list num :=
  match history with
  | [] => []
  | h :: rest =>
      match h_final_score h with
      | Some x => if num_truthy x then x :: truthy_scores rest
                  else truthy_scores rest
      | None => truthy_scores rest
      end
  end.

Definition trend_of (scores : list num) : py_str :=
  let n := List.length scores in
  let recent := div_int (py_sum (skipn (n - 3) scores)) 3 in
  let early := firstn (n - 3) scores in
  let earlier := div_int (py_sum early) (len early) in
  if PrimFloat.ltb (PrimFloat.add earlier 0.5) recent then u "improving"
  else if PrimFloat.ltb recent (PrimFloat.sub earlier 0.5) then u "declining"
  else u "stable".

Definition _update_statistics (data : UserData) : UserData :=
  let history := ud_interview_history data in
  let stats := ud_statistics data in
  let stats :=
    {| total_interviews := len history;
       average_score := average_score stats;
       best_score := best_score stats;
       recent_trend := recent_trend stats;
       most_common_weakness := most_common_weakness stats;
       most_common_strength := most_common_strength stats |} in
  let stats :=
    match truthy_scores history with
    | [] => stats
    | first :: others =>
        let scores := first :: others in
        {| total_interviews := total_interviews stats;
           average_score :=
             NFloat (round2 (div_int (py_sum scores) (len scores)));
           best_score := max_from first others;
           recent_trend :=
             if 4 <=? len scores then trend_of scores
             else recent_trend stats;
           most_common_weakness := most_common_weakness stats;
           most_common_strength := most_common_strength stats |}
    end in
  let stats :=
    match get_top_weaknesses data 1 with
    | [] => stats
    | top :: _ =>
        {| total_interviews := total_interviews stats;
           average_score := average_score stats;
           best_score := best_score stats;
           recent_trend := recent_trend stats;
           most_common_weakness := fst top;
           most_common_strength := most_common_strength stats |}
    end in
  let stats :=
    match get_top_strengths data 1 with
    | [] => stats
    | top :: _ =>
        {| total_interviews := total_interviews stats;
           average_score := average_score stats;
           best_score := best_score stats;
           recent_trend := recent_trend stats;
           most_common_weakness := most_common_weakness stats;
           most_common_strength := fst top |}
    end in
  {| ud_user_id := ud_user_id data;
     ud_position := ud_position data;
     ud_profile := ud_profile data;
     ud_weakness_tags := ud_weakness_tags data;
     ud_strength_tags := ud_strength_tags data;
     ud_interview_history := history;
     ud_statistics := stats |}.

(** [d[tag] = d.get(tag, 0) + 1]: an existing key keeps its place, a new
    one goes last. *)
Fixpoint bump (d : list (py_str * Z)) (tag : py_str) : list (py_str * Z) :=
  match d with
  | [] => [(tag, 0 + 1)]
  | (k, c) :: rest =>
      if str_eqb k tag then (k, c + 1) :: rest else (k, c) :: bump rest tag
  end.

(** The loop shared by [add_weakness_tags] and [add_strength_tags]; an
    empty tag is skipped. *)
Definition add_tags (d : list (py_str * Z)) (tags : list py_str)
  : list (py_str * Z) :=
  fold_left (fun d tag => if str_eqb tag [] then d else bump d tag) tags d.

Definition add_weakness_tags (data : UserData) (tags : list py_str) : UserData :=
  {| ud_user_id := ud_user_id data;
     ud_position := ud_position data;
     ud_profile := ud_profile data;
     ud_weakness_tags := add_tags (ud_weakness_tags data) tags;
     ud_strength_tags := ud_strength_tags data;
     ud_interview_history := ud_interview_history data;
     ud_statistics := ud_statistics data |}.

Definition add_strength_tags (data : UserData) (tags : list py_str) : UserData :=
  {| ud_user_id := ud_user_id data;
     ud_position := ud_position data;
     ud_profile := ud_profile data;
     ud_weakness_tags := ud_weakness_tags data;
     ud_strength_tags := add_tags (ud_strength_tags data) tags;
     ud_interview_history := ud_interview_history data;
     ud_statistics := ud_statistics data |}.

Definition add_interview_summary (data : UserData) (summary : Summary)
  : UserData :=
  {| ud_user_id := ud_user_id data;
     ud_position := ud_position data;
     ud_profile := ud_profile data;
     ud_weakness_tags := ud_weakness_tags data;
     ud_strength_tags := ud_strength_tags data;
     ud_interview_history := ud_interview_history data ++ [summary];
     ud_statistics := ud_statistics data |}.

(** What [json.dump] needs of [self.data] in [save]: every string of the
    profile can be encoded.  (The time stamps, left out of the record, are
    ASCII.) *)
Definition summary_encodable (h : Summary) : bool :=
  json_encodable (h_decision h) && json_encodable (h_key_strengths h) &&
  json_encodable (h_key_weaknesses h).

Definition user_data_encodable (data : UserData) : bool :=
  encodable (ud_user_id data) && encodable (ud_position data) &&
  encodable (p_name (ud_profile data)) &&
  forallb encodable (p_skills (ud_profile data)) &&
  forallb encodable (p_target_companies (ud_profile data)) &&
  encodable (p_notes (ud_profile data)) &&
  forallb (fun kv => encodable (fst kv)) (ud_weakness_tags data) &&
  forallb (fun kv => encodable (fst kv)) (ud_strength_tags data) &&
  forallb summary_encodable (ud_interview_history data) &&
  encodable (recent_trend (ud_statistics data)) &&
  encodable (most_common_weakness (ud_statistics data)) &&
  encodable (most_common_strength (ud_statistics data)).

(** [xs[-n:]] *)
Definition last_n {A} (n : nat) (xs : list A) : list A :=
  skipn (List.length xs - n) xs.

Definition NO_HISTORY : py_str :=
  u "这是该候选人的第一次模拟面试，暂无历史记录。".

(** The loop over the last three interviews: a truthy [key_weaknesses] is
    sliced and joined. *)
Fixpoint recent_lines (recent : list Summary) : res unit :=
  match recent with
  | [] => Ok tt
  | h :: rest =>
      _ <- (if truthy (h_key_weaknesses h)
            then two <- slice_to 2 (h_key_weaknesses h) ;;
                 _ <- join (u ", ") two ;; Ok tt
            else Ok tt) ;;
      recent_lines rest
  end.

Definition get_history_summary (data : UserData) : res text :=
  match ud_interview_history data with
  | [] => Ok (Fixed NO_HISTORY)
  | _ :: _ =>
      _ <- recent_lines (last_n 3 (ud_interview_history data)) ;;
      Ok Built
  end.

(** ** SessionMemory *)

Record SessionMemory : Type := {
  sm_user_id : py_str;
  sm_position : py_str;
  rounds : list RoundResult;
  final_evaluation : option FinalEvaluation
}.

Definition new_session (user_id position : py_str) : SessionMemory :=
  {| sm_user_id := user_id; sm_position := position;
     rounds := []; final_evaluation := None |}.

Definition append_round (session : SessionMemory) (r : RoundResult)
  : SessionMemory :=
  {| sm_user_id := sm_user_id session;
     sm_position := sm_position session;
     rounds := rounds session ++ [r];
     final_evaluation := final_evaluation session |}.

(** [add_round]; [key_points or []] replaces a falsy value by the empty
    list. *)
Definition add_round (session : SessionMemory)
    (role question answer : py_str) (score : Z) (feedback : json)
    (weakness_tags strength_tags : list py_str)
    (key_points improvement_hint : json) (is_follow_up : bool)
  : SessionMemory :=
  append_round session
    {| r_role := role;
       r_question := question;
       r_answer := answer;
       r_score := score;
       r_feedback := feedback;
       r_weakness_tags := weakness_tags;
       r_strength_tags := strength_tags;
       r_key_points := if truthy key_points then key_points else JList [];
       r_improvement_hint := improvement_hint;
       r_is_follow_up := is_follow_up |}.

Definition set_final_evaluation (session : SessionMemory)
    (evaluation : FinalEvaluation) : SessionMemory :=
  {| sm_user_id := sm_user_id session;
     sm_position := sm_position session;
     rounds := rounds session;
     final_evaluation := Some evaluation |}.

Section SetOrder.

(** [list(set(tags))]: the order in which a set yields its members is not
    specified, so it is a parameter. *)
Variable list_of_set : list py_str -> list py_str.

Definition get_all_weakness_tags (session : SessionMemory) : list py_str :=
  list_of_set (flat_map r_weakness_tags (rounds session)).

Definition get_all_strength_tags (session : SessionMemory) : list py_str :=
  list_of_set (flat_map r_strength_tags (rounds session)).

End SetOrder.

(** [get_average_score]: every stored score is an int, none is [None]. *)
Definition get_average_score (session : SessionMemory) : float :=
  let scores := map r_score (rounds session) in
  match scores with
  | [] => 0.0%float
  | _ :: _ => round2 (int_truediv (fold_left Z.add scores 0) (len scores))
  end.

(** The lines [get_context_for_next_round] writes for one main round. *)
Definition context_lines (r : RoundResult) : res unit :=
  if truthy (r_key_points r)
  then two <- slice_to 2 (r_key_points r) ;;
       _ <- join (u ", ") two ;; Ok tt
  else Ok tt.

Fixpoint each {A} (f : A -> res unit) (xs : list A) : res unit :=
  match xs with
  | [] => Ok tt
  | x :: rest => _ <- f x ;; each f rest
  end.

Definition FIRST_ROUND : py_str := u "这是本次面试的第一轮。".

Definition get_context_for_next_round (session : SessionMemory) : res text :=
  match rounds session with
  | [] => Ok (Fixed FIRST_ROUND)
  | _ :: _ =>
      let main_rounds :=
        filter (fun r => negb (r_is_follow_up r)) (rounds session) in
      _ <- each context_lines (last_n 3 main_rounds) ;;
      Ok Built
  end.

(** [get_recent_context], the alias the web front end calls. *)
Definition get_recent_context (session : SessionMemory) : res text :=
  get_context_for_next_round session.

(** ** UserMemory: advice and prompt context *)

(** The [suggestion_map] of [get_practice_recommendations]. *)
Definition suggestion_map : list (py_str * py_str) :=
  [ (u "结构不清晰", u "练习使用 STAR 结构（情境-任务-行动-结果）组织回答");
    (u "统计基础薄弱", u "复习假设检验、置信区间、回归分析等核心概念");
    (u "SQL细节欠缺", u "刷 SQL 练习题，重点练习窗口函数和复杂查询");
    (u "缺少业务视角", u "每次回答时想想「这对业务有什么影响」");
    (u "缺少落地结果", u "准备项目案例时，确保包含可量化的业务结果");
    (u "沟通表达待加强", u "练习简洁表达，避免冗长，突出重点");
    (u "案例准备不充分", u "准备3-5个深度项目案例，用 STAR 结构梳理");
    (u "项目深度不够", u "选择1-2个项目深入准备，能讲清楚每个细节");
    (u "缺乏数据思维", u "培养用数据说话的习惯，多举有数字的例子");
    (u "实验设计不完整", u "复习 A/B 测试流程，包括样本量计算和结果解读") ].

Fixpoint suggestion_for (table : list (py_str * py_str)) (tag : py_str)
  : option py_str :=
  match table with
  | [] => None
  | (k, advice) :: rest =>
      if str_eqb k tag then Some advice else suggestion_for rest tag
  end.

Definition GENERIC_ADVICE : py_str := u "建议针对性加强练习".

(** One line of advice: the tag between brackets, then the advice of the
    table or the generic one. *)
Definition recommendation (tag : py_str) : py_str :=
  match suggestion_for suggestion_map tag with
  | Some advice => u "【" ++ tag ++ u "】" ++ advice
  | None => u "【" ++ tag ++ u "】" ++ GENERIC_ADVICE
  end.

Definition get_practice_recommendations (data : UserData) : list py_str :=
  firstn 5 (map (fun t => recommendation (fst t)) (get_top_weaknesses data 5)).

Definition NEW_USER : py_str := u "新用户，暂无历史记录。".

(** [get_context_for_prompt]: the lines are gathered one test after the
    other; without any line the fixed notice is returned. *)
Definition get_context_for_prompt (data : UserData) : text :=
  let profile := ud_profile data in
  let lines : list text := [] in
  let lines :=
    if negb (str_eqb (p_name profile) []) then lines ++ [Built] else lines in
  let lines :=
    if negb (p_experience_years profile =? 0) then lines ++ [Built]
    else lines in
  let lines :=
    match p_skills profile with
    | _ :: _ => lines ++ [Built]
    | [] => lines
    end in
  let stats := ud_statistics data in
  let lines :=
    if 0 <? total_interviews stats
    then
      let lines := lines ++ [Built] in
      let lines :=
        if num_truthy (average_score stats) then lines ++ [Built]
        else lines in
      if negb (str_eqb (recent_trend stats) []) then lines ++ [Built]
      else lines
    else lines in
  let lines :=
    match get_top_weaknesses data 3 with
    | _ :: _ => lines ++ [Built]
    | [] => lines
    end in
  let lines :=
    match get_top_strengths data 3 with
    | _ :: _ => lines ++ [Built]
    | [] => lines
    end in
  match lines with
  | [] => Fixed NEW_USER
  | _ :: _ => Built
  end.

End Memory.

(* ================================================================== *)
(** * agents/committee_agent.py: the pure part of CommitteeAgent       *)
(* ================================================================== *)

Module CommitteeAgent.
Import Config Memory.
Local Open Scope res_scope.

(** [_format_rounds_summary]: per round, [', '.join(r.get('key_points', []))]
    is the one expression that can raise. *)
Definition _format_rounds_summary (session_summary : SessionSummary)
  : res text :=
  _ <- each (fun r => _ <- join (u ", ") (r_key_points r) ;; Ok tt)
            (s_rounds session_summary) ;;
  Ok Built.

Definition FALLBACK_DECISION : py_str := u "候补".

Definition _normalize_final_evaluation
    (result : json) (session_summary : SessionSummary) : res FinalEvaluation :=
  has_error <- str_in (u "error") result ;;
  if has_error then
    let avg_score := s_average_score session_summary in
    raw <- method_get result (u "raw") (JStr (u "")) ;;
    Ok {| final_score := NFloat avg_score;
          fe_decision := JStr FALLBACK_DECISION;
          decision_reason := JStr (u "评估生成过程出现问题，请参考各轮反馈。");
          overall_feedback :=
            JStr (u "系统暂时无法生成完整评估，建议查看各轮次的详细反馈。");
          dimension_scores := JDict [];
          key_strengths :=
            JList (map JStr (firstn 3 (s_all_strength_tags session_summary)));
          key_weaknesses :=
            JList (map JStr (firstn 3 (s_all_weakness_tags session_summary)));
          improvement_suggestions :=
            JList [JStr (u "建议重新进行面试模拟以获取完整评估")];
          practice_focus := JList [];
          next_steps := JStr (u "请重试面试模拟");
          fe_raw_error := Some raw;
          comparative_analysis := None |}
  else
    score <- method_get result (u "final_score") (JInt 5) ;;
    score <- (match score with
              | JInt z => Ok (Z.max 0 (Z.min 10 z))
              | JBool b => Ok (Z.max 0 (Z.min 10 (Z.b2z b)))
              | JFloat f => z <- int_of_float f ;; Ok (Z.max 0 (Z.min 10 z))
              | _ => Ok 5
              end) ;;
    score_info <- get_score_level (NInt score) ;;
    dec <- method_get result (u "decision") (JStr (decision score_info)) ;;
    reason <- method_get result (u "decision_reason") (JStr (u "")) ;;
    overall <- method_get result (u "overall_feedback") (JStr (u "")) ;;
    dims <- method_get result (u "dimension_scores") (JDict []) ;;
    strengths <- method_get result (u "key_strengths") (JList []) ;;
    weaknesses <- method_get result (u "key_weaknesses") (JList []) ;;
    suggestions <- method_get result (u "improvement_suggestions") (JList []) ;;
    focus <- method_get result (u "practice_focus") (JList []) ;;
    next <- method_get result (u "next_steps") (JStr (u "")) ;;
    Ok {| final_score := NInt score;
          fe_decision := dec;
          decision_reason := reason;
          overall_feedback := overall;
          dimension_scores := dims;
          key_strengths := strengths;
          key_weaknesses := weaknesses;
          improvement_suggestions := suggestions;
          practice_focus := focus;
          next_steps := next;
          fe_raw_error := None;
          comparative_analysis := None |}.

(** The texts [generate_comparative_analysis] assembles before it calls
    the model: a line per interview of the last five, then the current
    result. *)
Definition comparative_prompt
    (current_evaluation : FinalEvaluation)
    (historical_evaluations : list Summary) : res text :=
  _ <- each (fun h => two <- slice_to 2 (h_key_weaknesses h) ;;
                      _ <- join (u ", ") two ;; Ok tt)
            (last_n 5 historical_evaluations) ;;
  _ <- join (u ", ") (key_weaknesses current_evaluation) ;;
  _ <- join (u ", ") (key_strengths current_evaluation) ;;
  Ok Built.

Definition FIRST_INTERVIEW : py_str :=
  u "这是您的第一次模拟面试，暂无历史对比数据。".

End CommitteeAgent.

(* ================================================================== *)
(** * core/workflow.py                                                 *)
(* ================================================================== *)

Module Workflow.
Import Config Memory BaseAgent CommitteeAgent.

(** What the workflow reads of an interviewer object. *)
Record Agent : Type := {
  role : py_str;
  role_cn : py_str
}.

(** One entry of a round result's ["questions"] list. *)
Record QuestionEntry : Type := {
  q_question : py_str;
  q_answer : py_str;
  q_evaluation : Evaluation;
  q_is_follow_up : bool;
  q_follow_up_reason : option py_str
}.

(** The dict [run_single_round] returns. *)
Record RoundOutcome : Type := {
  o_round : py_str;
  o_round_name : py_str;
  o_questions : list QuestionEntry;
  o_final_score : Z
}.

(** [SessionMemory.to_dict()], the content of a session file. *)
Record SessionDump : Type := {
  d_user_id : py_str;
  d_position : py_str;
  d_rounds : list RoundResult;
  d_final_evaluation : option FinalEvaluation;
  d_total_rounds : Z;
  d_main_rounds : Z;
  d_follow_up_rounds : Z;
  d_average_score : float;
  d_all_weakness_tags : list py_str;
  d_all_strength_tags : list py_str
}.

(** What [json.dump] needs of [self.to_dict()] in [SessionMemory.save]:
    every string of the session can be encoded, whether it comes from the
    model, from the candidate or from the configuration. *)
Definition round_encodable (r : RoundResult) : bool :=
  encodable (r_role r) && encodable (r_question r) &&
  encodable (r_answer r) && json_encodable (r_feedback r) &&
  forallb encodable (r_weakness_tags r) &&
  forallb encodable (r_strength_tags r) &&
  json_encodable (r_key_points r) && json_encodable (r_improvement_hint r).

Definition final_evaluation_encodable (e : FinalEvaluation) : bool :=
  json_encodable (fe_decision e) && json_encodable (decision_reason e) &&
  json_encodable (overall_feedback e) &&
  json_encodable (dimension_scores e) &&
  json_encodable (key_strengths e) && json_encodable (key_weaknesses e) &&
  json_encodable (improvement_suggestions e) &&
  json_encodable (practice_focus e) && json_encodable (next_steps e) &&
  match fe_raw_error e with
  | Some raw => json_encodable raw
  | None => true
  end &&
  match comparative_analysis e with
  | Some analysis => encodable analysis
  | None => true
  end.

Definition dump_encodable (d : SessionDump) : bool :=
  encodable (d_user_id d) && encodable (d_position d) &&
  forallb round_encodable (d_rounds d) &&
  match d_final_evaluation d with
  | Some e => final_evaluation_encodable e
  | None => true
  end &&
  forallb encodable (d_all_weakness_tags d) &&
  forallb encodable (d_all_strength_tags d).

(** The calls made to the optional callbacks, in order. *)
Inductive Event : Type :=
| OnRoundStart (round_key round_name : py_str)
| OnQuestion (question round_name : py_str)
| OnEvaluation (evaluation : Evaluation)
| OnFollowUp (reason : py_str)
| OnRoundComplete (result : RoundOutcome)
| OnFinalEvaluation (evaluation : FinalEvaluation).

(** What a storage directory holds under a name: the data of a dump that
    went through, or the beginning of a dump that raised before its end,
    which is not JSON any more. *)
Inductive file (A : Type) : Type :=
| Written (content : A)
| Truncated.
Arguments Written {A} content.
Arguments Truncated {A}.

(** The mutable world of one run: the two memory objects, the two storage
    directories, how many answers the model and the candidate have given so
    far, and the callback trace. *)
Record State : Type := {
  user_memory : UserData;
  session : SessionMemory;
  user_files : list (py_str * file UserData);
  session_files : list (py_str * file SessionDump);
  llm_calls : nat;
  answers_given : nat;
  trace : list Event
}.

Definition M (A : Type) : Type := State -> State * res A.

Definition ret {A} (a : A) : M A := fun st => (st, Ok a).

Definition bind {A B} (c : M A) (k : A -> M B) : M B :=
  fun st =>
    match c st with
    | (st', Ok a) => k a st'
    | (st', Raise e) => (st', Raise e)
    end.

(** A pure computation that may raise. *)
Definition lift {A} (c : res A) : M A := fun st => (st, c).

Definition get : M State := fun st => (st, Ok st).

Definition set_user_memory (data : UserData) : M unit := fun st =>
  ({| user_memory := data; session := session st;
      user_files := user_files st; session_files := session_files st;
      llm_calls := llm_calls st; answers_given := answers_given st;
      trace := trace st |}, Ok tt).

Definition set_session (s : SessionMemory) : M unit := fun st =>
  ({| user_memory := user_memory st; session := s;
      user_files := user_files st; session_files := session_files st;
      llm_calls := llm_calls st; answers_given := answers_given st;
      trace := trace st |}, Ok tt).

(** [with open(path, "w", encoding="utf-8") as f: json.dump(data, f,
    ensure_ascii=False, indent=2)].  The file is created, or emptied when
    it exists, then written piece by piece; a string that UTF-8 cannot
    encode stops the dump with UnicodeEncodeError and leaves the beginning
    of the text in the file.  Opening the file always succeeds. *)
Definition write_user_file (user_id : py_str) (data : UserData) : M unit :=
  fun st =>
  if user_data_encodable data
  then
    ({| user_memory := user_memory st; session := session st;
        user_files := (user_id, Written data) :: user_files st;
        session_files := session_files st;
        llm_calls := llm_calls st; answers_given := answers_given st;
        trace := trace st |}, Ok tt)
  else
    ({| user_memory := user_memory st; session := session st;
        user_files := (user_id, Truncated) :: user_files st;
        session_files := session_files st;
        llm_calls := llm_calls st; answers_given := answers_given st;
        trace := trace st |}, Raise UnicodeEncodeError).

Definition write_session_file (path : py_str) (dump : SessionDump) : M unit :=
  fun st =>
  if dump_encodable dump
  then
    ({| user_memory := user_memory st; session := session st;
        user_files := user_files st;
        session_files := (path, Written dump) :: session_files st;
        llm_calls := llm_calls st; answers_given := answers_given st;
        trace := trace st |}, Ok tt)
  else
    ({| user_memory := user_memory st; session := session st;
        user_files := user_files st;
        session_files := (path, Truncated) :: session_files st;
        llm_calls := llm_calls st; answers_given := answers_given st;
        trace := trace st |}, Raise UnicodeEncodeError).

Definition tick_llm : M nat := fun st =>
  ({| user_memory := user_memory st; session := session st;
      user_files := user_files st; session_files := session_files st;
      llm_calls := S (llm_calls st); answers_given := answers_given st;
      trace := trace st |}, Ok (llm_calls st)).

Definition tick_answer : M nat := fun st =>
  ({| user_memory := user_memory st; session := session st;
      user_files := user_files st; session_files := session_files st;
      llm_calls := llm_calls st; answers_given := S (answers_given st);
      trace := trace st |}, Ok (answers_given st)).

(** A callback call; a callback left out is a call that does nothing. *)
Definition notify (e : Event) : M unit := fun st =>
  ({| user_memory := user_memory st; session := session st;
      user_files := user_files st; session_files := session_files st;
      llm_calls := llm_calls st; answers_given := answers_given st;
      trace := trace st ++ [e] |}, Ok tt).

(** The newest file written under a name is the one a read finds. *)
Fixpoint read_file {A} (files : list (py_str * A)) (path : py_str) : option A :=
  match files with
  | [] => None
  | (p, content) :: rest =>
      if str_eqb p path then Some content else read_file rest path
  end.

Declare Scope m_scope.
Delimit Scope m_scope with M.
Notation "x <- c ;; k" := (bind c (fun x => k))
  (at level 61, c at next level, right associativity) : m_scope.
Notation "c ;;; k" := (bind c (fun _ => k))
  (at level 61, right associativity) : m_scope.
Local Open Scope m_scope.

Definition get_round_name (round_key : py_str) : py_str :=
  match round_config INTERVIEW_ROUNDS_CONFIG round_key with
  | Some config => name config
  | None => round_key
  end.

Definition get_round_weight (round_key : py_str) : float :=
  match round_config INTERVIEW_ROUNDS_CONFIG round_key with
  | Some config => weight config
  | None => 0.2%float
  end.

Definition FOLLOWUP_SUFFIX : py_str := u "_followup".
Definition FOLLOWUP_LABEL : py_str := u "（追问）".

(** [_calculate_weighted_score].  Both accumulators start as the int 0 and
    are floats from the first round on; since [0 + x] converts the 0 first,
    starting from the float zero gives the same values, and an int 0 fails
    the test [total_weight > 0] just as the float zero does. *)
Definition weighted_step (acc : float * float) (r : RoundResult)
  : float * float :=
  let '(total_weight, weighted_sum) := acc in
  let role := replace FOLLOWUP_SUFFIX (u "") (r_role r) in
  let weight := get_round_weight role in
  (PrimFloat.add total_weight weight,
   PrimFloat.add weighted_sum (PrimFloat.mul (float_of_Z (r_score r)) weight)).

Definition _calculate_weighted_score (session : SessionMemory) : float :=
  let '(total_weight, weighted_sum) :=
    fold_left weighted_step (rounds session) (0.0%float, 0.0%float) in
  if PrimFloat.ltb 0.0 total_weight
  then round2 (PrimFloat.div weighted_sum total_weight)
  else 0.0%float.

(** [_build_user_context]: the stored profile is typed, nothing raises. *)
Definition _build_user_context (data : UserData) : text := Built.

Section Run.

(** The language model: what the n-th call returns, read as text
    ([generate_with_system]) or as the value
    [LLMClient._parse_json_response] makes of it ([generate_json]), which
    can be any JSON value. *)
Variable llm_text : nat -> py_str.
Variable llm_json : nat -> json.

(** The candidate: the n-th answer, given the question and the round name. *)
Variable get_user_answer : nat -> py_str -> py_str -> py_str.

(** Iteration order of a set of strings. *)
Variable list_of_set : list py_str -> list py_str.

(** The module-level [FOLLOW_UP_CONFIG] as the run finds it. *)
Variable follow_up_config : FollowUpConfig.

(** The interviewer classes whose sources are not at hand: the [role] and
    [role_cn] their constructors set.  Like [HRAgent], they are taken to
    ask the model for their question and to inherit [evaluate_answer],
    [should_follow_up] and [generate_follow_up] from [BaseAgent]. *)
Variables hiring_manager technical culture_fit : Agent.

(** The time stamp [SessionMemory.save] puts in the file name. *)
Variable save_stamp : py_str.

Definition HR : Agent := {| role := u "HR"; role_cn := u "HR 面试官" |}.

Definition agents : list (py_str * Agent) :=
  [ (u "HR", HR);
    (u "HiringManager", hiring_manager);
    (u "Technical", technical);
    (u "CultureFit", culture_fit) ].

(** [self.agents[agent_key]] *)
Fixpoint agents_subscript (table : list (py_str * Agent)) (key : py_str)
  : res Agent :=
  match table with
  | [] => Raise KeyError
  | (k, a) :: rest => if str_eqb k key then Ok a else agents_subscript rest key
  end.

Definition round_order : list py_str :=
  filter (fun r => negb (str_eqb r (u "Committee"))) INTERVIEW_ROUNDS.

Definition generate_with_system : M py_str :=
  n <- tick_llm ;; ret (llm_text n).

Definition generate_json : M json :=
  n <- tick_llm ;; ret (llm_json n).

Definition ask (question round_name : py_str) : M py_str :=
  n <- tick_answer ;; ret (get_user_answer n question round_name).

(** [BaseAgent.evaluate_answer] *)
Definition evaluate_answer : M Evaluation :=
  result <- generate_json ;;
  lift (_normalize_evaluation_result result).

Definition to_dict (s : SessionMemory) : SessionDump :=
  {| d_user_id := sm_user_id s;
     d_position := sm_position s;
     d_rounds := rounds s;
     d_final_evaluation := final_evaluation s;
     d_total_rounds := len (rounds s);
     d_main_rounds := len (filter (fun r => negb (r_is_follow_up r)) (rounds s));
     d_follow_up_rounds := len (filter r_is_follow_up (rounds s));
     d_average_score := get_average_score s;
     d_all_weakness_tags := get_all_weakness_tags list_of_set s;
     d_all_strength_tags := get_all_strength_tags list_of_set s |}.

Definition record_round (role question answer : py_str)
    (evaluation : Evaluation) (is_follow_up : bool) : M unit :=
  st <- get ;;
  set_session
    (add_round (session st) role question answer
       (score evaluation) (feedback evaluation)
       (weakness_tags evaluation) (strength_tags evaluation)
       (key_points evaluation) (improvement_hint evaluation) is_follow_up).

Definition _handle_follow_up (agent : Agent)
    (original_question original_answer : py_str)
    (evaluation : Evaluation) (reason : py_str) : M QuestionEntry :=
  notify (OnFollowUp reason) ;;;
  follow_up_question <- generate_with_system ;;
  notify (OnQuestion follow_up_question (role_cn agent ++ FOLLOWUP_LABEL)) ;;;
  follow_up_answer <-
    ask follow_up_question (get_round_name (role agent) ++ FOLLOWUP_LABEL) ;;
  follow_up_eval <- evaluate_answer ;;
  notify (OnEvaluation follow_up_eval) ;;;
  record_round (role agent ++ FOLLOWUP_SUFFIX)
    follow_up_question follow_up_answer follow_up_eval true ;;;
  ret {| q_question := follow_up_question;
         q_answer := follow_up_answer;
         q_evaluation := follow_up_eval;
         q_is_follow_up := true;
         q_follow_up_reason := Some reason |}.

Definition run_single_round (agent_key : py_str) : M RoundOutcome :=
  agent <- lift (agents_subscript agents agent_key) ;;
  let round_name := get_round_name agent_key in
  let round_config := round_config INTERVIEW_ROUNDS_CONFIG agent_key in
  st <- get ;;
  _ <- lift (get_context_for_next_round (session st)) ;;
  question <- generate_with_system ;;
  notify (OnQuestion question round_name) ;;;
  answer <- ask question round_name ;;
  evaluation <- evaluate_answer ;;
  notify (OnEvaluation evaluation) ;;;
  record_round agent_key question answer evaluation false ;;;
  let result :=
    {| o_round := agent_key;
       o_round_name := round_name;
       o_questions := [ {| q_question := question;
                           q_answer := answer;
                           q_evaluation := evaluation;
                           q_is_follow_up := false;
                           q_follow_up_reason := None |} ];
       o_final_score := score evaluation |} in
  if match round_config with
     | Some c => follow_up_enabled c
     | None => false
     end
  then
    decision <- lift (should_follow_up follow_up_config answer
                                       (as_dict evaluation)) ;;
    let '(should_follow, reason) := decision in
    if should_follow && follow_ups_enabled follow_up_config
    then
      follow_up_result <-
        _handle_follow_up agent question answer evaluation reason ;;
      (* [if follow_up_result:] holds, the dict returned is not empty *)
      ret {| o_round := o_round result;
             o_round_name := o_round_name result;
             o_questions := o_questions result ++ [follow_up_result];
             o_final_score := score (q_evaluation follow_up_result) |}
    else ret result
  else ret result.

(** [CommitteeAgent.generate_final_evaluation] *)
Definition generate_final_evaluation (session_summary : SessionSummary)
    (user_history : text) : M FinalEvaluation :=
  _ <- lift (_format_rounds_summary session_summary) ;;
  result <- generate_json ;;
  lift (_normalize_final_evaluation result session_summary).

(** [CommitteeAgent.generate_comparative_analysis] *)
Definition generate_comparative_analysis
    (current_evaluation : FinalEvaluation)
    (historical_evaluations : list Summary) : M py_str :=
  match historical_evaluations with
  | [] => ret FIRST_INTERVIEW
  | _ :: _ =>
      _ <- lift (comparative_prompt current_evaluation
                                    historical_evaluations) ;;
      generate_with_system
  end.

Definition with_comparative (e : FinalEvaluation) (analysis : py_str)
  : FinalEvaluation :=
  {| final_score := final_score e;
     fe_decision := fe_decision e;
     decision_reason := decision_reason e;
     overall_feedback := overall_feedback e;
     dimension_scores := dimension_scores e;
     key_strengths := key_strengths e;
     key_weaknesses := key_weaknesses e;
     improvement_suggestions := improvement_suggestions e;
     practice_focus := practice_focus e;
     next_steps := next_steps e;
     fe_raw_error := fe_raw_error e;
     comparative_analysis := Some analysis |}.

Definition session_summary_of (s : SessionMemory) : SessionSummary :=
  {| s_rounds := d_rounds (to_dict s);
     s_average_score := get_average_score s;
     s_weighted_score := _calculate_weighted_score s;
     s_all_weakness_tags := get_all_weakness_tags list_of_set s;
     s_all_strength_tags := get_all_strength_tags list_of_set s |}.

Definition run_committee_evaluation : M FinalEvaluation :=
  st <- get ;;
  let session_summary := session_summary_of (session st) in
  user_history <- lift (get_history_summary (user_memory st)) ;;
  final_eval <- generate_final_evaluation session_summary user_history ;;
  final_eval <-
    match ud_interview_history (user_memory st) with
    | [] => ret final_eval
    | _ :: _ =>
        comparative <-
          generate_comparative_analysis final_eval
            (ud_interview_history (user_memory st)) ;;
        ret (with_comparative final_eval comparative)
    end ;;
  st <- get ;;
  set_session (set_final_evaluation (session st) final_eval) ;;;
  ret final_eval.

(** [UserMemory(user_id)]: the stored profile when there is one, the
    default profile otherwise; a file that is not JSON is passed over
    ([_load] catches JSONDecodeError). *)
Definition load_user (user_id : py_str) : M unit :=
  st <- get ;;
  set_user_memory
    match read_file (user_files st) user_id with
    | Some (Written loaded) => loaded
    | Some Truncated | None => _default_profile user_id
    end.

(** [UserMemory.save], for the object made by [UserMemory(user_id)] *)
Definition save_user (user_id : py_str) : M unit :=
  st <- get ;;
  let data := _update_statistics (user_memory st) in
  set_user_memory data ;;;
  write_user_file user_id data.

Definition session_path (user_id : py_str) : py_str :=
  user_id ++ u "_" ++ save_stamp ++ u ".json".

(** [SessionMemory.save] *)
Definition save_session : M py_str :=
  st <- get ;;
  let path := session_path (sm_user_id (session st)) in
  write_session_file path (to_dict (session st)) ;;;
  ret path.

(** The [for round_key in self.round_order] loop. *)
Fixpoint run_rounds (keys : list py_str) : M (list RoundOutcome) :=
  match keys with
  | [] => ret []
  | round_key :: rest =>
      notify (OnRoundStart round_key (get_round_name round_key)) ;;;
      result <- run_single_round round_key ;;
      notify (OnRoundComplete result) ;;;
      results <- run_rounds rest ;;
      ret (result :: results)
  end.

(** What [run_full_interview] does once the rounds are over. *)
Definition conclude_interview (user_id : py_str) : M py_str :=
  notify (OnRoundStart (u "Committee") (get_round_name (u "Committee"))) ;;;
  final_eval <- run_committee_evaluation ;;
  notify (OnFinalEvaluation final_eval) ;;;
  st <- get ;;
  set_user_memory
    (add_weakness_tags (user_memory st)
       (get_all_weakness_tags list_of_set (session st))) ;;;
  st <- get ;;
  set_user_memory
    (add_strength_tags (user_memory st)
       (get_all_strength_tags list_of_set (session st))) ;;;
  st <- get ;;
  set_user_memory
    (add_interview_summary (user_memory st)
       {| h_final_score := Some (final_score final_eval);
          h_weighted_score := _calculate_weighted_score (session st);
          h_decision := fe_decision final_eval;
          h_rounds_count := len (rounds (session st));
          h_key_strengths := key_strengths final_eval;
          h_key_weaknesses := key_weaknesses final_eval |}) ;;;
  save_user user_id ;;;
  save_session.

Definition run_full_interview (user_id : py_str) : M py_str :=
  load_user user_id ;;;
  set_session (new_session user_id DEFAULT_POSITION) ;;;
  _ <- run_rounds round_order ;;
  conclude_interview user_id.

Definition is_follow_up_notice (e : Event) : bool :=
  match e with
  | OnFollowUp _ => true
  | _ => false
  end.

(** Running [c] with the [on_follow_up] callback left out: the calls it
    would have received are not made, so the events [c] adds to the trace
    are kept without them. *)
Definition without_on_follow_up {A} (c : M A) : M A := fun st =>
  let '(st', r) := c st in
  ({| user_memory := user_memory st'; session := session st';
      user_files := user_files st'; session_files := session_files st';
      llm_calls := llm_calls st'; answers_given := answers_given st';
      trace := trace st ++
               filter (fun e => negb (is_follow_up_notice e))
                      (skipn (List.length (trace st)) (trace st')) |}, r).

(** [run_quick_practice]: one round on a session of its own; the round
    type is checked first, nothing is saved, and [run_single_round] gets
    no [on_follow_up]. *)
Definition run_quick_practice (user_id round_type : py_str) : M RoundOutcome :=
  if negb (existsb (fun known => str_eqb (fst known) round_type) agents)
  then lift (Raise ValueError)
  else
    load_user user_id ;;;
    set_session (new_session user_id (u "快速练习-" ++ round_type)) ;;;
    without_on_follow_up (run_single_round round_type).

End Run.

End Workflow.

(* ================================================================== *)
(** * What the properties are stated with                             *)
(* ================================================================== *)

Import LLMClient Config Memory BaseAgent CommitteeAgent Workflow.

(** ** get_score_level *)

Definition in_band (score : num) (band : Z * Z) : bool :=
  num_le (NInt (fst band)) score && num_le score (NInt (snd band)).

Definition MID_LEVEL : ScoreLevel :=
  {| level := u "中等"; emoji := u "💪"; decision := u "候补/观察" |}.

(** ** _normalize_evaluation_result *)

(** What the score of a dict without error marker has to be: missing or
    not a number, 5; a number, its truncation clamped to the bounds
    ([bool] counts as the int it is in Python). *)
Definition expected_score (d : pydict) (s : Z) : Prop :=
  match dict_get d (u "score") with
  | None => s = 5
  | Some (JInt z) => s = Z.max 0 (Z.min 10 z)
  | Some (JBool b) => s = Z.b2z b
  | Some (JFloat f) => exists z, int_of_float f = Ok z /\ s = Z.max 0 (Z.min 10 z)
  | Some _ => s = 5
  end.

(** ** Tag normalization *)

Definition tagged_result : pydict :=
  [ (u "score", JFloat 7.9);
    (u "feedback", JStr (u "ok"));
    (u "weakness_tags",
     JList [JStr (u "结构不清晰"); JStr (u "made up"); JInt 3;
            JStr (u "结构清晰"); JStr (u "表达冗长")]);
    (u "strength_tags",
     JList [JStr (u "结构清晰"); JStr (u "结构不清晰"); JNull]) ].

(** ** should_follow_up *)


(** ** _calculate_weighted_score *)

(** The base role a round counts for. *)
Definition attributed_role (r : RoundResult) : py_str :=
  replace FOLLOWUP_SUFFIX (u "") (r_role r).

(** A float sum, adding left to right from zero. *)
Definition float_sum (xs : list float) : float :=
  fold_left PrimFloat.add xs 0.0%float.

Definition weight_terms (rs : list RoundResult) : list float :=
  map (fun r => get_round_weight (attributed_role r)) rs.

Definition score_terms (rs : list RoundResult) : list float :=
  map (fun r => PrimFloat.mul (float_of_Z (r_score r))
                              (get_round_weight (attributed_role r))) rs.

Definition plain_round (role : py_str) (score : Z) (is_follow_up : bool)
  : RoundResult :=
  {| r_role := role; r_question := u "q"; r_answer := u "a";
     r_score := score; r_feedback := JStr (u "");
     r_weakness_tags := []; r_strength_tags := [];
     r_key_points := JList []; r_improvement_hint := JStr (u "");
     r_is_follow_up := is_follow_up |}.

Definition session_of (rs : list RoundResult) : SessionMemory :=
  {| sm_user_id := u "candidate"; sm_position := DEFAULT_POSITION;
     rounds := rs; final_evaluation := None |}.

(** ** UserMemory._update_statistics *)

(** An entry whose [final_score] is missing, null or zero: the ones
    [h.get("final_score")] finds falsy. *)
Definition unscored (h : Summary) : bool :=
  match h_final_score h with
  | None => true
  | Some x => negb (num_truthy x)
  end.

Definition with_history (data : UserData) (history : list Summary) : UserData :=
  {| ud_user_id := ud_user_id data;
     ud_position := ud_position data;
     ud_profile := ud_profile data;
     ud_weakness_tags := ud_weakness_tags data;
     ud_strength_tags := ud_strength_tags data;
     ud_interview_history := history;
     ud_statistics := ud_statistics data |}.

Definition entry (final : option num) : Summary :=
  {| h_final_score := final; h_weighted_score := 0.0%float;
     h_decision := JNull; h_rounds_count := 4;
     h_key_strengths := JList []; h_key_weaknesses := JList [] |}.

(** ** run_single_round *)

(** The rounds appended to the session by a run of [run_single_round]:
    nothing (an exception before the first evaluation is recorded), the
    main round alone, or the main round followed by one follow-up. *)
Inductive round_shape : list RoundResult -> Prop :=
| shape_none : round_shape []
| shape_main (m : RoundResult) :
    r_is_follow_up m = false -> round_shape [m]
| shape_follow_up (m f : RoundResult) :
    r_is_follow_up m = false -> r_is_follow_up f = true ->
    round_shape [m; f].

(** The session round recorded for an entry of the outcome. *)
Definition recorded_as (q : QuestionEntry) (r : RoundResult) : Prop :=
  r_score r = score (q_evaluation q) /\
  r_is_follow_up r = q_is_follow_up q /\
  r_question r = q_question q /\
  r_answer r = q_answer q.

(** What C6 says of a finished round, from the state [st] it started in,
    the state [st'] it ended in and the [outcome] it returned. *)
Definition reports_last_evaluation (st st' : State) (outcome : RoundOutcome)
  : Prop :=
  exists main,
    q_is_follow_up main = false /\
    o_final_score outcome
      = score (q_evaluation (last (o_questions outcome) main)) /\
    ((o_questions outcome = [main] /\
      o_final_score outcome = score (q_evaluation main) /\
      exists m, rounds (session st') = rounds (session st) ++ [m] /\
                recorded_as main m)
     \/
     (exists follow_up,
        o_questions outcome = [main; follow_up] /\
        q_is_follow_up follow_up = true /\
        o_final_score outcome = score (q_evaluation follow_up) /\
        exists m f, rounds (session st') = rounds (session st) ++ [m; f] /\
                    recorded_as main m /\ recorded_as follow_up f)).

(** A concrete run: the model asks, scores the first answer 4 and the
    second 8.6; the candidate hedges. *)
Definition demo_text (n : nat) : py_str := u "请介绍一个你做过的数据分析项目。".

Definition demo_json (n : nat) : json :=
  if Nat.eqb n 1
  then JDict [ (u "score", JInt 4);
               (u "feedback", JStr (u "需要更多细节"));
               (u "weakness_tags", JList [JStr (u "缺少具体案例")]);
               (u "key_points", JList [JStr (u "用户留存分析")]) ]
  else JDict [ (u "score", JFloat 8.6);
               (u "feedback", JStr (u "回答完整"));
               (u "strength_tags", JList [JStr (u "结构清晰"); JStr (u "新标签")]) ].

Definition demo_answer (n : nat) (question round_name : py_str) : py_str :=
  u "我大概做过一个留存分析的项目。".

Definition demo_agent (key : py_str) : Agent :=
  {| role := key; role_cn := key |}.

Definition demo_state : State :=
  {| user_memory := _default_profile (u "candidate");
     session := new_session (u "candidate") DEFAULT_POSITION;
     user_files := [];
     session_files := [];
     llm_calls := 0;
     answers_given := 0;
     trace := [] |}.

Definition demo_round (agent_key : py_str) (st : State)
  : State * res RoundOutcome :=
  run_single_round demo_text demo_json demo_answer FOLLOW_UP_CONFIG
    (demo_agent (u "HiringManager")) (demo_agent (u "Technical"))
    (demo_agent (u "CultureFit")) agent_key st.

(** ** run_full_interview with a failing panel stage *)

(** A JSON list of strings, the shape the data model gives to the
    strengths and weaknesses of a stored interview summary. *)
Definition strings_list (x : json) : Prop :=
  exists l, x = JList (map JStr l).

(** The stored history is well formed: every summary lists its key
    weaknesses as strings. *)
Definition wf_history (history : list Summary) : Prop :=
  forall h, In h history -> strings_list (h_key_weaknesses h).

(** The record [_normalize_final_evaluation] builds for an error-marked
    answer of the panel stage. *)
Definition fallback_evaluation (d : pydict) (summary : SessionSummary)
  : FinalEvaluation :=
  {| final_score := NFloat (s_average_score summary);
     fe_decision := JStr (u "候补");
     decision_reason := JStr (u "评估生成过程出现问题，请参考各轮反馈。");
     overall_feedback :=
       JStr (u "系统暂时无法生成完整评估，建议查看各轮次的详细反馈。");
     dimension_scores := JDict [];
     key_strengths :=
       JList (map JStr (firstn 3 (s_all_strength_tags summary)));
     key_weaknesses :=
       JList (map JStr (firstn 3 (s_all_weakness_tags summary)));
     improvement_suggestions :=
       JList [JStr (u "建议重新进行面试模拟以获取完整评估")];
     practice_focus := JList [];
     next_steps := JStr (u "请重试面试模拟");
     fe_raw_error := Some (get_default d (u "raw") (JStr (u "")));
     comparative_analysis := None |}.

(** The state in which the rounds of [run_full_interview] start: the
    profile loaded, a fresh session. *)
Definition start_state (user_id : py_str) (st : State) : State :=
  fst (bind (load_user user_id)
            (fun _ => set_session (new_session user_id DEFAULT_POSITION)) st).

(** The history entry [run_full_interview] appends for the session. *)
Definition summary_entry (s : SessionMemory) (e : FinalEvaluation) : Summary :=
  {| h_final_score := Some (final_score e);
     h_weighted_score := _calculate_weighted_score s;
     h_decision := fe_decision e;
     h_rounds_count := len (rounds s);
     h_key_strengths := key_strengths e;
     h_key_weaknesses := key_weaknesses e |}.

(** A returning candidate: one interview on file; every round of the new
    one gets a follow-up; the panel stage then fails to produce JSON. *)
Definition stored_profile : UserData :=
  with_history (_default_profile (u "candidate"))
    [ {| h_final_score := Some (NInt 7);
         h_weighted_score := 7.0%float;
         h_decision := JStr (u "推荐通过");
         h_rounds_count := 4;
         h_key_strengths := JList [JStr (u "结构清晰")];
         h_key_weaknesses := JList [JStr (u "缺少具体案例")] |} ].

Definition returning_state : State :=
  {| user_memory := _default_profile (u "nobody");
     session := new_session (u "nobody") DEFAULT_POSITION;
     user_files := [(u "candidate", Written stored_profile)];
     session_files := [];
     llm_calls := 0;
     answers_given := 0;
     trace := [] |}.

Definition failing_panel_json (n : nat) : json :=
  if Nat.eqb n 16
  then JDict [ (u "error", JStr (u "JSON解析失败"));
               (u "raw", JStr (u "抱歉，我无法生成评估。")) ]
  else demo_json n.

Definition first_seen (tags : list py_str) : list py_str :=
  nodup (list_eq_dec N.eq_dec) tags.

Definition demo_interview (st : State) : State * res py_str :=
  run_full_interview demo_text failing_panel_json demo_answer first_seen
    FOLLOW_UP_CONFIG (demo_agent (u "HiringManager"))
    (demo_agent (u "Technical")) (demo_agent (u "CultureFit"))
    (u "20240101_120000") (u "candidate") st.

(** The order in which [list(set(tags))] yields the tags is free, what it
    yields is not: every tag of the list, once. *)
Definition set_order (list_of_set : list py_str -> list py_str) : Prop :=
  forall tags,
    NoDup (list_of_set tags) /\
    forall t, In t (list_of_set tags) <-> In t tags.

(** [d.get(tag, 0)] on a tag counter *)
Fixpoint tag_count (d : list (py_str * Z)) (tag : py_str) : Z :=
  match d with
  | [] => 0
  | (k, c) :: rest => if str_eqb k tag then c else tag_count rest tag
  end.

(** How often a tag occurs in a list. *)
Definition occurrences (tags : list py_str) (tag : py_str) : Z :=
  len (filter (str_eqb tag) tags).

(** The tag, not the empty one, was given to some round of the session. *)
Definition tagged_with (tags_of : RoundResult -> list py_str)
    (s : SessionMemory) (tag : py_str) : bool :=
  negb (str_eqb tag []) &&
  existsb (fun r => existsb (str_eqb tag) (tags_of r)) (rounds s).

(** The evaluation the panel stage stores for an error-marked answer [d]
    when it is reached in state [st1]: the fallback record, with the
    comparison the model gives next when the candidate has a history. *)
Definition panel_fallback (llm_text : nat -> py_str)
    (list_of_set : list py_str -> list py_str) (d : pydict) (st1 : State)
  : FinalEvaluation :=
  let fe :=
    fallback_evaluation d (session_summary_of list_of_set (session st1)) in
  match ud_interview_history (user_memory st1) with
  | [] => fe
  | _ :: _ => with_comparative fe (llm_text (S (llm_calls st1)))
  end.

(** The profile [run_full_interview] then has to save. *)
Definition profile_after (list_of_set : list py_str -> list py_str)
    (st1 : State) (fe : FinalEvaluation) : UserData :=
  _update_statistics
    (add_interview_summary
       (add_strength_tags
          (add_weakness_tags (user_memory st1)
             (get_all_weakness_tags list_of_set (session st1)))
          (get_all_strength_tags list_of_set (session st1)))
       (summary_entry (session st1) fe)).

(** An interview of the candidate of the examples, with the model's
    answers and the time stamp left open. *)
Definition interview_with (llm_json : nat -> json) (save_stamp : py_str)
    (st : State) : State * res py_str :=
  run_full_interview demo_text llm_json demo_answer first_seen
    FOLLOW_UP_CONFIG (demo_agent (u "HiringManager"))
    (demo_agent (u "Technical")) (demo_agent (u "CultureFit"))
    save_stamp (u "candidate") st.

Definition PANEL_ERROR : json :=
  JDict [ (u "error", JStr (u "JSON解析失败"));
          (u "raw", JStr (u "抱歉，我无法生成评估。")) ].

(** Two interviews of one candidate, every round with a follow-up.  The
    panel stage of the first (call 16) answers with a usable dict whose
    [key_weaknesses] is null; the panel stage of the second (call 33)
    fails to produce JSON. *)
Definition null_weaknesses_json (n : nat) : json :=
  if Nat.eqb n 16
  then JDict [ (u "final_score", JInt 7);
               (u "decision", JStr (u "推荐通过"));
               (u "key_weaknesses", JNull) ]
  else if Nat.eqb n 33 then PANEL_ERROR
  else demo_json n.

(** A first interview in which the model's feedback holds a lone surrogate
    (the JSON escape of U+D800, which [json.loads] accepts) and whose
    panel stage (call 16) fails to produce JSON. *)
Definition surrogate_feedback_json (n : nat) : json :=
  if Nat.eqb n 16 then PANEL_ERROR
  else JDict [ (u "score", JInt 7); (u "feedback", JStr [55296%N]) ].

(** ** Tag counters and statistics *)

(** Descending by count. *)
Definition count_ge (a b : py_str * Z) : Prop := snd b <= snd a.

(** Every final score on file is an integer, which is what the panel stage
    stores when the model answers with a usable dict. *)
Definition integer_scores (history : list Summary) : Prop :=
  forall h x, In h history -> h_final_score h = Some x -> exists z, x = NInt z.

Definition with_tags (data : UserData) (weak strong : list (py_str * Z))
  : UserData :=
  {| ud_user_id := ud_user_id data;
     ud_position := ud_position data;
     ud_profile := ud_profile data;
     ud_weakness_tags := weak;
     ud_strength_tags := strong;
     ud_interview_history := ud_interview_history data;
     ud_statistics := ud_statistics data |}.

(** A profile with three weaknesses on record, two of them three times. *)
Definition tagged_profile : UserData :=
  with_tags (_default_profile (u "candidate"))
    [ (u "结构不清晰", 2); (u "表达冗长", 3); (u "缺少具体案例", 3) ]
    [ (u "结构清晰", 1) ].

(** ** Normalizing twice *)

(** A record without its [raw_error] key. *)
Definition without_raw_error (e : Evaluation) : Evaluation :=
  {| score := score e;
     feedback := feedback e;
     weakness_tags := weakness_tags e;
     strength_tags := strength_tags e;
     key_points := key_points e;
     improvement_hint := improvement_hint e;
     raw_error := None |}.

(** ** Rounds of an interview *)

(** The rounds a finished round adds, with what it cost: [k] questions
    asked and answered, two model calls for each. *)
Definition round_added (key : py_str) (st st' : State) (k : nat)
    (added : list RoundResult) : Prop :=
  rounds (session st') = rounds (session st) ++ added /\
  llm_calls st' = (llm_calls st + 2 * k)%nat /\
  answers_given st' = (answers_given st + k)%nat /\
  ((k = 1%nat /\ exists m, added = [m] /\ r_role m = key /\
                           r_is_follow_up m = false) \/
   (k = 2%nat /\ exists m f, added = [m; f] /\ r_role m = key /\
                             r_is_follow_up m = false /\
                             r_is_follow_up f = true)).

(** The rounds of a whole interview: for each key in turn a main round,
    alone or with its follow-up. *)
Inductive rounds_for : list py_str -> list RoundResult -> Prop :=
| rounds_done : rounds_for [] []
| rounds_main (key : py_str) (keys : list py_str) (m : RoundResult)
    (rest : list RoundResult) :
    r_role m = key -> r_is_follow_up m = false ->
    rounds_for keys rest -> rounds_for (key :: keys) (m :: rest)
| rounds_follow_up (key : py_str) (keys : list py_str) (m f : RoundResult)
    (rest : list RoundResult) :
    r_role m = key -> r_is_follow_up m = false -> r_is_follow_up f = true ->
    rounds_for keys rest -> rounds_for (key :: keys) (m :: f :: rest).

(** How many model calls the comparison with earlier interviews costs a
    candidate whose profile is read from [files]: one when there is an
    interview on file, none otherwise. *)
Definition comparison_calls (files : list (py_str * file UserData))
    (user_id : py_str) : nat :=
  match read_file files user_id with
  | Some (Written loaded) =>
      match ud_interview_history loaded with
      | [] => 0
      | _ :: _ => 1
      end
  | Some Truncated | None => 0
  end.

(** ** Quick practice *)

(** The callbacks a quick practice passes on: questions and evaluations. *)
Definition practice_event (e : Event) : Prop :=
  match e with
  | OnQuestion _ _ | OnEvaluation _ => True
  | _ => False
  end.

Definition demo_practice (round_type : py_str) (st : State)
  : State * res RoundOutcome :=
  run_quick_practice demo_text demo_json demo_answer FOLLOW_UP_CONFIG
    (demo_agent (u "HiringManager")) (demo_agent (u "Technical"))
    (demo_agent (u "CultureFit")) (u "candidate") round_type st.

(** ** A history the comparison cannot read *)

(** The line [generate_comparative_analysis] writes for a stored
    interview: its [key_weaknesses] sliced to two items and joined. *)
Definition comparison_line (h : Summary) : res unit :=
  (two <- slice_to 2 (h_key_weaknesses h) ;;
   _ <- join (u ", ") two ;; Ok tt)%res.

(** One of the last five interviews on file has [key_weaknesses] that
    cannot be sliced and joined: null, a number, a dict, or a list with an
    item that is not a string. *)
Definition unreadable_history (history : list Summary) : Prop :=
  exists h, In h (last_n 5 history) /\ comparison_line h <> Ok tt.


(** A candidate whose one stored interview has a null [key_weaknesses]. *)
Definition null_weaknesses_entry : Summary :=
  {| h_final_score := Some (NInt 7);
     h_weighted_score := 7.0%float;
     h_decision := JStr (u "推荐通过");
     h_rounds_count := 4;
     h_key_strengths := JList [];
     h_key_weaknesses := JNull |}.

Definition blocked_state : State :=
  {| user_memory := _default_profile (u "nobody");
     session := new_session (u "nobody") DEFAULT_POSITION;
     user_files :=
       [(u "candidate",
         Written (with_history (_default_profile (u "candidate"))
                    [null_weaknesses_entry]))];
     session_files := [];
     llm_calls := 0;
     answers_given := 0;
     trace := [] |}.
(* ================================================================== *)
(** * core/llm_client.py: retrying a call                              *)
(* ================================================================== *)

Module Retry.

(** What reading [e.status_code] gives on the [APIError] caught by the
    third handler: the attribute may be missing, be None, or be a number. *)
Inductive status_code : Type :=
| NoAttribute
| Status (code : option Z).

(** The exceptions of a call, as the handlers of [_retry_with_backoff]
    tell them apart, in the order of the [except] clauses; the last stands
    for every exception that no clause catches. *)
Inductive failure : Type :=
| RateLimitError
| APIConnectionError
| APIError (status : status_code)
| OtherException.

Inductive call_result (A : Type) : Type :=
| Returns (v : A)
| Fails (e : failure).
Arguments Returns {A} v.
Arguments Fails {A} e.

(** What leaves [_retry_with_backoff]: an exception of the call, or one
    that the loop itself raises. *)
Inductive raised : Type :=
| Propagated (e : failure)
| Builtin (e : exn).

Inductive ended (A : Type) : Type :=
| Returned (v : A)
| Raised (e : raised).
Arguments Returned {A} v.
Arguments Raised {A} e.

(** The number of calls made so far and the waits of [time.sleep], in the
    order in which they happened. *)
Record World : Type := {
  calls : nat;
  slept : list Z
}.

(** The handlers that wait and go on: a rate limit, a connection error, and
    an [APIError] with [e.status_code and e.status_code >= 500]. *)
Definition retryable (e : failure) : bool :=
  match e with
  | RateLimitError | APIConnectionError => true
  | APIError (Status (Some code)) => negb (code =? 0) && (500 <=? code)
  | APIError (Status None) | APIError NoAttribute | OtherException => false
  end.

(** The body of [for attempt in range(self.max_retries)], from [attempt]
    on with [todo] iterations left, then [raise last_error].  The [n]-th
    call of [func] gives [func n].  [time.sleep] raises ValueError on a
    negative length; [raise None] raises TypeError. *)
Fixpoint attempts {A : Type} (func : nat -> call_result A) (retry_delay : Z)
    (todo : nat) (attempt : Z) (last_error : option failure) (w : World)
  : World * ended A :=
  match todo with
  | O =>
      (w, match last_error with
          | Some e => Raised (Propagated e)
          | None => Raised (Builtin TypeError)
          end)
  | S todo' =>
      let w1 := {| calls := S (calls w); slept := slept w |} in
      match func (calls w) with
      | Returns v => (w1, Returned v)
      | Fails e =>
          let back_off :=
            let wait_time := retry_delay * 2 ^ attempt in
            if wait_time <? 0
            then (w1, Raised (Builtin ValueError))
            else attempts func retry_delay todo' (attempt + 1) (Some e)
                   {| calls := calls w1; slept := slept w1 ++ [wait_time] |}
          in
          match e with
          | RateLimitError => back_off
          | APIConnectionError => back_off
          | APIError NoAttribute => (w1, Raised (Builtin AttributeError))
          | APIError (Status code) =>
              if match code with
                 | Some code => negb (code =? 0) && (500 <=? code)
                 | None => false
                 end
              then back_off
              else (w1, Raised (Propagated e))
          | OtherException => (w1, Raised (Propagated e))
          end
      end
  end.

Definition _retry_with_backoff {A : Type} (func : nat -> call_result A)
    (retry_delay max_retries : Z) (w : World) : World * ended A :=
  attempts func retry_delay (Z.to_nat max_retries) 0 None w.

End Retry.

Import Retry.

(** ** The waits of a run of [_retry_with_backoff] *)

(** [k] waits from attempt [a] on: the delay doubles each time. *)
Definition waits_from (retry_delay a : Z) (k : nat) : list Z :=
  map (fun i => retry_delay * 2 ^ (a + Z.of_nat i)) (seq 0 k).

Definition total (waits : list Z) : Z := fold_right Z.add 0 waits.

(** What a call raises that is not tried again. *)
Definition gives_up (e : failure) : raised :=
  match e with
  | APIError NoAttribute => Builtin AttributeError
  | _ => Propagated e
  end.

(** Three calls: the rate limit, a server error, then a reply. *)
Definition third_time_lucky (n : nat) : call_result py_str :=
  match n with
  | 0%nat => Fails RateLimitError
  | 1%nat => Fails (APIError (Status (Some 503)))
  | _ => Returns (u "ok")
  end.

(* ================================================================== *)
(** * main.py: the answer typed at the command line                    *)
(* ================================================================== *)

Module CLI.

Definition SKIPPED : py_str := u "（候选人选择跳过此问题）".
Definition NO_ANSWER : py_str := u "（候选人未作答）".

(** [line.lower() == 'skip'].  Lower-casing maps each character on its
    own, to one character except for U+0130, so the test holds for the
    lines of four characters that lower-case to s, k, i and p: the ASCII
    letters in either case, and the Kelvin sign U+212A for k. *)
Definition lowers_to_skip (line : py_str) : bool :=
  match line with
  | [s; k; i; p] =>
      (((s =? 83) || (s =? 115)) &&
       ((k =? 75) || (k =? 107) || (k =? 8490)) &&
       ((i =? 73) || (i =? 105)) &&
       ((p =? 80) || (p =? 112)))%N
  | _ => false
  end.

(** [not s] for a string or a list *)
Definition is_empty {A} (s : list A) : bool :=
  match s with
  | [] => true
  | _ :: _ => false
  end.

(** ["\n".join(lines)] *)
Fixpoint join_lines (lines : list py_str) : py_str :=
  match lines with
  | [] => []
  | line :: rest =>
      match rest with
      | [] => line
      | _ :: _ => line ++ 10%N :: join_lines rest
      end
  end.

(** How the [while True] loop of [get_user_answer] is left: by the
    [return] of a skip, or with the lines collected (by a [break] or by
    EOFError). *)
Inductive entered : Type :=
| Skip
| Lines (lines : list py_str).

(** The loop.  [stdin] holds the lines that [input()] has yet to return,
    without their line ends; when none is left [input()] raises EOFError.
    The result comes with the lines left unread. *)
Fixpoint read_lines (stdin lines : list py_str) : list py_str * entered :=
  match stdin with
  | [] => ([], Lines lines)
  | line :: rest =>
      if lowers_to_skip line then (rest, Skip)
      else if is_empty line && negb (is_empty lines) then (rest, Lines lines)
      else
        let lines := lines ++ [line] in
        if is_empty (last lines []) then (rest, Lines lines)
        else read_lines rest lines
  end.

Definition get_user_answer (stdin : list py_str) : list py_str * py_str :=
  let '(rest, e) := read_lines stdin [] in
  match e with
  | Skip => (rest, SKIPPED)
  | Lines lines =>
      let answer := strip (join_lines lines) in
      (rest, if is_empty answer then NO_ANSWER else answer)
  end.

End CLI.

(** ** What the candidate typed *)

(** A line that neither ends the answer nor skips the question. *)
Definition answer_line (line : py_str) : Prop :=
  line <> [] /\ CLI.lowers_to_skip line = false.

(** The answer made of the lines typed. *)
Definition answer_of (typed : list py_str) : py_str :=
  match strip (CLI.join_lines typed) with
  | [] => CLI.NO_ANSWER
  | c :: s => c :: s
  end.

(** A candidate who types [skip], in capitals, to every question. *)
Definition skipping (n : nat) (question round_name : py_str) : py_str :=
  snd (CLI.get_user_answer [u "SKIP"]).

(** A model that gives every answer nine points. *)
Definition praising_json (n : nat) : json :=
  JDict [ (u "score", JInt 9); (u "feedback", JStr (u "回答完整")) ].

Definition skipped_round (agent_key : py_str) (st : State)
  : State * res RoundOutcome :=
  run_single_round demo_text praising_json skipping FOLLOW_UP_CONFIG
    (demo_agent (u "HiringManager")) (demo_agent (u "Technical"))
    (demo_agent (u "CultureFit")) agent_key st.


(* ================================================================== *)
(** * Proof tools                                                      *)
(* ================================================================== *)

Ltac step_res H :=
  match type of H with
  | rbind ?c _ = Ok _ =>
      let x := fresh "x" in
      let E := fresh "E" in
      destruct c as [x|] eqn:E; cbn [rbind] in H; [|discriminate H]
  end.

(** Running a monadic computation on a state: its steps unfold as soon as
    the state is supplied. *)
Arguments bind {A B} c k st /.
Arguments lift {A} c st /.
Arguments ret {A} a st /.
Arguments _handle_follow_up llm_text llm_json get_user_answer agent
  original_question original_answer evaluation reason st /.

Ltac run_cbn :=
  cbn [run_single_round _handle_follow_up evaluate_answer
       generate_with_system generate_json ask record_round notify
       tick_llm tick_answer get set_session set_user_memory
       write_user_file write_session_file lift ret bind
       user_memory session user_files session_files llm_calls
       answers_given trace
       o_round o_round_name o_questions o_final_score fst snd].

(** Case analysis on every step that may raise and on every test. *)
Ltac run_split :=
  repeat (run_cbn;
          match goal with
          | |- context [match ?c with Ok _ => _ | Raise _ => _ end] =>
              destruct c eqn:?
          | |- context [let '(_, _) := ?p in _] => destruct p eqn:?
          | |- context [if ?b then _ else _] => destruct b eqn:?
          end);
  run_cbn.

(** Solves [run = (?st, ?result)] by evaluating the run. *)
Ltac run_to_value :=
  match goal with
  | |- ?run = _ =>
      let v := eval vm_compute in run in
      transitivity v; [vm_compute; reflexivity | reflexivity]
  end.

Arguments conclude_interview llm_text llm_json list_of_set save_stamp
  user_id st /.
Arguments run_committee_evaluation llm_text llm_json list_of_set st /.
Arguments generate_final_evaluation llm_json session_summary user_history
  st /.
Arguments generate_comparative_analysis llm_text current_evaluation
  historical_evaluations st /.
Arguments save_user user_id st /.
Arguments save_session list_of_set save_stamp st /.
Arguments load_user user_id st /.
Arguments write_user_file user_id data st /.
Arguments write_session_file path dump st /.

Ltac full_cbn :=
  cbn [conclude_interview run_committee_evaluation generate_final_evaluation
       generate_comparative_analysis save_user save_session load_user
       generate_with_system generate_json notify
       tick_llm tick_answer get set_session set_user_memory
       write_user_file write_session_file lift ret bind
       user_memory session user_files session_files llm_calls
       answers_given trace fst snd].

(** Case analysis on the steps of the closing stage. *)
Ltac full_split :=
  repeat (full_cbn;
          match goal with
          | |- context [match ?c with Ok _ => _ | Raise _ => _ end] =>
              destruct c eqn:?
          | |- context [match ud_interview_history ?x with
                        | [] => _ | _ :: _ => _ end] =>
              destruct (ud_interview_history x) eqn:?
          | |- context [if ?b then _ else _] => destruct b eqn:?
          end);
  full_cbn.

(** For a goal [exists st' x, run = (st', Ok x) /\ _] on a concrete run:
    the run is evaluated, and [H] says what it returns. *)
Ltac run_example H :=
  match goal with
  | |- exists st' x, ?run = _ /\ _ =>
      assert (H : exists st' x, run = (st', Ok x))
        by (do 2 eexists; run_to_value)
  end.


(* ================================================================== *)
(** * Properties                                                       *)
(* ================================================================== *)

(** ** Strings and results: basic facts *)

Lemma str_eqb_eq (a b : py_str) : str_eqb a b = true <-> a = b.
Proof.
  unfold str_eqb. destruct (list_eq_dec N.eq_dec a b); split; congruence.
Qed.

Lemma str_eqb_refl (a : py_str) : str_eqb a a = true.
Proof. now apply str_eqb_eq. Qed.

Lemma eq_str_true (x : json) (s : py_str) : eq_str x s = true <-> x = JStr s.
Proof.
  destruct x; cbn; try (split; [discriminate | congruence]).
  rewrite str_eqb_eq. split; congruence.
Qed.

Lemma in_strs_true (x : json) (vocab : list py_str) :
  in_strs x vocab = true <-> exists s, x = JStr s /\ In s vocab.
Proof.
  unfold in_strs. rewrite existsb_exists. split.
  - intros (s & Hin & Heq). apply eq_str_true in Heq. eauto.
  - intros (s & -> & Hin). exists s. split; [assumption|].
    now apply eq_str_true.
Qed.

(** ** get_score_level *)

Lemma first_band_none (items : list ((Z * Z) * ScoreLevel)) (score : num) :
  (forall band info, In (band, info) items -> in_band score band = false) ->
  first_band items score = None.
Proof.
  induction items as [|[[low high] info] rest IH]; intros Hout;
    cbn [first_band].
  - reflexivity.
  - pose proof (Hout (low, high) info (or_introl eq_refl)) as Hb.
    unfold in_band in Hb. cbn [fst snd] in Hb. rewrite Hb.
    apply IH. intros band info' Hin. apply (Hout band info'). now right.
Qed.

Lemma first_band_in (items : list ((Z * Z) * ScoreLevel)) (score : num)
    (info : ScoreLevel) :
  first_band items score = Some info ->
  exists band, In (band, info) items /\ in_band score band = true.
Proof.
  induction items as [|[[low high] i] rest IH]; cbn [first_band];
    [discriminate|].
  destruct (num_le (NInt low) score && num_le score (NInt high)) eqn:Hb.
  - intros [= <-]. exists (low, high). split; [now left | exact Hb].
  - intros H. destruct (IH H) as (band & Hin & Hband).
    exists band. split; [now right | assumption].
Qed.

(** C10, as amended.  [get_score_level] never raises, and a score that lies
    in none of the five bands (a fraction between two bands such as 6.5, a
    negative score, a score above 10, a NaN) gets the entry of the band
    (5, 6), whose level is "中等" and whose decision is "候补/观察". *)
Theorem get_score_level_total_mid_tier :
  (forall score, exists info, get_score_level score = Ok info) /\
  (forall score,
     (forall band info, In (band, info) SCORE_LEVELS ->
                        in_band score band = false) ->
     get_score_level score = Ok MID_LEVEL) /\
  levels_subscript SCORE_LEVELS (5, 6) = Ok MID_LEVEL /\
  get_score_level (NFloat 6.5) = Ok MID_LEVEL /\
  get_score_level (NFloat 8.5) = Ok MID_LEVEL /\
  get_score_level (NInt (-1)) = Ok MID_LEVEL /\
  get_score_level (NFloat (-0.5)) = Ok MID_LEVEL /\
  get_score_level (NInt 11) = Ok MID_LEVEL /\
  get_score_level (NFloat 10.25) = Ok MID_LEVEL /\
  get_score_level (NFloat nan) = Ok MID_LEVEL.
Proof.
  split; [|split].
  - intros score. unfold get_score_level.
    destruct (first_band SCORE_LEVELS score) as [info|].
    + now exists info.
    + exists MID_LEVEL. reflexivity.
  - intros score Hout. unfold get_score_level.
    rewrite (first_band_none _ _ Hout). reflexivity.
  - repeat split; vm_compute; reflexivity.
Qed.

Lemma get_score_level_total_mid_tier_witness :
  get_score_level (NFloat 6.5) = Ok MID_LEVEL.
Proof.
  apply (proj1 (proj2 get_score_level_total_mid_tier)).
  intros band info Hin. cbn in Hin.
  repeat (destruct Hin as [[= <- <-]|Hin]; [vm_compute; reflexivity|]).
  destruct Hin.
Defined.

(** C10, as stated, fails on the decision text: the entry returned for 6.5
    does not carry the decision "候补". *)
Lemma get_score_level_mid_decision_differs :
  ~ (exists info, get_score_level (NFloat 6.5) = Ok info /\
                  decision info = u "候补").
Proof.
  intros (info & Hget & Hdec).
  assert (H : get_score_level (NFloat 6.5) = Ok MID_LEVEL)
    by (vm_compute; reflexivity).
  rewrite H in Hget. injection Hget as <-.
  vm_compute in Hdec. discriminate Hdec.
Qed.

(** ** _normalize_evaluation_result *)

Lemma clamp_score_range (z : Z) : SCORE_MIN <= clamp_score z <= SCORE_MAX.
Proof. unfold clamp_score, SCORE_MIN, SCORE_MAX. lia. Qed.

Lemma normalize_score_range (x : json) (z : Z) :
  normalize_score x = Ok z -> SCORE_MIN <= z <= SCORE_MAX.
Proof.
  destruct x; cbn; try (intros [= <-]; unfold SCORE_MIN, SCORE_MAX; lia);
    try (intros [= <-]; apply clamp_score_range).
  destruct (int_of_float f); cbn; [|discriminate].
  intros [= <-]. apply clamp_score_range.
Qed.

(** The normalizer on the inputs it accepts: whenever a record comes out,
    its score is an integer within the bounds, equal to 5 for an
    error-marked input and to the truncated, clamped input score
    otherwise. *)
Lemma normalize_score_correct (result : json) (e : Evaluation) :
  _normalize_evaluation_result result = Ok e ->
  SCORE_MIN <= score e <= SCORE_MAX /\
  (str_in (u "error") result = Ok true -> score e = 5) /\
  (forall d, result = JDict d -> dict_has d (u "error") = false ->
             expected_score d (score e)).
Proof.
  unfold _normalize_evaluation_result. intros H.
  step_res H. destruct x as [|].
  - step_res H. injection H as <-. cbn [score].
    repeat split; try (unfold SCORE_MIN, SCORE_MAX; lia).
    intros d -> Hd. cbn [str_in] in E. injection E as E. congruence.
  - do 9 step_res H. injection H as <-. cbn [score].
    split; [eapply normalize_score_range; eassumption|].
    split; [intros; congruence|].
    intros d -> _. cbn [method_get] in E0. injection E0 as <-.
    unfold expected_score, get_default in *.
    destruct (dict_get d (u "score")) as [[| b | z | f | s | l | d']|];
      cbn in E1; try (injection E1 as <-; reflexivity).
    + injection E1 as <-. unfold clamp_score, SCORE_MIN, SCORE_MAX.
      destruct b; reflexivity.
    + destruct (int_of_float f) as [z|]; cbn in E1; [|discriminate].
      injection E1 as <-. exists z. split; reflexivity.
Qed.

(** An error-marked dict always yields the fallback record. *)
Lemma normalize_error_marked (d : pydict) :
  dict_has d (u "error") = true ->
  exists e, _normalize_evaluation_result (JDict d) = Ok e /\
            score e = 5 /\ weakness_tags e = [] /\ strength_tags e = [].
Proof.
  intros Hd. unfold _normalize_evaluation_result.
  cbn [str_in rbind]. rewrite Hd. cbn [method_get rbind].
  eexists. repeat split.
Qed.

(** A dict without error marker yields a record as soon as its score is
    not a non-finite float and both tag entries can be iterated. *)
Lemma normalize_dict_returns (d : pydict) (z : Z) (ws ss : list json) :
  dict_has d (u "error") = false ->
  normalize_score (get_default d (u "score") (JInt 5)) = Ok z ->
  iterate (get_default d (u "weakness_tags") (JList [])) = Ok ws ->
  iterate (get_default d (u "strength_tags") (JList [])) = Ok ss ->
  _normalize_evaluation_result (JDict d) =
  Ok {| score := z;
        feedback := get_default d (u "feedback") (JStr (u ""));
        weakness_tags := keep_tags WEAKNESS_TAGS ws;
        strength_tags := keep_tags STRENGTH_TAGS ss;
        key_points := get_default d (u "key_points") (JList []);
        improvement_hint := get_default d (u "improvement_hint") (JStr (u ""));
        raw_error := None |}.
Proof.
  intros Hd Hz Hw Hs. unfold _normalize_evaluation_result.
  cbn [str_in rbind method_get]. rewrite Hd. cbn [rbind].
  rewrite Hz. cbn [rbind]. rewrite Hw. cbn [rbind]. rewrite Hs.
  reflexivity.
Qed.

(** C1.  A dict whose score is an infinite float, which [json.loads] makes
    of the text 1e999, is not normalized to a score within the bounds: the
    conversion [int(score)] raises before the clamp is reached.  The same
    happens for a NaN. *)
Theorem normalize_raises_on_non_finite_score :
  _normalize_evaluation_result (JDict [(u "score", JFloat infinity)])
    = Raise OverflowError /\
  _normalize_evaluation_result (JDict [(u "score", JFloat nan)])
    = Raise ValueError.
Proof. split; vm_compute; reflexivity. Qed.

(** Whatever [json.loads] makes of the cleaned answer at the first
    attempt, a dict or not, is what [_parse_json_response] returns. *)
Lemma parse_returns_first_attempt
    (json_loads : py_str -> option json) (response : py_str) (value : json) :
  json_loads (strip_fences response) = Some value ->
  _parse_json_response json_loads response = value.
Proof. intros H. unfold _parse_json_response. now rewrite H. Qed.

(** When no attempt parses, the error dict is returned, and the
    normalizer answers it with the fallback record. *)
Lemma parse_failure_is_recovered
    (json_loads : py_str -> option json) (response : py_str) :
  (forall text, json_loads text = None) ->
  _parse_json_response json_loads response
    = JDict [(u "error", JStr PARSE_FAILED); (u "raw", JStr response)] /\
  exists e,
    _normalize_evaluation_result (_parse_json_response json_loads response)
      = Ok e /\
    score e = 5 /\ raw_error e = Some (JStr response).
Proof.
  intros Hnone.
  assert (Hp : _parse_json_response json_loads response
               = JDict [(u "error", JStr PARSE_FAILED);
                        (u "raw", JStr response)]).
  { unfold _parse_json_response, extract. rewrite !Hnone.
    repeat match goal with
           | |- context [if ?b then _ else _] => destruct b
           end; reflexivity. }
  split; [exact Hp|]. rewrite Hp. eexists. split; [reflexivity|].
  split; reflexivity.
Qed.

(** C8.  No value other than a dict is normalized: a parsed array raises
    AttributeError at the first [result.get], whether or not it contains
    the string "error"; so does a string; a number, a boolean and null
    raise TypeError at the test ["error" in result].  The JSON layer hands
    such values on: an answer that [json.loads] reads as an array reaches
    the normalizer as that array. *)
Theorem normalize_raises_on_non_dict :
  (forall l, _normalize_evaluation_result (JList l) = Raise AttributeError) /\
  (forall s, _normalize_evaluation_result (JStr s) = Raise AttributeError) /\
  (forall z, _normalize_evaluation_result (JInt z) = Raise TypeError) /\
  (forall f, _normalize_evaluation_result (JFloat f) = Raise TypeError) /\
  (forall b, _normalize_evaluation_result (JBool b) = Raise TypeError) /\
  _normalize_evaluation_result JNull = Raise TypeError /\
  _normalize_evaluation_result (JList [JInt 1; JInt 2]) = Raise AttributeError /\
  (forall json_loads response l,
     json_loads (strip_fences response) = Some (JList l) ->
     _normalize_evaluation_result (_parse_json_response json_loads response)
       = Raise AttributeError).
Proof.
  assert (Hlist : forall l,
             _normalize_evaluation_result (JList l) = Raise AttributeError).
  { intros l. unfold _normalize_evaluation_result. cbn [str_in rbind].
    destruct (existsb _ l); reflexivity. }
  split; [exact Hlist|].
  repeat split; try reflexivity.
  - intros s. unfold _normalize_evaluation_result. cbn [str_in rbind].
    destruct (str_contains _ s); reflexivity.
  - intros json_loads response l Hloads.
    rewrite (parse_returns_first_attempt _ _ _ Hloads). apply Hlist.
Qed.

(** Even a dict is not always normalized: a null tag list cannot be
    iterated. *)
Lemma normalize_raises_on_null_tags :
  _normalize_evaluation_result
    (JDict [(u "score", JInt 7); (u "weakness_tags", JNull)])
  = Raise TypeError.
Proof. vm_compute. reflexivity. Qed.

(** ** Tag normalization *)

(** The typed comprehension is the source's filter: the items kept are
    exactly the items [t] with [t in vocab], in order, as they were. *)
Lemma keep_tags_filter (vocab : list py_str) (items : list json) :
  map JStr (keep_tags vocab items) = filter (fun t => in_strs t vocab) items.
Proof.
  induction items as [|t rest IH]; cbn [keep_tags filter map].
  - reflexivity.
  - destruct (in_strs t vocab) eqn:Hin; [|exact IH].
    apply in_strs_true in Hin. destruct Hin as (s & -> & _).
    cbn [map]. now rewrite IH.
Qed.

Lemma keep_tags_in (vocab : list py_str) (items : list json) (s : py_str) :
  In s (keep_tags vocab items) <-> In (JStr s) items /\ In s vocab.
Proof.
  assert (Hinj : In s (keep_tags vocab items) <->
                 In (JStr s) (map JStr (keep_tags vocab items))).
  { split; [apply in_map|].
    intros H. apply in_map_iff in H. destruct H as (s' & [= ->] & H).
    exact H. }
  rewrite Hinj, keep_tags_filter, filter_In. split.
  - intros [Hi Hv]. split; [exact Hi|].
    apply in_strs_true in Hv. destruct Hv as (s' & [= ->] & Hv). exact Hv.
  - intros [Hi Hv]. split; [exact Hi|]. apply in_strs_true. eauto.
Qed.

Lemma keep_tags_vocab (vocab : list py_str) (items : list json) :
  Forall (fun s => In s vocab) (keep_tags vocab items).
Proof.
  apply Forall_forall. intros s Hs. now apply keep_tags_in in Hs.
Qed.

(** C7.  Tag normalization is the filter by the vocabulary.
    - The comprehension that normalizes a tag list keeps exactly the items
      that are vocabulary tags, unchanged and in their order: a vocabulary
      tag of the input is in the output, any other item is not.
    - Every record the normalizer returns has its weakness tags in
      WEAKNESS_TAGS and its strength tags in STRENGTH_TAGS.
    - When the normalizer returns a record for a dict without error marker,
      the tag lists of the record are the normalized tag lists of the dict;
      and it does return one when the dict carries two tag lists and a
      score that can be normalized. *)
Theorem normalized_tags_are_vocabulary_filter :
  (forall vocab items,
     map JStr (keep_tags vocab items)
       = filter (fun t => in_strs t vocab) items /\
     (forall s, In s vocab -> In (JStr s) items ->
                In s (keep_tags vocab items)) /\
     (forall t, in_strs t vocab = false ->
                ~ In t (map JStr (keep_tags vocab items)))) /\
  (forall result e,
     _normalize_evaluation_result result = Ok e ->
     Forall (fun s => In s WEAKNESS_TAGS) (weakness_tags e) /\
     Forall (fun s => In s STRENGTH_TAGS) (strength_tags e)) /\
  (forall d e ws ss,
     _normalize_evaluation_result (JDict d) = Ok e ->
     dict_has d (u "error") = false ->
     get_default d (u "weakness_tags") (JList []) = JList ws ->
     get_default d (u "strength_tags") (JList []) = JList ss ->
     weakness_tags e = keep_tags WEAKNESS_TAGS ws /\
     strength_tags e = keep_tags STRENGTH_TAGS ss) /\
  (forall d z ws ss,
     dict_has d (u "error") = false ->
     normalize_score (get_default d (u "score") (JInt 5)) = Ok z ->
     get_default d (u "weakness_tags") (JList []) = JList ws ->
     get_default d (u "strength_tags") (JList []) = JList ss ->
     exists e,
       _normalize_evaluation_result (JDict d) = Ok e /\
       map JStr (weakness_tags e)
         = filter (fun t => in_strs t WEAKNESS_TAGS) ws /\
       map JStr (strength_tags e)
         = filter (fun t => in_strs t STRENGTH_TAGS) ss).
Proof.
  split; [|split; [|split]].
  - intros vocab items. split; [apply keep_tags_filter|]. split.
    + intros s Hv Hi. apply keep_tags_in. now split.
    + intros t Hout Hin. rewrite keep_tags_filter in Hin.
      apply filter_In in Hin. destruct Hin as [_ Hin]. congruence.
  - intros result e H. unfold _normalize_evaluation_result in H.
    step_res H. destruct x as [|].
    + step_res H. injection H as <-. cbn. split; constructor.
    + do 9 step_res H. injection H as <-. cbn [weakness_tags strength_tags].
      split; apply keep_tags_vocab.
  - intros d e ws ss H Hd Hw Hs. unfold _normalize_evaluation_result in H.
    cbn [str_in rbind method_get] in H. rewrite Hd in H. cbn [rbind] in H.
    step_res H. rewrite Hw, Hs in H. cbn [iterate rbind] in H.
    injection H as <-. split; reflexivity.
  - intros d z ws ss Hd Hz Hw Hs.
    eexists. split.
    + apply (normalize_dict_returns d z ws ss Hd Hz).
      * rewrite Hw. reflexivity.
      * rewrite Hs. reflexivity.
    + cbn [weakness_tags strength_tags].
      split; apply keep_tags_filter.
Qed.

Lemma normalized_tags_are_vocabulary_filter_witness :
  exists e,
    _normalize_evaluation_result (JDict tagged_result) = Ok e /\
    map JStr (weakness_tags e)
      = [JStr (u "结构不清晰"); JStr (u "表达冗长")] /\
    map JStr (strength_tags e) = [JStr (u "结构清晰")].
Proof.
  destruct (proj2 (proj2 (proj2 normalized_tags_are_vocabulary_filter))
              tagged_result 7
              [JStr (u "结构不清晰"); JStr (u "made up"); JInt 3;
               JStr (u "结构清晰"); JStr (u "表达冗长")]
              [JStr (u "结构清晰"); JStr (u "结构不清晰"); JNull])
    as (e & He & Hw & Hs);
    try (vm_compute; reflexivity).
  exists e. split; [exact He|]. split.
  - rewrite Hw. vm_compute. reflexivity.
  - rewrite Hs. vm_compute. reflexivity.
Defined.

(** ** should_follow_up *)



Lemma as_dict_score (e : Evaluation) (dflt : json) :
  get_default (as_dict e) (u "score") dflt = JInt (score e).
Proof. reflexivity. Qed.



(** ** _calculate_weighted_score *)

Lemma weighted_fold (rs : list RoundResult) (tw ws : float) :
  fold_left weighted_step rs (tw, ws) =
  (fold_left PrimFloat.add (weight_terms rs) tw,
   fold_left PrimFloat.add (score_terms rs) ws).
Proof.
  revert tw ws. induction rs as [|r rs IH]; intros tw ws.
  - reflexivity.
  - cbn [fold_left weight_terms score_terms map]. unfold weighted_step at 2.
    apply IH.
Qed.

(** C3.  The weighted composite is the sum over the rounds of score times
    the weight of the round's base role, divided by the sum of those same
    weights, one per round, rounded to two decimals (and 0.0 when that sum
    of weights is not positive, as for a session without rounds).  A
    follow-up entry counts for its base role: for each interviewer key,
    the role with the follow-up suffix is attributed to the key itself.
    Rounds HR = 8, Technical = 4, CultureFit = 9 give
    (8*0.15 + 4*0.35 + 9*0.15) / (0.15 + 0.35 + 0.15), that is 6.08; the
    divisor is 0.65, not the sum of the whole weight table. *)
Theorem weighted_score_formula :
  (forall session,
     _calculate_weighted_score session =
     let weighted_sum := float_sum (score_terms (rounds session)) in
     let total_weight := float_sum (weight_terms (rounds session)) in
     if PrimFloat.ltb 0.0 total_weight
     then round2 (PrimFloat.div weighted_sum total_weight)
     else 0.0%float) /\
  (forall key, In key round_order ->
     forall score is_follow_up,
       attributed_role (plain_round (key ++ FOLLOWUP_SUFFIX) score is_follow_up)
         = key /\
       attributed_role (plain_round key score is_follow_up) = key) /\
  (let rs := [plain_round (u "HR") 8 false;
              plain_round (u "Technical") 4 false;
              plain_round (u "CultureFit") 9 false] in
   weight_terms rs = [0.15; 0.35; 0.15]%float /\
   float_sum (weight_terms rs) = 0.65%float /\
   _calculate_weighted_score (session_of rs) =
     round2 (PrimFloat.div
               (PrimFloat.add (PrimFloat.add (PrimFloat.mul 8 0.15)
                                             (PrimFloat.mul 4 0.35))
                              (PrimFloat.mul 9 0.15))
               (PrimFloat.add (PrimFloat.add 0.15 0.35) 0.15)) /\
   _calculate_weighted_score (session_of rs) = 6.08%float) /\
  _calculate_weighted_score
    (session_of [plain_round (u "HR") 8 false;
                 plain_round (u "HR_followup") 6 true;
                 plain_round (u "Technical") 4 false]) = 5.38%float.
Proof.
  split; [|split; [|split]].
  - intros session. unfold _calculate_weighted_score.
    rewrite weighted_fold. reflexivity.
  - intros key Hin score is_follow_up. cbn in Hin.
    repeat (destruct Hin as [<-|Hin]; [split; vm_compute; reflexivity|]).
    destruct Hin.
  - repeat split; vm_compute; reflexivity.
  - vm_compute. reflexivity.
Qed.

Lemma weighted_score_formula_witness :
  attributed_role (plain_round (u "Technical" ++ FOLLOWUP_SUFFIX) 4 true)
    = u "Technical" /\
  attributed_role (plain_round (u "Technical") 4 true) = u "Technical".
Proof.
  apply (proj1 (proj2 weighted_score_formula)).
  vm_compute. right; right; left. reflexivity.
Defined.

(** ** UserMemory._update_statistics *)

Lemma truthy_scores_drop_unscored (history : list Summary) :
  truthy_scores (filter (fun h => negb (unscored h)) history)
  = truthy_scores history.
Proof.
  induction history as [|h rest IH]; [reflexivity|].
  cbn [filter]. unfold unscored at 1.
  destruct (h_final_score h) as [x|] eqn:Hx.
  - destruct (num_truthy x) eqn:Ht; cbn [negb truthy_scores];
      rewrite ?Hx, ?Ht, IH; reflexivity.
  - cbn [negb truthy_scores]. now rewrite Hx.
Qed.

Lemma truthy_scores_all_unscored (history : list Summary) :
  (forall h, In h history -> unscored h = true) ->
  truthy_scores history = [].
Proof.
  induction history as [|h rest IH]; intros Hall; [reflexivity|].
  pose proof (Hall h (or_introl eq_refl)) as Hh. unfold unscored in Hh.
  cbn [truthy_scores].
  destruct (h_final_score h) as [x|].
  - destruct (num_truthy x); [discriminate|].
    apply IH. intros h' Hin. apply Hall. now right.
  - apply IH. intros h' Hin. apply Hall. now right.
Qed.

(** The average and the best score written by [_update_statistics] are
    read off the truthy scores and the previous statistics alone. *)
Lemma update_statistics_scores (data : UserData) :
  let stats := ud_statistics (_update_statistics data) in
  total_interviews stats = len (ud_interview_history data) /\
  match truthy_scores (ud_interview_history data) with
  | [] =>
      average_score stats = average_score (ud_statistics data) /\
      best_score stats = best_score (ud_statistics data)
  | first :: others =>
      average_score stats =
        NFloat (round2 (div_int (py_sum (first :: others))
                                (len (first :: others)))) /\
      best_score stats = max_from first others
  end.
Proof.
  unfold _update_statistics. cbn [ud_statistics ud_interview_history].
  destruct (truthy_scores (ud_interview_history data)) as [|first others];
    destruct (get_top_weaknesses data 1);
    destruct (get_top_strengths data 1);
    cbn [total_interviews average_score best_score]; auto.
Qed.

(** C9.  [_update_statistics] filters the history by truthiness of
    [final_score]:
    - dropping every entry whose final score is 0, null or missing from
      the history changes neither the average nor the best score it
      writes, while [total_interviews] is the length of the whole history;
    - when every entry is of that kind, the average and the best score
      keep the values they had before (the defaults 0.0 and 0 for a fresh
      profile).
    An entry with final score 0 is such an entry, although 0 is not
    None: of the scores 0 and 8 the average written is 8.0, not 4.0. *)
Theorem update_statistics_skips_unscored :
  (forall data,
     let history := ud_interview_history data in
     let kept := filter (fun h => negb (unscored h)) history in
     let stats := ud_statistics (_update_statistics data) in
     let stats' := ud_statistics (_update_statistics (with_history data kept)) in
     average_score stats = average_score stats' /\
     best_score stats = best_score stats' /\
     total_interviews stats = len history) /\
  (forall data,
     (forall h, In h (ud_interview_history data) -> unscored h = true) ->
     let stats := ud_statistics (_update_statistics data) in
     average_score stats = average_score (ud_statistics data) /\
     best_score stats = best_score (ud_statistics data) /\
     total_interviews stats = len (ud_interview_history data)) /\
  (unscored (entry None) = true /\
   unscored (entry (Some (NInt 0))) = true /\
   unscored (entry (Some (NFloat 0.0))) = true /\
   unscored (entry (Some (NInt 8))) = false) /\
  (let data := with_history (_default_profile (u "candidate"))
                 [entry (Some (NInt 0)); entry (Some (NInt 8)); entry None] in
   let stats := ud_statistics (_update_statistics data) in
   average_score stats = NFloat 8.0 /\
   best_score stats = NInt 8 /\
   total_interviews stats = 3).
Proof.
  split; [|split; [|split]].
  - intros data history kept stats stats'.
    pose proof (update_statistics_scores data) as (Htot & Hs).
    pose proof (update_statistics_scores (with_history data kept)) as (_ & Hs').
    cbn [with_history ud_interview_history ud_statistics] in Hs'.
    unfold kept in Hs'. rewrite truthy_scores_drop_unscored in Hs'.
    fold history in Hs, Hs', Htot. fold stats in Hs, Htot.
    fold kept in Hs'. fold stats' in Hs'.
    split; [|split; [|exact Htot]];
      destruct (truthy_scores history);
      destruct Hs as [Ha Hb]; destruct Hs' as [Ha' Hb']; congruence.
  - intros data Hall stats.
    pose proof (update_statistics_scores data) as (Htot & Hs).
    rewrite (truthy_scores_all_unscored _ Hall) in Hs.
    destruct Hs as [Ha Hb]. repeat split; assumption.
  - repeat split; vm_compute; reflexivity.
  - repeat split; vm_compute; reflexivity.
Qed.

Lemma update_statistics_skips_unscored_witness :
  let data := with_history (_default_profile (u "candidate"))
                [entry (Some (NInt 0)); entry None; entry (Some (NFloat 0.0))] in
  let stats := ud_statistics (_update_statistics data) in
  average_score stats = NFloat 0.0 /\
  best_score stats = NInt 0 /\
  total_interviews stats = 3.
Proof.
  apply (proj1 (proj2 update_statistics_skips_unscored)
           (with_history (_default_profile (u "candidate"))
              [entry (Some (NInt 0)); entry None; entry (Some (NFloat 0.0))])).
  intros h Hin. cbn in Hin.
  repeat (destruct Hin as [<-|Hin]; [vm_compute; reflexivity|]).
  destruct Hin.
Defined.

(** ** run_single_round *)

Lemma round_shape_cap (added : list RoundResult) :
  round_shape added -> (List.length (filter r_is_follow_up added) <= 1)%nat.
Proof.
  intros [|m Hm|m f Hm Hf]; cbn [filter]; rewrite ?Hm, ?Hf; cbn; lia.
Qed.

(** C5.  Whatever the model answers, whatever the candidate says and
    whatever the follow-up configuration holds (its [max_follow_ups]
    included), a run of [run_single_round], finished or interrupted by an
    exception, appends to the session at most one round marked as a
    follow-up; the rounds already there are kept. *)
Theorem single_round_follow_up_cap :
  forall llm_text llm_json get_user_answer follow_up_config
         hiring_manager technical culture_fit agent_key st,
    let st' := fst (run_single_round llm_text llm_json get_user_answer
                      follow_up_config hiring_manager technical culture_fit
                      agent_key st) in
    exists added,
      rounds (session st') = rounds (session st) ++ added /\
      round_shape added /\
      (List.length (filter r_is_follow_up added) <= 1)%nat.
Proof.
  intros. subst st'.
  assert (H : exists added,
             rounds (session (fst (run_single_round llm_text llm_json
                get_user_answer follow_up_config hiring_manager technical
                culture_fit agent_key st)))
             = rounds (session st) ++ added /\ round_shape added).
  { run_split;
      cbn [fst session rounds add_round append_round];
      rewrite <- ?app_assoc; cbn [app];
      eexists; (split; [try reflexivity; symmetry; apply app_nil_r|]);
      constructor; reflexivity. }
  destruct H as (added & Heq & Hshape).
  exists added. repeat split; try assumption. now apply round_shape_cap.
Qed.

(** C6.  When [run_single_round] returns, the outcome lists the main
    question alone or the main question and one follow-up, each recorded in
    the session with the score of its evaluation, and the reported
    [final_score] is the score of the last evaluation of the round: the
    follow-up's if there is one, the main one otherwise. *)
Theorem single_round_final_score_is_last :
  forall llm_text llm_json get_user_answer follow_up_config
         hiring_manager technical culture_fit agent_key st st' outcome,
    run_single_round llm_text llm_json get_user_answer follow_up_config
      hiring_manager technical culture_fit agent_key st = (st', Ok outcome) ->
    reports_last_evaluation st st' outcome.
Proof.
  intros until outcome. unfold reports_last_evaluation.
  run_split;
    intros [= <- <-]; cbn [fst session rounds add_round append_round
                            o_questions o_final_score app last];
    match goal with
    | |- exists main, _ /\ _ /\ (([?m; ?f] = _ /\ _) \/ _) =>
        exists m; split; [reflexivity|]; split; [reflexivity|];
        right; exists f; repeat split;
        rewrite <- app_assoc; cbn [app];
        do 2 eexists; split; [reflexivity|]; split; repeat split
    | |- exists main, _ /\ _ /\ (([?m] = _ /\ _) \/ _) =>
        exists m; split; [reflexivity|]; split; [reflexivity|];
        left; repeat split;
        eexists; split; [reflexivity|]; repeat split
    end.
Qed.

Lemma single_round_final_score_is_last_witness :
  exists st' outcome,
    demo_round (u "HR") demo_state = (st', Ok outcome) /\
    o_final_score outcome = 8 /\
    map r_score (rounds (session st')) = [4; 8] /\
    reports_last_evaluation demo_state st' outcome.
Proof.
  do 2 eexists. split; [run_to_value|].
  split; [reflexivity|]. split; [reflexivity|].
  eapply (single_round_final_score_is_last demo_text demo_json demo_answer
            FOLLOW_UP_CONFIG (demo_agent (u "HiringManager"))
            (demo_agent (u "Technical")) (demo_agent (u "CultureFit"))
            (u "HR") demo_state).
  vm_compute. reflexivity.
Defined.

(** In that run all three follow-up rules match at once (score 4 is below
    the threshold, the answer contains a trigger keyword and is shorter
    than 50 characters), and one follow-up is recorded. *)
Lemma all_rules_match_one_follow_up :
  let answer := demo_answer 0 (demo_text 0) (get_round_name (u "HR")) in
  first_keyword (keywords FOLLOW_UP_CONFIG) answer = Some (u "大概") /\
  len (strip answer) = 15 /\
  map r_is_follow_up
      (rounds (session (fst (demo_round (u "HR") demo_state))))
    = [false; true].
Proof. repeat split; vm_compute; reflexivity. Qed.

(** ** run_full_interview with a failing panel stage *)

Lemma strs_of_strings (l : list py_str) : strs_of (map JStr l) = Ok l.
Proof.
  induction l as [|s l IH]; cbn [map strs_of]; [reflexivity|].
  rewrite IH. reflexivity.
Qed.

Lemma join_strings (sep : py_str) (x : json) :
  strings_list x -> exists s, join sep x = Ok s.
Proof.
  intros (l & ->). unfold join. cbn [iterate rbind].
  rewrite strs_of_strings. cbn [rbind]. eauto.
Qed.

Lemma slice_strings (n : nat) (x : json) :
  strings_list x -> exists y, slice_to n x = Ok y /\ strings_list y.
Proof.
  intros (l & ->). cbn [slice_to]. eexists. split; [reflexivity|].
  exists (firstn n l). now rewrite firstn_map.
Qed.

Lemma each_ok {A} (f : A -> res unit) (xs : list A) :
  (forall x, In x xs -> f x = Ok tt) -> each f xs = Ok tt.
Proof.
  induction xs as [|x xs IH]; intros Hall; cbn [each]; [reflexivity|].
  rewrite (Hall x (or_introl eq_refl)). cbn [rbind].
  apply IH. intros y Hy. apply Hall. now right.
Qed.

Lemma last_n_in {A} (n : nat) (xs : list A) (x : A) :
  In x (last_n n xs) -> In x xs.
Proof.
  unfold last_n. intros H.
  rewrite <- (firstn_skipn (List.length xs - n) xs).
  apply in_or_app. now right.
Qed.

Lemma slice_join_ok (x : json) :
  strings_list x ->
  rbind (slice_to 2 x) (fun two => rbind (join (u ", ") two) (fun _ => Ok tt))
  = Ok tt.
Proof.
  intros Hx. destruct (slice_strings 2 x Hx) as (y & -> & Hy).
  cbn [rbind]. destruct (join_strings (u ", ") y Hy) as (s & ->).
  reflexivity.
Qed.

Lemma recent_lines_ok (recent : list Summary) :
  wf_history recent -> recent_lines recent = Ok tt.
Proof.
  induction recent as [|h rest IH]; intros Hwf; cbn [recent_lines];
    [reflexivity|].
  assert (Hh : strings_list (h_key_weaknesses h))
    by (apply Hwf; now left).
  destruct (truthy (h_key_weaknesses h)).
  - rewrite (slice_join_ok _ Hh). cbn [rbind].
    apply IH. intros h' Hin. apply Hwf. now right.
  - cbn [rbind]. apply IH. intros h' Hin. apply Hwf. now right.
Qed.

Lemma get_history_summary_ok (data : UserData) :
  wf_history (ud_interview_history data) ->
  exists digest, get_history_summary data = Ok digest.
Proof.
  intros Hwf. unfold get_history_summary.
  destruct (ud_interview_history data) as [|h rest] eqn:Hh; [eauto|].
  rewrite recent_lines_ok; [cbn [rbind]; eauto|].
  intros h' Hin. apply Hwf. eapply last_n_in. exact Hin.
Qed.

Lemma comparative_prompt_ok (e : FinalEvaluation) (history : list Summary) :
  wf_history history ->
  strings_list (key_weaknesses e) ->
  strings_list (key_strengths e) ->
  comparative_prompt e history = Ok Built.
Proof.
  intros Hwf Hw Hs. unfold comparative_prompt.
  rewrite each_ok.
  - cbn [rbind].
    destruct (join_strings (u ", ") _ Hw) as (s1 & ->).
    destruct (join_strings (u ", ") _ Hs) as (s2 & ->).
    reflexivity.
  - intros h Hin. apply slice_join_ok. apply Hwf.
    eapply last_n_in. exact Hin.
Qed.

Lemma normalize_final_error (d : pydict) (summary : SessionSummary) :
  dict_has d (u "error") = true ->
  _normalize_final_evaluation (JDict d) summary
  = Ok (fallback_evaluation d summary).
Proof.
  intros Hd. unfold _normalize_final_evaluation.
  cbn [str_in rbind]. rewrite Hd. reflexivity.
Qed.

(** A round leaves the candidate's profile and both storage directories
    as they were. *)
Lemma run_single_round_keeps_profile :
  forall llm_text llm_json get_user_answer follow_up_config
         hiring_manager technical culture_fit agent_key st,
    let st' := fst (run_single_round llm_text llm_json get_user_answer
                      follow_up_config hiring_manager technical culture_fit
                      agent_key st) in
    user_memory st' = user_memory st /\
    user_files st' = user_files st /\
    session_files st' = session_files st /\
    sm_user_id (session st') = sm_user_id (session st).
Proof. intros. subst st'. run_split; repeat split. Qed.

Lemma run_rounds_keeps_profile :
  forall llm_text llm_json get_user_answer follow_up_config
         hiring_manager technical culture_fit keys st,
    let st' := fst (run_rounds llm_text llm_json get_user_answer
                      follow_up_config hiring_manager technical culture_fit
                      keys st) in
    user_memory st' = user_memory st /\
    user_files st' = user_files st /\
    session_files st' = session_files st /\
    sm_user_id (session st') = sm_user_id (session st).
Proof.
  intros until keys. induction keys as [|key rest IH]; intros st.
  - cbn. repeat split.
  - cbn [run_rounds bind notify fst].
    match goal with
    | |- context [run_single_round ?a ?b ?c ?d ?e ?f ?g ?k ?s] =>
        pose proof (run_single_round_keeps_profile a b c d e f g k s) as Hk;
        destruct (run_single_round a b c d e f g k s) as [st1 [result|e0]]
    end; cbn [fst user_memory user_files session_files session] in Hk.
    + cbn [bind notify fst].
      match goal with
      | |- context [run_rounds ?a ?b ?c ?d ?e ?f ?g ?k ?s] =>
          pose proof (IH s) as Hr;
          destruct (run_rounds a b c d e f g k s) as [st2 [results|e0]]
      end; cbn [fst user_memory user_files session_files session ret]
             in Hr |- *;
        destruct Hk as (Hk1 & Hk2 & Hk3 & Hk4);
        destruct Hr as (Hr1 & Hr2 & Hr3 & Hr4);
        repeat split; congruence.
    + cbn [fst]. exact Hk.
Qed.

Lemma run_full_interview_from_start :
  forall llm_text llm_json get_user_answer list_of_set follow_up_config
         hiring_manager technical culture_fit save_stamp user_id st,
    run_full_interview llm_text llm_json get_user_answer list_of_set
      follow_up_config hiring_manager technical culture_fit save_stamp
      user_id st
    = bind (run_rounds llm_text llm_json get_user_answer follow_up_config
              hiring_manager technical culture_fit round_order)
           (fun _ => conclude_interview llm_text llm_json list_of_set
                       save_stamp user_id)
           (start_state user_id st).
Proof. reflexivity. Qed.

(** *** Tag counters *)

Lemma str_eqb_sym (a b : py_str) : str_eqb a b = str_eqb b a.
Proof.
  destruct (str_eqb a b) eqn:E, (str_eqb b a) eqn:E'; try reflexivity.
  - apply str_eqb_eq in E. subst. rewrite str_eqb_refl in E'. discriminate.
  - apply str_eqb_eq in E'. subst. rewrite str_eqb_refl in E. discriminate.
Qed.

Lemma str_eqb_neq (a b : py_str) : a <> b -> str_eqb a b = false.
Proof.
  intros Hab. destruct (str_eqb a b) eqn:E; [|reflexivity].
  apply str_eqb_eq in E. contradiction.
Qed.

Lemma bump_count (d : list (py_str * Z)) (tag t : py_str) :
  tag_count (bump d tag) t
  = tag_count d t + (if str_eqb tag t then 1 else 0).
Proof.
  induction d as [|[k c] rest IH]; cbn [bump tag_count].
  - destruct (str_eqb tag t); lia.
  - destruct (str_eqb k tag) eqn:Ek; cbn [tag_count].
    + apply str_eqb_eq in Ek. subst k.
      destruct (str_eqb tag t); lia.
    + destruct (str_eqb k t) eqn:Et; [|exact IH].
      apply str_eqb_eq in Et. subst k. rewrite str_eqb_sym, Ek. lia.
Qed.

Lemma add_tags_count (d : list (py_str * Z)) (tags : list py_str)
    (t : py_str) :
  tag_count (add_tags d tags) t
  = tag_count d t + (if str_eqb t [] then 0 else occurrences tags t).
Proof.
  unfold add_tags, occurrences. revert d.
  induction tags as [|tag rest IH]; intros d; cbn [fold_left filter].
  - destruct (str_eqb t []); cbn; lia.
  - rewrite IH. destruct (str_eqb tag []) eqn:Etag.
    + apply str_eqb_eq in Etag. subst tag.
      destruct (str_eqb t []) eqn:Et; reflexivity.
    + rewrite bump_count. rewrite (str_eqb_sym tag t).
      destruct (str_eqb t tag) eqn:Ett.
      * apply str_eqb_eq in Ett. subst t. rewrite Etag.
        unfold len. cbn [List.length]. lia.
      * destruct (str_eqb t []); lia.
Qed.

Lemma occurrences_nodup (tags : list py_str) (t : py_str) :
  NoDup tags ->
  occurrences tags t = if existsb (str_eqb t) tags then 1 else 0.
Proof.
  unfold occurrences, len.
  induction 1 as [|x rest Hx Hnd IH]; cbn [filter existsb]; [reflexivity|].
  destruct (str_eqb t x) eqn:E; cbn [orb List.length].
  - apply str_eqb_eq in E. subst x.
    assert (Hnone : existsb (str_eqb t) rest = false).
    { destruct (existsb (str_eqb t) rest) eqn:Ex; [|reflexivity].
      apply existsb_exists in Ex. destruct Ex as (y & Hy & Hty).
      apply str_eqb_eq in Hty. subst y. contradiction. }
    rewrite Hnone in IH. rewrite Nat2Z.inj_succ, IH. reflexivity.
  - exact IH.
Qed.

Lemma existsb_same_members (t : py_str) (l l' : list py_str) :
  (forall x, In x l <-> In x l') ->
  existsb (str_eqb t) l = existsb (str_eqb t) l'.
Proof.
  intros Hsame.
  destruct (existsb (str_eqb t) l) eqn:E, (existsb (str_eqb t) l') eqn:E';
    try reflexivity.
  - apply existsb_exists in E. destruct E as (x & Hx & Htx).
    assert (Hin : existsb (str_eqb t) l' = true)
      by (apply existsb_exists; exists x; split; [now apply Hsame | exact Htx]).
    congruence.
  - apply existsb_exists in E'. destruct E' as (x & Hx & Htx).
    assert (Hin : existsb (str_eqb t) l = true)
      by (apply existsb_exists; exists x; split; [now apply Hsame | exact Htx]).
    congruence.
Qed.

Lemma existsb_flat_map (t : py_str) (tags_of : RoundResult -> list py_str)
    (rs : list RoundResult) :
  existsb (str_eqb t) (flat_map tags_of rs)
  = existsb (fun r => existsb (str_eqb t) (tags_of r)) rs.
Proof.
  induction rs as [|r rs IH]; cbn [flat_map existsb]; [reflexivity|].
  rewrite existsb_app, IH. reflexivity.
Qed.

(** Under set semantics a session adds one to the counter of each tag it
    met, however often it met it. *)
Lemma session_tags_count (list_of_set : list py_str -> list py_str)
    (tags_of : RoundResult -> list py_str) (s : SessionMemory)
    (d : list (py_str * Z)) (t : py_str) :
  set_order list_of_set ->
  tag_count (add_tags d (list_of_set (flat_map tags_of (rounds s)))) t
  = tag_count d t + (if tagged_with tags_of s t then 1 else 0).
Proof.
  intros Hset. rewrite add_tags_count. unfold tagged_with.
  destruct (Hset (flat_map tags_of (rounds s))) as [Hnd Hsame].
  rewrite (occurrences_nodup _ _ Hnd), (existsb_same_members _ _ _ Hsame),
    existsb_flat_map.
  destruct (str_eqb t []); reflexivity.
Qed.

(** *** The closing stage *)

(** What holds of the claim.  Take a panel stage that is reached (the
    summary of the rounds can be written) for a candidate whose stored
    history lists its key weaknesses as strings, and whose model answer
    carries the error marker.  If the strings to be saved can be encoded,
    the interview returns the path of the saved session; the evaluation
    stored has the decision "候补" and the session's simple average as
    final score; the profile written has one more history entry and its
    statistics recomputed; the session is written with that evaluation. *)
Lemma conclude_after_panel_error :
  forall llm_text llm_json list_of_set save_stamp user_id st1 d,
    wf_history (ud_interview_history (user_memory st1)) ->
    _format_rounds_summary (session_summary_of list_of_set (session st1))
      = Ok Built ->
    llm_json (llm_calls st1) = JDict d ->
    dict_has d (u "error") = true ->
    let fe := panel_fallback llm_text list_of_set d st1 in
    let data := profile_after list_of_set st1 fe in
    let dump := to_dict list_of_set (set_final_evaluation (session st1) fe) in
    let path := session_path save_stamp (sm_user_id (session st1)) in
    fe_decision fe = JStr (u "候补") /\
    final_score fe = NFloat (get_average_score (session st1)) /\
    exists st2,
      conclude_interview llm_text llm_json list_of_set save_stamp user_id st1
        = (st2,
           if user_data_encodable data && dump_encodable dump
           then Ok path else Raise UnicodeEncodeError) /\
      session st2 = set_final_evaluation (session st1) fe /\
      user_memory st2 = data /\
      user_files st2
        = (user_id, if user_data_encodable data then Written data
                    else Truncated) :: user_files st1 /\
      session_files st2
        = if user_data_encodable data
          then (path, if dump_encodable dump then Written dump
                      else Truncated) :: session_files st1
          else session_files st1.
Proof.
  intros until d. intros Hwf Hfmt Hjson Herr. cbv zeta.
  unfold panel_fallback.
  destruct (get_history_summary_ok _ Hwf) as (digest & Hdigest).
  assert (Hprompt : forall history,
            wf_history history ->
            comparative_prompt
              (fallback_evaluation d
                 (session_summary_of list_of_set (session st1))) history
            = Ok Built).
  { intros history Hh. apply comparative_prompt_ok;
      [exact Hh | eexists; reflexivity | eexists; reflexivity]. }
  destruct (ud_interview_history (user_memory st1)) as [|h rest] eqn:Hh;
    (split; [reflexivity|]); (split; [reflexivity|]);
    match goal with
    | |- context [profile_after list_of_set st1 ?fe] =>
        set (data := profile_after list_of_set st1 fe);
        set (dump := to_dict list_of_set
                       (set_final_evaluation (session st1) fe))
    end;
    full_cbn; rewrite Hdigest; full_cbn; rewrite Hfmt; full_cbn;
    rewrite Hjson, (normalize_final_error _ _ Herr); full_cbn;
    rewrite Hh; full_cbn;
    rewrite ?(Hprompt (h :: rest) Hwf);
    full_cbn.
  all: repeat match goal with
              | |- context [user_data_encodable ?x] =>
                  progress (replace x with data by reflexivity)
              | |- context [dump_encodable ?x] =>
                  progress (replace x with dump by reflexivity)
              end.
  all: destruct (user_data_encodable data); full_cbn.
  all: repeat match goal with
              | |- context [dump_encodable ?x] =>
                  progress (replace x with dump by reflexivity)
              end.
  all: try (destruct (dump_encodable dump); full_cbn).
  all: cbn [andb]; eexists; (split; [reflexivity|]);
    cbn [session user_memory user_files session_files];
    repeat split; reflexivity.
Qed.

Lemma update_statistics_keeps (data : UserData) :
  ud_user_id (_update_statistics data) = ud_user_id data /\
  ud_position (_update_statistics data) = ud_position data /\
  ud_profile (_update_statistics data) = ud_profile data /\
  ud_weakness_tags (_update_statistics data) = ud_weakness_tags data /\
  ud_strength_tags (_update_statistics data) = ud_strength_tags data /\
  ud_interview_history (_update_statistics data) = ud_interview_history data.
Proof. repeat split. Qed.

Lemma first_seen_is_a_set_order : set_order first_seen.
Proof.
  intros tags. split; [apply NoDup_nodup|].
  intros t. apply nodup_In.
Qed.

(** What holds of the claim, on [run_full_interview].  Take a full
    interview whose rounds have been run (state [st1]) for a candidate
    whose stored history lists its key weaknesses as strings, and whose
    panel stage is reached and answered with the error marker.  If the
    strings of the profile and of the session can be encoded, the
    interview returns the path of the saved session, and
    - the final evaluation stored in the session has the decision "候补"
      and the session's simple average as final score;
    - the counter of every tag met in the session is one higher, the other
      counters are as they were, one entry with that score and decision is
      appended to the history, the statistics are recomputed, and the
      profile is written to its file;
    - the session, final evaluation included, is written to its file. *)
Lemma panel_error_completes_when_data_is_sound :
  forall llm_text llm_json get_user_answer list_of_set follow_up_config
         hiring_manager technical culture_fit save_stamp user_id
         st st1 results d,
    let start := start_state user_id st in
    let fe := panel_fallback llm_text list_of_set d st1 in
    set_order list_of_set ->
    run_rounds llm_text llm_json get_user_answer follow_up_config
      hiring_manager technical culture_fit round_order start
      = (st1, Ok results) ->
    wf_history (ud_interview_history (user_memory start)) ->
    _format_rounds_summary (session_summary_of list_of_set (session st1))
      = Ok Built ->
    llm_json (llm_calls st1) = JDict d ->
    dict_has d (u "error") = true ->
    user_data_encodable (profile_after list_of_set st1 fe) = true ->
    dump_encodable
      (to_dict list_of_set (set_final_evaluation (session st1) fe)) = true ->
    exists st2,
      run_full_interview llm_text llm_json get_user_answer list_of_set
        follow_up_config hiring_manager technical culture_fit save_stamp
        user_id st
        = (st2, Ok (session_path save_stamp user_id)) /\
      final_evaluation (session st2) = Some fe /\
      fe_decision fe = JStr (u "候补") /\
      final_score fe = NFloat (get_average_score (session st1)) /\
      rounds (session st2) = rounds (session st1) /\
      (forall t,
         tag_count (ud_weakness_tags (user_memory st2)) t
         = tag_count (ud_weakness_tags (user_memory start)) t
           + (if tagged_with r_weakness_tags (session st1) t
              then 1 else 0)) /\
      (forall t,
         tag_count (ud_strength_tags (user_memory st2)) t
         = tag_count (ud_strength_tags (user_memory start)) t
           + (if tagged_with r_strength_tags (session st1) t
              then 1 else 0)) /\
      ud_interview_history (user_memory st2)
        = ud_interview_history (user_memory start)
          ++ [summary_entry (session st1) fe] /\
      total_interviews (ud_statistics (user_memory st2))
        = len (ud_interview_history (user_memory start)) + 1 /\
      read_file (user_files st2) user_id = Some (Written (user_memory st2)) /\
      read_file (session_files st2) (session_path save_stamp user_id)
        = Some (Written (to_dict list_of_set (session st2))) /\
      d_final_evaluation (to_dict list_of_set (session st2)) = Some fe.
Proof.
  intros until d. intros start fe Hset Hrounds Hwf Hfmt Hjson Herr Hdata Hdump.
  pose proof (run_rounds_keeps_profile llm_text llm_json get_user_answer
                follow_up_config hiring_manager technical culture_fit
                round_order start) as Hkeep.
  cbv zeta in Hkeep. rewrite Hrounds in Hkeep. cbn [fst] in Hkeep.
  destruct Hkeep as (Hmem & _ & _ & Huid).
  assert (Hid : sm_user_id (session st1) = user_id) by (rewrite Huid; reflexivity).
  rewrite <- Hmem in Hwf |- *.
  destruct (conclude_after_panel_error llm_text llm_json list_of_set
              save_stamp user_id st1 d Hwf Hfmt Hjson Herr)
    as (Hdec & Hscore & st2 & Hrun & Hsess & Hum & Huf & Hsf).
  fold fe in Hdec, Hscore, Hrun, Hsess, Hum, Huf, Hsf.
  rewrite Hdata, Hdump in Hrun. rewrite Hdata in Huf, Hsf.
  rewrite Hdump in Hsf. cbn [andb] in Hrun.
  rewrite Hid in Hrun, Hsf.
  exists st2. split.
  { rewrite run_full_interview_from_start. fold start.
    cbn [bind]. rewrite Hrounds. exact Hrun. }
  rewrite Huf, Hsf. cbn [read_file]. rewrite !str_eqb_refl.
  rewrite Hsess, Hum. unfold profile_after.
  repeat split; try assumption; try reflexivity.
  - intros t. rewrite (proj1 (proj2 (proj2 (proj2 (update_statistics_keeps _))))).
    cbn [add_interview_summary add_strength_tags add_weakness_tags
         ud_weakness_tags].
    apply session_tags_count. exact Hset.
  - intros t. rewrite (proj1 (proj2 (proj2 (proj2 (proj2 (update_statistics_keeps _)))))).
    cbn [add_interview_summary add_strength_tags add_weakness_tags
         ud_strength_tags].
    apply session_tags_count. exact Hset.
  - pose proof (update_statistics_scores
                  (add_interview_summary
                     (add_strength_tags
                        (add_weakness_tags (user_memory st1)
                           (get_all_weakness_tags list_of_set (session st1)))
                        (get_all_strength_tags list_of_set (session st1)))
                     (summary_entry (session st1) fe))) as (Htot & _).
    rewrite Htot.
    cbn [ud_interview_history add_interview_summary add_strength_tags
         add_weakness_tags].
    unfold len. rewrite length_app. cbn [List.length]. lia.
Qed.

(** A returning candidate whose history and data are sound: the interview
    with a failing panel stage completes. *)
Lemma panel_error_completes_example :
  exists st2 path fe,
    demo_interview returning_state = (st2, Ok path) /\
    path = session_path (u "20240101_120000") (u "candidate") /\
    final_evaluation (session st2) = Some fe /\
    fe_decision fe = JStr (u "候补") /\
    final_score fe = NFloat 7.5 /\
    read_file (user_files st2) (u "candidate")
      = Some (Written (user_memory st2)) /\
    List.length (ud_interview_history (user_memory st2)) = 2%nat.
Proof.
  do 3 eexists. split; [run_to_value|].
  repeat split; vm_compute; reflexivity.
Qed.

(** C4.  The interview does not always complete after an error-marked
    answer of the panel stage.
    - A first interview whose panel stage answers with a usable dict in
      which [key_weaknesses] is null completes, and the null is stored in
      the candidate's history as it came.  In the candidate's next
      interview the panel stage fails to produce JSON; the fallback
      evaluation is built, and the comparison with the history, which
      slices the stored [key_weaknesses] without looking at it, raises
      TypeError: the interview ends there, no final evaluation is stored
      in the session, and neither the profile nor the session is written.
    - A first interview in which the model's feedback holds a lone
      surrogate and whose panel stage fails to produce JSON gets the
      fallback evaluation and writes the profile; dumping the session then
      raises UnicodeEncodeError and leaves a truncated session file. *)
Theorem panel_error_does_not_always_complete :
  (exists st1 path1 st2,
     interview_with null_weaknesses_json (u "20240101_120000") demo_state
       = (st1, Ok path1) /\
     map h_key_weaknesses (ud_interview_history (user_memory st1))
       = [JNull] /\
     read_file (user_files st1) (u "candidate")
       = Some (Written (user_memory st1)) /\
     interview_with null_weaknesses_json (u "20240102_120000") st1
       = (st2, Raise TypeError) /\
     null_weaknesses_json (pred (llm_calls st2)) = PANEL_ERROR /\
     final_evaluation (session st2) = None /\
     user_files st2 = user_files st1 /\
     session_files st2 = session_files st1) /\
  (exists st2 fe,
     interview_with surrogate_feedback_json (u "20240101_120000") demo_state
       = (st2, Raise UnicodeEncodeError) /\
     surrogate_feedback_json (pred (llm_calls st2)) = PANEL_ERROR /\
     final_evaluation (session st2) = Some fe /\
     fe_decision fe = JStr (u "候补") /\
     read_file (user_files st2) (u "candidate")
       = Some (Written (user_memory st2)) /\
     session_files st2
       = [(session_path (u "20240101_120000") (u "candidate"), Truncated)]).
Proof.
  split.
  - do 3 eexists. split; [run_to_value|].
    split; [vm_compute; reflexivity|].
    split; [vm_compute; reflexivity|].
    split; [run_to_value|].
    repeat split; vm_compute; reflexivity.
  - do 2 eexists. split; [run_to_value|].
    repeat split; vm_compute; reflexivity.
Qed.

(* ================================================================== *)
(** * Further properties of the code                                   *)
(* ================================================================== *)

(** ** UserMemory: tag counters *)

(** X1.  [add_weakness_tags] and
    [add_strength_tags] count: after the call the counter of a tag is what
    it was plus the number of times the tag occurs in the list given, the
    empty tag excepted, which is never counted; the other counter is left
    as it was.  So no counter ever decreases. *)
Theorem tag_counters_count_occurrences (data : UserData)
    (tags : list py_str) (t : py_str) :
  tag_count (ud_weakness_tags (add_weakness_tags data tags)) t
    = tag_count (ud_weakness_tags data) t
      + (if str_eqb t [] then 0 else occurrences tags t) /\
  ud_strength_tags (add_weakness_tags data tags) = ud_strength_tags data /\
  tag_count (ud_strength_tags (add_strength_tags data tags)) t
    = tag_count (ud_strength_tags data) t
      + (if str_eqb t [] then 0 else occurrences tags t) /\
  ud_weakness_tags (add_strength_tags data tags) = ud_weakness_tags data /\
  tag_count (ud_weakness_tags data) t
    <= tag_count (ud_weakness_tags (add_weakness_tags data tags)) t.
Proof.
  cbn [add_weakness_tags add_strength_tags ud_weakness_tags ud_strength_tags].
  rewrite !add_tags_count.
  repeat split.
  destruct (str_eqb t []); [lia|].
  unfold occurrences, len. lia.
Qed.

(** ** UserMemory: the most frequent tags *)

Lemma insert_desc_perm (x : py_str * Z) (l : list (py_str * Z)) :
  Permutation (insert_desc x l) (x :: l).
Proof.
  induction l as [|y rest IH]; cbn [insert_desc].
  - apply Permutation_refl.
  - destruct (snd y <=? snd x).
    + apply Permutation_refl.
    + eapply Permutation_trans; [apply perm_skip, IH | apply perm_swap].
Qed.

Lemma sorted_desc_perm (l : list (py_str * Z)) :
  Permutation (sorted_desc l) l.
Proof.
  unfold sorted_desc. induction l as [|x rest IH]; cbn [fold_right].
  - apply Permutation_refl.
  - eapply Permutation_trans; [apply insert_desc_perm|].
    now apply perm_skip.
Qed.

Lemma insert_desc_sorted (x : py_str * Z) (l : list (py_str * Z)) :
  StronglySorted count_ge l -> StronglySorted count_ge (insert_desc x l).
Proof.
  induction 1 as [|y rest Hs IH Hall]; cbn [insert_desc].
  - repeat constructor.
  - destruct (snd y <=? snd x) eqn:E.
    + apply Z.leb_le in E. constructor; [now constructor|].
      constructor; [exact E|].
      eapply Forall_impl; [|exact Hall]. unfold count_ge. intros; lia.
    + apply Z.leb_gt in E. constructor; [exact IH|].
      eapply Permutation_Forall;
        [apply Permutation_sym, insert_desc_perm|].
      constructor; [unfold count_ge; lia | exact Hall].
Qed.

Lemma sorted_desc_sorted (l : list (py_str * Z)) :
  StronglySorted count_ge (sorted_desc l).
Proof.
  unfold sorted_desc. induction l as [|x rest IH]; cbn [fold_right].
  - constructor.
  - now apply insert_desc_sorted.
Qed.

Lemma sorted_app_dominates (l1 l2 : list (py_str * Z)) :
  StronglySorted count_ge (l1 ++ l2) ->
  forall a b, In a l1 -> In b l2 -> snd b <= snd a.
Proof.
  induction l1 as [|x l1 IH]; cbn [app]; intros Hs a b Ha Hb.
  - destruct Ha.
  - inversion Hs as [|? ? Hs' Hall]; subst.
    destruct Ha as [<-|Ha].
    + rewrite Forall_forall in Hall. apply (Hall b).
      apply in_or_app. now right.
    + now apply (IH Hs' a b).
Qed.

(** Stability: among entries of one count, the order of the dict is kept. *)
Lemma insert_desc_filter (x : py_str * Z) (l : list (py_str * Z)) (c : Z) :
  StronglySorted count_ge l ->
  filter (fun e => snd e =? c) (insert_desc x l)
  = filter (fun e => snd e =? c) (x :: l).
Proof.
  induction 1 as [|y rest Hs IH Hall]; cbn [insert_desc].
  - reflexivity.
  - destruct (snd y <=? snd x) eqn:E; [reflexivity|].
    apply Z.leb_gt in E.
    cbn [filter] in *. rewrite IH.
    destruct (snd x =? c) eqn:Ex; [|reflexivity].
    apply Z.eqb_eq in Ex.
    destruct (snd y =? c) eqn:Ey; [|reflexivity].
    apply Z.eqb_eq in Ey. lia.
Qed.

Lemma sorted_desc_stable (l : list (py_str * Z)) (c : Z) :
  filter (fun e => snd e =? c) (sorted_desc l)
  = filter (fun e => snd e =? c) l.
Proof.
  unfold sorted_desc. induction l as [|x rest IH]; cbn [fold_right].
  - reflexivity.
  - rewrite insert_desc_filter by apply sorted_desc_sorted.
    cbn [filter]. unfold sorted_desc in IH. now rewrite IH.
Qed.

Lemma top_of_sorted (l : list (py_str * Z)) (n : nat) :
  let top := firstn n (sorted_desc l) in
  List.length top = Nat.min n (List.length l) /\
  incl top l /\
  StronglySorted count_ge top /\
  (forall a b, In a top -> In b l -> ~ In b top -> snd b <= snd a) /\
  (forall c, exists k,
     filter (fun e => snd e =? c) top
     = firstn k (filter (fun e => snd e =? c) l)).
Proof.
  cbv zeta.
  pose proof (sorted_desc_perm l) as Hp.
  pose proof (sorted_desc_sorted l) as Hs.
  split; [|split; [|split; [|split]]].
  - rewrite length_firstn. now rewrite (Permutation_length Hp).
  - intros a Ha. apply (Permutation_in _ Hp).
    revert Ha. rewrite <- (firstn_skipn n (sorted_desc l)) at 2.
    intros Ha. apply in_or_app. now left.
  - rewrite <- (firstn_skipn n (sorted_desc l)) in Hs.
    revert Hs. generalize (firstn n (sorted_desc l)) (skipn n (sorted_desc l)).
    intros l1 l2. induction l1 as [|x l1 IH]; cbn [app]; intros Hs.
    + constructor.
    + inversion Hs as [|? ? Hs' Hall]; subst. constructor; [now apply IH|].
      apply Forall_app in Hall. tauto.
  - intros a b Ha Hb Hnb.
    rewrite <- (firstn_skipn n (sorted_desc l)) in Hs.
    apply (sorted_app_dominates _ _ Hs a b Ha).
    apply (Permutation_in _ (Permutation_sym Hp)) in Hb.
    rewrite <- (firstn_skipn n (sorted_desc l)) in Hb.
    apply in_app_or in Hb. tauto.
  - intros c. rewrite <- (sorted_desc_stable l c).
    generalize (sorted_desc l). clear. intros s. revert n.
    induction s as [|x s IH]; intros n.
    + exists 0%nat. now rewrite firstn_nil.
    + destruct n as [|n]; [exists 0%nat; reflexivity|].
      cbn [firstn filter]. destruct (IH n) as (k & Hk).
      destruct (snd x =? c).
      * exists (S k). cbn [firstn]. now rewrite Hk.
      * exists k. exact Hk.
Qed.

(** X2.  [get_top_weaknesses(n)] and
    [get_top_strengths(n)] return the [n] most frequent tags on record (all
    of them when there are fewer): entries of the counter, in descending
    order of count, every entry left out having a count no higher than any
    entry returned, and entries of equal count in the order in which the
    tags were first recorded. *)
Theorem top_tags_are_the_most_frequent (data : UserData) (n : nat) :
  (let top := get_top_weaknesses data n in
   let all := ud_weakness_tags data in
   List.length top = Nat.min n (List.length all) /\
   incl top all /\
   StronglySorted count_ge top /\
   (forall a b, In a top -> In b all -> ~ In b top -> snd b <= snd a) /\
   (forall c, exists k,
      filter (fun e => snd e =? c) top
      = firstn k (filter (fun e => snd e =? c) all))) /\
  (let top := get_top_strengths data n in
   let all := ud_strength_tags data in
   List.length top = Nat.min n (List.length all) /\
   incl top all /\
   StronglySorted count_ge top /\
   (forall a b, In a top -> In b all -> ~ In b top -> snd b <= snd a) /\
   (forall c, exists k,
      filter (fun e => snd e =? c) top
      = firstn k (filter (fun e => snd e =? c) all))).
Proof.
  split; [exact (top_of_sorted (ud_weakness_tags data) n)
         | exact (top_of_sorted (ud_strength_tags data) n)].
Qed.

Lemma top1_is_maximal (l : list (py_str * Z)) (top : py_str * Z)
    (rest : list (py_str * Z)) :
  firstn 1 (sorted_desc l) = top :: rest ->
  In top l /\ forall e, In e l -> snd e <= snd top.
Proof.
  intros H.
  pose proof (sorted_desc_perm l) as Hp.
  pose proof (sorted_desc_sorted l) as Hs.
  destruct (sorted_desc l) as [|x s]; [discriminate H|].
  cbn [firstn] in H. injection H as <- _.
  split.
  - apply (Permutation_in _ Hp). now left.
  - intros e He. apply (Permutation_in _ (Permutation_sym Hp)) in He.
    destruct He as [<-|He]; [lia|].
    inversion Hs as [|? ? _ Hall]; subst.
    rewrite Forall_forall in Hall. exact (Hall e He).
Qed.

Lemma top1_nonempty (l : list (py_str * Z)) :
  l <> [] -> exists top, firstn 1 (sorted_desc l) = [top].
Proof.
  intros Hl. pose proof (sorted_desc_perm l) as Hp.
  destruct (sorted_desc l) as [|x s].
  - apply Permutation_nil in Hp. congruence.
  - exists x. reflexivity.
Qed.

(** ** UserMemory._update_statistics, field by field *)

Lemma update_statistics_weakness (data : UserData) :
  most_common_weakness (ud_statistics (_update_statistics data))
  = match get_top_weaknesses data 1 with
    | [] => most_common_weakness (ud_statistics data)
    | top :: _ => fst top
    end.
Proof.
  unfold _update_statistics. cbn [ud_statistics].
  destruct (truthy_scores (ud_interview_history data));
    destruct (get_top_weaknesses data 1);
    destruct (get_top_strengths data 1); reflexivity.
Qed.

Lemma update_statistics_strength (data : UserData) :
  most_common_strength (ud_statistics (_update_statistics data))
  = match get_top_strengths data 1 with
    | [] => most_common_strength (ud_statistics data)
    | top :: _ => fst top
    end.
Proof.
  unfold _update_statistics. cbn [ud_statistics].
  destruct (truthy_scores (ud_interview_history data));
    destruct (get_top_weaknesses data 1);
    destruct (get_top_strengths data 1); reflexivity.
Qed.




(** X3.  The statistics name a
    most frequent tag.  When the weakness counter is not empty,
    [most_common_weakness] is, after [_update_statistics], a tag of the
    counter whose count no other tag exceeds; when the counter is empty the
    field keeps the value it had.  The same holds for
    [most_common_strength]. *)
Theorem most_common_tags_have_the_highest_count (data : UserData) :
  let stats := ud_statistics (_update_statistics data) in
  (ud_weakness_tags data <> [] ->
   exists c,
     In (most_common_weakness stats, c) (ud_weakness_tags data) /\
     forall t c', In (t, c') (ud_weakness_tags data) -> c' <= c) /\
  (ud_strength_tags data <> [] ->
   exists c,
     In (most_common_strength stats, c) (ud_strength_tags data) /\
     forall t c', In (t, c') (ud_strength_tags data) -> c' <= c) /\
  (ud_weakness_tags data = [] ->
   most_common_weakness stats = most_common_weakness (ud_statistics data)) /\
  (ud_strength_tags data = [] ->
   most_common_strength stats = most_common_strength (ud_statistics data)).
Proof.
  cbv zeta. rewrite update_statistics_weakness, update_statistics_strength.
  unfold get_top_weaknesses, get_top_strengths.
  split; [|split; [|split]].
  - intros Hne. destruct (top1_nonempty _ Hne) as (top & Htop).
    rewrite Htop. destruct (top1_is_maximal _ _ _ Htop) as [Hin Hmax].
    exists (snd top). split; [now destruct top|].
    intros t c' Hc. exact (Hmax (t, c') Hc).
  - intros Hne. destruct (top1_nonempty _ Hne) as (top & Htop).
    rewrite Htop. destruct (top1_is_maximal _ _ _ Htop) as [Hin Hmax].
    exists (snd top). split; [now destruct top|].
    intros t c' Hc. exact (Hmax (t, c') Hc).
  - intros ->. reflexivity.
  - intros ->. reflexivity.
Qed.

Lemma most_common_tags_have_the_highest_count_witness :
  exists c,
    In (most_common_weakness
          (ud_statistics (_update_statistics tagged_profile)), c)
       (ud_weakness_tags tagged_profile) /\
    forall t c', In (t, c') (ud_weakness_tags tagged_profile) -> c' <= c.
Proof.
  apply (proj1 (most_common_tags_have_the_highest_count tagged_profile)).
  vm_compute. discriminate.
Defined.


(** ** The best score *)

Lemma truthy_scores_in (history : list Summary) (x : num) :
  In x (truthy_scores history) <->
  exists h, In h history /\ h_final_score h = Some x /\ num_truthy x = true.
Proof.
  induction history as [|h rest IH]; cbn [truthy_scores].
  - split; [intros [] | intros (h & [] & _)].
  - destruct (h_final_score h) as [y|] eqn:Ey.
    + destruct (num_truthy y) eqn:Ty.
      * split.
        -- intros [<-|Hin].
           ++ exists h. split; [now left | now split].
           ++ apply IH in Hin. destruct Hin as (h' & Hh' & Hs).
              exists h'. split; [now right | exact Hs].
        -- intros (h' & [<-|Hh'] & Hs & Ht).
           ++ left. congruence.
           ++ right. apply IH. eauto.
      * rewrite IH. split.
        -- intros (h' & Hh' & Hs). exists h'. split; [now right | exact Hs].
        -- intros (h' & [<-|Hh'] & Hs & Ht); [congruence|eauto].
    + rewrite IH. split.
      * intros (h' & Hh' & Hs). exists h'. split; [now right | exact Hs].
      * intros (h' & [<-|Hh'] & Hs & Ht); [congruence|eauto].
Qed.

Lemma max_from_in (cur : num) (xs : list num) :
  In (max_from cur xs) (cur :: xs).
Proof.
  revert cur. induction xs as [|x rest IH]; intros cur; cbn [max_from].
  - now left.
  - destruct (IH (if num_lt cur x then x else cur)) as [H|H].
    + rewrite <- H. destruct (num_lt cur x); [right; now left | now left].
    + right. now right.
Qed.

Lemma max_from_int (cur : Z) (xs : list num) :
  (forall x, In x xs -> exists z, x = NInt z) ->
  exists b, max_from (NInt cur) xs = NInt b /\ cur <= b /\
            forall z, In (NInt z) xs -> z <= b.
Proof.
  revert cur. induction xs as [|x rest IH]; intros cur Hint; cbn [max_from].
  - exists cur. split; [reflexivity|]. split; [lia|]. intros z [].
  - destruct (Hint x (or_introl eq_refl)) as (zx & ->).
    cbn [num_lt].
    destruct (IH (if cur <? zx then zx else cur)) as (b & Hb & Hle & Hall).
    { intros y Hy. apply Hint. now right. }
    exists b. destruct (cur <? zx) eqn:E.
    + apply Z.ltb_lt in E. split; [exact Hb|]. split; [lia|].
      intros z [[= <-]|Hz]; [exact Hle | now apply Hall].
    + apply Z.ltb_ge in E. split; [exact Hb|]. split; [lia|].
      intros z [[= <-]|Hz]; [lia | now apply Hall].
Qed.

(** X5.  When the history holds at least
    one interview with a final score that counts (not missing, null or
    zero), the [best_score] written by [_update_statistics] is the final
    score of an interview of the history; and when the final scores on file
    are integers, no interview of the history has a higher one. *)
Theorem best_score_is_the_highest_score (data : UserData) :
  let history := ud_interview_history data in
  let best := best_score (ud_statistics (_update_statistics data)) in
  (exists h x, In h history /\ h_final_score h = Some x /\
               num_truthy x = true) ->
  (exists h, In h history /\ h_final_score h = Some best) /\
  (integer_scores history ->
   exists b, best = NInt b /\
     forall h z, In h history -> h_final_score h = Some (NInt z) ->
                 z <> 0 -> z <= b).
Proof.
  cbv zeta. intros (h0 & x0 & Hh0 & Hx0 & Ht0).
  pose proof (update_statistics_scores data) as (_ & Hs).
  destruct (truthy_scores (ud_interview_history data))
    as [|first others] eqn:Escores.
  - assert (Hin : In x0 (truthy_scores (ud_interview_history data)))
      by (apply truthy_scores_in; eauto).
    rewrite Escores in Hin. destruct Hin.
  - destruct Hs as [_ Hbest]. rewrite Hbest. split.
    + pose proof (max_from_in first others) as Hin.
      rewrite <- Escores in Hin. apply truthy_scores_in in Hin.
      destruct Hin as (h & Hh & Hs & _). eauto.
    + intros Hint.
      assert (Hall : forall x, In x (first :: others) -> exists z, x = NInt z).
      { intros x Hx. rewrite <- Escores in Hx. apply truthy_scores_in in Hx.
        destruct Hx as (h & Hh & Hs & _). exact (Hint h x Hh Hs). }
      destruct (Hall first (or_introl eq_refl)) as (zf & ->).
      destruct (max_from_int zf others) as (b & Hb & Hle & Hmax).
      { intros x Hx. apply Hall. now right. }
      exists b. split; [exact Hb|].
      intros h z Hh Hz Hnz.
      assert (Hin : In (NInt z) (truthy_scores (ud_interview_history data))).
      { apply truthy_scores_in. exists h. repeat split; try assumption.
        cbn. now apply negb_true_iff, Z.eqb_neq. }
      rewrite Escores in Hin. destruct Hin as [[= <-]|Hin]; [exact Hle|].
      now apply Hmax.
Qed.

Lemma best_score_is_the_highest_score_witness :
  let data := with_history (_default_profile (u "candidate"))
                [entry (Some (NInt 6)); entry None; entry (Some (NInt 8));
                 entry (Some (NInt 7))] in
  exists h, In h (ud_interview_history data) /\
            h_final_score h
            = Some (best_score (ud_statistics (_update_statistics data))).
Proof.
  cbv zeta.
  apply (best_score_is_the_highest_score
           (with_history (_default_profile (u "candidate"))
              [entry (Some (NInt 6)); entry None; entry (Some (NInt 8));
               entry (Some (NInt 7))])).
  exists (entry (Some (NInt 6))), (NInt 6).
  split; [now left|]. split; reflexivity.
Defined.

(** ** Advice and prompt context *)

Lemma startswith_app (p s : py_str) : startswith p (p ++ s) = true.
Proof.
  induction p as [|c p IH]; cbn [startswith app]; [reflexivity|].
  rewrite N.eqb_refl. exact IH.
Qed.

(** X6.
    [get_practice_recommendations] gives one line of advice for each of
    the five most frequent weaknesses on record (for each weakness when
    there are fewer), most frequent first, every line starting with its
    tag between brackets; the closing slice to five lines never drops
    one. *)
Theorem recommendations_follow_the_top_weaknesses (data : UserData) :
  get_practice_recommendations data
    = map (fun t => recommendation (fst t)) (get_top_weaknesses data 5) /\
  List.length (get_practice_recommendations data)
    = Nat.min 5 (List.length (ud_weakness_tags data)) /\
  Forall2 (fun line t => startswith (u "【" ++ fst t ++ u "】") line = true)
          (get_practice_recommendations data) (get_top_weaknesses data 5).
Proof.
  destruct (top_of_sorted (ud_weakness_tags data) 5) as (Hlen & _).
  fold (get_top_weaknesses data 5) in Hlen.
  assert (Heq : get_practice_recommendations data
                = map (fun t => recommendation (fst t))
                      (get_top_weaknesses data 5)).
  { unfold get_practice_recommendations. apply firstn_all2.
    rewrite length_map, Hlen. apply Nat.le_min_l. }
  split; [exact Heq|]. split.
  - rewrite Heq, length_map. exact Hlen.
  - rewrite Heq. generalize (get_top_weaknesses data 5). intros l.
    induction l as [|t l IH]; cbn [map]; constructor; [|exact IH].
    unfold recommendation.
    assert (Happ : forall a b c d : py_str,
               a ++ b ++ c ++ d = (a ++ b ++ c) ++ d)
      by (intros; now rewrite !app_assoc).
    destruct (suggestion_for suggestion_map (fst t));
      rewrite Happ; apply startswith_app.
Qed.

Lemma top_empty (l : list (py_str * Z)) (n : nat) :
  firstn (S n) (sorted_desc l) = [] <-> l = [].
Proof.
  destruct (top_of_sorted l (S n)) as (Hlen & _). split.
  - intros H. rewrite H in Hlen. cbn [List.length] in Hlen.
    destruct l; [reflexivity|]. cbn [List.length] in Hlen. lia.
  - intros ->. reflexivity.
Qed.

(** X7.  [get_context_for_prompt] answers with the
    notice for new users exactly when the profile has no name, no
    experience, no skill, no interview counted and no tag on record.  So a
    profile just created gets the notice, whatever the user id, and a
    profile saved with at least one interview in its history never does. *)
Theorem new_user_notice :
  (forall data,
     get_context_for_prompt data = Fixed NEW_USER <->
     p_name (ud_profile data) = [] /\
     p_experience_years (ud_profile data) = 0 /\
     p_skills (ud_profile data) = [] /\
     total_interviews (ud_statistics data) <= 0 /\
     ud_weakness_tags data = [] /\
     ud_strength_tags data = []) /\
  (forall user_id,
     get_context_for_prompt (_default_profile user_id) = Fixed NEW_USER) /\
  (forall data,
     ud_interview_history data <> [] ->
     get_context_for_prompt (_update_statistics data) = Built).
Proof.
  assert (Hiff : forall data,
     get_context_for_prompt data = Fixed NEW_USER <->
     p_name (ud_profile data) = [] /\
     p_experience_years (ud_profile data) = 0 /\
     p_skills (ud_profile data) = [] /\
     total_interviews (ud_statistics data) <= 0 /\
     ud_weakness_tags data = [] /\
     ud_strength_tags data = []).
  { intros data. unfold get_context_for_prompt, get_top_weaknesses,
      get_top_strengths.
    pose proof (top_empty (ud_weakness_tags data) 2) as Hw.
    pose proof (top_empty (ud_strength_tags data) 2) as Hs.
    destruct (firstn 3 (sorted_desc (ud_weakness_tags data))) as [|w ws];
      destruct (firstn 3 (sorted_desc (ud_strength_tags data))) as [|s ss];
      destruct (str_eqb (p_name (ud_profile data)) []) eqn:En;
      destruct (p_experience_years (ud_profile data) =? 0) eqn:Ee;
      destruct (p_skills (ud_profile data)) as [|k ks];
      destruct (0 <? total_interviews (ud_statistics data)) eqn:Et;
      try destruct (num_truthy (average_score (ud_statistics data)));
      try destruct (str_eqb (recent_trend (ud_statistics data)) []);
      cbn [negb app];
      try apply str_eqb_eq in En; try apply Z.eqb_eq in Ee;
      try apply Z.ltb_lt in Et; try apply Z.ltb_ge in Et;
      (split;
       [ try discriminate; intros _; repeat split;
         try assumption; try (now apply Hw); try (now apply Hs)
       | intros (H1 & H2 & H3 & H4 & H5 & H6); try reflexivity;
         try discriminate; try lia;
         try (apply Hw in H5; discriminate);
         try (apply Hs in H6; discriminate);
         try (apply str_eqb_eq in H1; congruence);
         try (apply Z.eqb_eq in H2; congruence) ]). }
  split; [exact Hiff|]. split.
  - intros user_id. apply Hiff. cbn. repeat split. lia.
  - intros data Hne.
    destruct (get_context_for_prompt (_update_statistics data))
      as [s|] eqn:E; [|reflexivity].
    assert (Hs : s = NEW_USER).
    { revert E. unfold get_context_for_prompt.
      repeat match goal with
             | |- context [match ?x with _ => _ end] => destruct x
             end; congruence. }
    subst s. apply Hiff in E. destruct E as (_ & _ & _ & Htot & _).
    pose proof (update_statistics_scores data) as (Hlen & _).
    rewrite Hlen in Htot. unfold len in Htot.
    destruct (ud_interview_history data); [contradiction|].
    cbn [List.length] in Htot. lia.
Qed.

Lemma new_user_notice_witness :
  get_context_for_prompt
    (_update_statistics
       (with_history (_default_profile (u "candidate"))
                     [entry (Some (NInt 7))]))
  = Built.
Proof.
  apply (proj2 (proj2 new_user_notice)). discriminate.
Defined.

(** ** SessionMemory.to_dict *)

Lemma filter_partition_length {A} (f : A -> bool) (l : list A) :
  (List.length l
   = List.length (filter (fun x => negb (f x)) l)
     + List.length (filter f l))%nat.
Proof.
  induction l as [|x rest IH]; cbn [filter List.length]; [reflexivity|].
  destruct (f x); cbn [negb List.length]; lia.
Qed.

(** X8.  In the summary of a session dump the
    rounds are counted twice over: [total_rounds] is the sum of
    [main_rounds] and [follow_up_rounds], neither of which is negative. *)
Theorem to_dict_counts_add_up (list_of_set : list py_str -> list py_str)
    (s : SessionMemory) :
  let d := to_dict list_of_set s in
  d_total_rounds d = d_main_rounds d + d_follow_up_rounds d /\
  0 <= d_follow_up_rounds d <= d_total_rounds d /\
  0 <= d_main_rounds d <= d_total_rounds d.
Proof.
  cbv zeta. unfold to_dict.
  cbn [d_total_rounds d_main_rounds d_follow_up_rounds].
  unfold len. rewrite (filter_partition_length r_is_follow_up (rounds s)).
  repeat split; lia.
Qed.

(** ** Normalizing twice *)

Lemma keep_tags_of_vocab (vocab l : list py_str) :
  Forall (fun s => In s vocab) l -> keep_tags vocab (map JStr l) = l.
Proof.
  induction 1 as [|s rest Hs _ IH]; cbn [map keep_tags]; [reflexivity|].
  assert (Hin : in_strs (JStr s) vocab = true)
    by (apply in_strs_true; eauto).
  rewrite Hin, IH. reflexivity.
Qed.

Lemma as_dict_fields (e : Evaluation) :
  dict_has (as_dict e) (u "error") = false /\
  (forall dflt, get_default (as_dict e) (u "feedback") dflt = feedback e) /\
  (forall dflt, get_default (as_dict e) (u "weakness_tags") dflt
                = JList (map JStr (weakness_tags e))) /\
  (forall dflt, get_default (as_dict e) (u "strength_tags") dflt
                = JList (map JStr (strength_tags e))) /\
  (forall dflt, get_default (as_dict e) (u "key_points") dflt = key_points e) /\
  (forall dflt, get_default (as_dict e) (u "improvement_hint") dflt
                = improvement_hint e).
Proof.
  split; [destruct e as [s f w st k i [r|]]; reflexivity|].
  repeat split; intros dflt; reflexivity.
Qed.

(** X9.  The web front end normalizes
    an evaluation that [evaluate_answer] has already normalized.  The
    second pass changes nothing: it returns the record it is given (score,
    feedback, both tag lists, key points, hint), only without the
    [raw_error] key of a fallback record; in particular it never raises. *)
Theorem normalizing_twice_changes_nothing (result : json) (e : Evaluation) :
  _normalize_evaluation_result result = Ok e ->
  _normalize_evaluation_result (JDict (as_dict e)) = Ok (without_raw_error e).
Proof.
  intros H.
  destruct (normalize_score_correct result e H) as (Hrange & _ & _).
  assert (Htags : Forall (fun s => In s WEAKNESS_TAGS) (weakness_tags e) /\
                  Forall (fun s => In s STRENGTH_TAGS) (strength_tags e)).
  { unfold _normalize_evaluation_result in H.
    step_res H. destruct x as [|].
    - step_res H. injection H as <-. cbn. split; constructor.
    - do 9 step_res H. injection H as <-. cbn [weakness_tags strength_tags].
      split; apply keep_tags_vocab. }
  destruct Htags as [Hw Hs].
  destruct (as_dict_fields e) as (Herr & Hfb & Hwt & Hst & Hkp & Hih).
  rewrite (normalize_dict_returns (as_dict e) (score e)
             (map JStr (weakness_tags e)) (map JStr (strength_tags e))).
  - rewrite Hfb, Hkp, Hih, (keep_tags_of_vocab _ _ Hw),
      (keep_tags_of_vocab _ _ Hs). reflexivity.
  - exact Herr.
  - rewrite as_dict_score. cbn [normalize_score]. f_equal.
    unfold clamp_score. unfold SCORE_MIN, SCORE_MAX in *. lia.
  - rewrite Hwt. reflexivity.
  - rewrite Hst. reflexivity.
Qed.

Lemma normalizing_twice_changes_nothing_witness :
  _normalize_evaluation_result
    (JDict (as_dict
      {| score := 5; feedback := JStr (u "评估过程出现问题，请重试。");
         weakness_tags := []; strength_tags := [];
         key_points := JList []; improvement_hint := JStr (u "");
         raw_error := Some (JStr (u "not json")) |}))
  = Ok {| score := 5; feedback := JStr (u "评估过程出现问题，请重试。");
          weakness_tags := []; strength_tags := [];
          key_points := JList []; improvement_hint := JStr (u "");
          raw_error := None |}.
Proof.
  apply (normalizing_twice_changes_nothing
           (JDict [(u "error", JStr PARSE_FAILED);
                   (u "raw", JStr (u "not json"))])).
  vm_compute. reflexivity.
Defined.

(** ** Score bands and the panel's decision *)

Lemma score_bands_total (z : Z) :
  0 <= z <= 10 ->
  exists band info,
    In (band, info) SCORE_LEVELS /\
    fst band <= z <= snd band /\
    get_score_level (NInt z) = Ok info.
Proof.
  intros Hz.
  assert (Hcases : z = 0 \/ z = 1 \/ z = 2 \/ z = 3 \/ z = 4 \/ z = 5 \/
                   z = 6 \/ z = 7 \/ z = 8 \/ z = 9 \/ z = 10) by lia.
  unfold get_score_level, SCORE_LEVELS.
  repeat (destruct Hcases as [->|Hcases]); [..|subst z];
    cbn [first_band num_le Z.leb Z.compare Pos.compare Pos.compare_cont
         andb In fst snd];
    (do 2 eexists; split; [|split]; [ | | reflexivity ];
     [tauto | cbn [fst snd]; lia]).
Qed.

(** X10.  The five score bands cover
    the integers from 0 to 10 without overlap: every such score lies in
    exactly one band, and [get_score_level] returns the entry of that band,
    so that the default entry is never used for an integer score within the
    scale. *)
Theorem score_bands_cover_the_integer_scale (z : Z) :
  0 <= z <= 10 ->
  exists band info,
    In (band, info) SCORE_LEVELS /\
    fst band <= z <= snd band /\
    get_score_level (NInt z) = Ok info /\
    forall band' info',
      In (band', info') SCORE_LEVELS -> fst band' <= z <= snd band' ->
      band' = band /\ info' = info.
Proof.
  intros Hz.
  assert (Hcases : z = 0 \/ z = 1 \/ z = 2 \/ z = 3 \/ z = 4 \/ z = 5 \/
                   z = 6 \/ z = 7 \/ z = 8 \/ z = 9 \/ z = 10) by lia.
  unfold get_score_level, SCORE_LEVELS.
  repeat (destruct Hcases as [->|Hcases]); [..|subst z];
    cbn [first_band num_le Z.leb Z.compare Pos.compare Pos.compare_cont
         andb In fst snd];
    (do 2 eexists; split; [|split; [|split]];
     [ | | reflexivity | ];
     [ tauto
     | cbn [fst snd]; lia
     | intros band' info' Hin Hb;
       repeat (destruct Hin as [[= <- <-]|Hin];
               [cbn [fst snd] in Hb; try lia; split; reflexivity|]);
       destruct Hin ]).
Qed.

Lemma score_bands_cover_the_integer_scale_witness :
  exists band info,
    In (band, info) SCORE_LEVELS /\
    fst band <= 4 <= snd band /\
    get_score_level (NInt 4) = Ok info /\
    forall band' info',
      In (band', info') SCORE_LEVELS -> fst band' <= 4 <= snd band' ->
      band' = band /\ info' = info.
Proof. apply (score_bands_cover_the_integer_scale 4). lia. Defined.

(** X11.  When the panel's answer is a
    dict without error marker whose [final_score], if it is a float, is
    finite, [_normalize_final_evaluation] returns an evaluation whose final
    score is an integer from 0 to 10 and which carries no [raw_error].  A
    decision given in the answer is kept as it is, whatever the score; the
    decision is inferred from the band of the score only when the answer
    gives none. *)
Theorem final_evaluation_of_usable_answer
    (d : pydict) (summary : SessionSummary) :
  dict_has d (u "error") = false ->
  (forall f, dict_get d (u "final_score") = Some (JFloat f) ->
             exists z, int_of_float f = Ok z) ->
  exists fe z,
    _normalize_final_evaluation (JDict d) summary = Ok fe /\
    final_score fe = NInt z /\ 0 <= z <= 10 /\
    fe_raw_error fe = None /\
    match dict_get d (u "decision") with
    | Some given => fe_decision fe = given
    | None =>
        exists band info,
          In (band, info) SCORE_LEVELS /\ fst band <= z <= snd band /\
          fe_decision fe = JStr (decision info)
    end.
Proof.
  intros Herr Hfinite.
  unfold _normalize_final_evaluation.
  cbn [str_in rbind method_get]. rewrite Herr. cbn [rbind].
  assert (Hscore : exists z,
            (match get_default d (u "final_score") (JInt 5) with
             | JInt z => Ok (Z.max 0 (Z.min 10 z))
             | JBool b => Ok (Z.max 0 (Z.min 10 (Z.b2z b)))
             | JFloat f => rbind (int_of_float f)
                             (fun z => Ok (Z.max 0 (Z.min 10 z)))
             | _ => Ok 5
             end) = Ok z /\ 0 <= z <= 10).
  { unfold get_default.
    destruct (dict_get d (u "final_score")) as [[| b | z | f | s | l | d']|];
      try (eexists; split; [reflexivity|lia]).
    destruct (Hfinite f eq_refl) as (z & Hz). rewrite Hz. cbn [rbind].
    eexists; split; [reflexivity|lia]. }
  destruct Hscore as (z & Hz & Hrange). rewrite Hz. cbn [rbind].
  destruct (score_bands_total z Hrange) as (band & info & Hin & Hb & Hlevel).
  rewrite Hlevel. cbn [rbind].
  eexists. exists z. split; [reflexivity|].
  cbn [final_score fe_raw_error fe_decision].
  split; [reflexivity|]. split; [exact Hrange|]. split; [reflexivity|].
  unfold get_default.
  destruct (dict_get d (u "decision")) as [given|]; [reflexivity|].
  exists band, info. repeat split; try assumption; lia.
Qed.

Lemma final_evaluation_of_usable_answer_witness :
  exists fe,
    _normalize_final_evaluation
      (JDict [(u "final_score", JFloat 8.6)])
      {| s_rounds := []; s_average_score := 0.0; s_weighted_score := 0.0;
         s_all_weakness_tags := []; s_all_strength_tags := [] |} = Ok fe /\
    final_score fe = NInt 8 /\
    fe_decision fe = JStr (u "推荐通过").
Proof.
  destruct (final_evaluation_of_usable_answer
              [(u "final_score", JFloat 8.6)]
              {| s_rounds := []; s_average_score := 0.0;
                 s_weighted_score := 0.0;
                 s_all_weakness_tags := []; s_all_strength_tags := [] |})
    as (fe & z & Hfe & _).
  - vm_compute. reflexivity.
  - intros f [= <-]. exists 8. vm_compute. reflexivity.
  - exists fe. split; [exact Hfe|].
    vm_compute in Hfe. injection Hfe as <-. split; reflexivity.
Defined.
(** ** What an interview records, costs and saves *)

Section Rounds.

Variable llm_text : nat -> py_str.
Variable llm_json : nat -> json.
Variable get_user_answer : nat -> py_str -> py_str -> py_str.
Variable list_of_set : list py_str -> list py_str.
Variable follow_up_config : FollowUpConfig.
Variables hiring_manager technical culture_fit : Agent.
Variable save_stamp : py_str.

Local Notation single :=
  (run_single_round llm_text llm_json get_user_answer follow_up_config
     hiring_manager technical culture_fit).

Local Notation several :=
  (run_rounds llm_text llm_json get_user_answer follow_up_config
     hiring_manager technical culture_fit).

Local Notation conclude :=
  (conclude_interview llm_text llm_json list_of_set save_stamp).

Local Notation interview :=
  (run_full_interview llm_text llm_json get_user_answer list_of_set
     follow_up_config hiring_manager technical culture_fit save_stamp).

Lemma single_round_added (key : py_str) (st st' : State)
    (outcome : RoundOutcome) :
  single key st = (st', Ok outcome) ->
  exists k added, round_added key st st' k added /\
                  List.length (o_questions outcome) = k /\
                  o_round outcome = key /\
                  o_final_score outcome = last (map r_score added) 0.
Proof.
  unfold round_added.
  run_split; intros [= <- <-];
    cbn [session rounds add_round append_round llm_calls answers_given
         o_questions o_round o_final_score app List.length];
    rewrite <- ?app_assoc; cbn [app];
    [ exists 2%nat | exists 1%nat | exists 1%nat ];
    eexists;
    (split;
     [ split; [reflexivity|]; split; [lia|]; split; [lia|]
     | repeat split ]);
    [ right | left | left ]; (split; [reflexivity|]);
    repeat eexists.
Qed.

Lemma run_rounds_added (keys : list py_str) :
  forall st st' results,
    several keys st = (st', Ok results) ->
    exists added,
      rounds (session st') = rounds (session st) ++ added /\
      rounds_for keys added /\
      llm_calls st' = (llm_calls st + 2 * List.length added)%nat /\
      answers_given st' = (answers_given st + List.length added)%nat /\
      List.length results = List.length keys.
Proof.
  induction keys as [|key rest IH]; intros st st' results.
  - cbn [run_rounds ret]. intros [= <- <-]. exists []. rewrite app_nil_r.
    cbn [List.length]. split; [reflexivity|]. split; [constructor|].
    repeat split; lia.
  - cbn [run_rounds bind notify].
    match goal with
    | |- context [run_single_round ?a ?b ?c ?d ?e ?f ?g ?k ?s] =>
        pose proof (single_round_added k s) as Hk;
        destruct (run_single_round a b c d e f g k s) as [st1 [result|e0]]
    end; [|discriminate].
    destruct (Hk st1 result eq_refl) as (k & added & Hadd & Hlen & _).
    cbn [bind notify].
    match goal with
    | |- context [run_rounds ?a ?b ?c ?d ?e ?f ?g ?k ?s] =>
        pose proof (IH s) as Hr;
        destruct (run_rounds a b c d e f g k s) as [st2 [results'|e0]]
    end; [|discriminate].
    cbn [ret]. intros [= <- <-].
    destruct (Hr st2 results' eq_refl) as (more & Hrounds & Hfor & Hllm
                                           & Hans & Hres).
    cbn [session rounds llm_calls answers_given] in Hrounds, Hllm, Hans.
    destruct Hadd as (Ha & Hl & Hn & Hshape).
    cbn [session rounds llm_calls answers_given] in Ha, Hl, Hn.
    exists (added ++ more). rewrite Hrounds, Ha, Hllm, Hl, Hans, Hn.
    rewrite <- app_assoc, length_app. cbn [List.length].
    destruct Hshape as [(-> & m & -> & Hm1 & Hm2)
                       |(-> & m & f & -> & Hm1 & Hm2 & Hf)];
      cbn [List.length app]; repeat split; try lia;
      [now apply rounds_main | now apply rounds_follow_up].
Qed.

Lemma conclude_interview_outcome (user_id : py_str) (st1 st2 : State)
    (r : res py_str) :
  conclude user_id st1 = (st2, r) ->
  let path := session_path save_stamp (sm_user_id (session st1)) in
  rounds (session st2) = rounds (session st1) /\
  answers_given st2 = answers_given st1 /\
  match r with
  | Raise e =>
      (user_files st2 = user_files st1 /\
       session_files st2 = session_files st1) \/
      (e = UnicodeEncodeError /\
       user_files st2 = (user_id, Truncated) :: user_files st1 /\
       session_files st2 = session_files st1) \/
      (e = UnicodeEncodeError /\
       user_files st2 = (user_id, Written (user_memory st2)) :: user_files st1 /\
       session_files st2 = (path, Truncated) :: session_files st1)
  | Ok returned =>
      returned = path /\
      user_files st2 = (user_id, Written (user_memory st2)) :: user_files st1 /\
      session_files st2
        = (path, Written (to_dict list_of_set (session st2)))
          :: session_files st1 /\
      llm_calls st2
        = (llm_calls st1 + 1 +
           match ud_interview_history (user_memory st1) with
           | [] => 0
           | _ :: _ => 1
           end)%nat /\
      final_evaluation (session st2) <> None
  end.
Proof.
  cbv zeta. full_split; intros [= <- <-];
    cbn [session rounds set_final_evaluation answers_given
         user_files session_files llm_calls user_memory sm_user_id
         final_evaluation];
    (split; [reflexivity|]); (split; [reflexivity|]);
    first [ left; split; reflexivity
          | right; left; repeat split; reflexivity
          | right; right; repeat split; reflexivity
          | repeat split; try reflexivity; try lia; discriminate ].
Qed.

Lemma rounds_for_main (keys : list py_str) (rs : list RoundResult) :
  rounds_for keys rs ->
  map r_role (filter (fun r => negb (r_is_follow_up r)) rs) = keys /\
  (List.length (filter r_is_follow_up rs) <= List.length keys)%nat /\
  (List.length rs
   = List.length keys + List.length (filter r_is_follow_up rs))%nat.
Proof.
  induction 1 as [|key keys m rest Hr Hm _ (IH1 & IH2 & IH3)
                  |key keys m f rest Hr Hm Hf _ (IH1 & IH2 & IH3)];
    cbn [filter]; rewrite ?Hm, ?Hf; cbn [negb filter map List.length].
  - repeat split; lia.
  - rewrite Hr, IH1. repeat split; lia.
  - rewrite Hr, IH1. repeat split; lia.
Qed.

Lemma start_state_files (user_id : py_str) (st : State) :
  user_files (start_state user_id st) = user_files st /\
  session_files (start_state user_id st) = session_files st /\
  llm_calls (start_state user_id st) = llm_calls st /\
  answers_given (start_state user_id st) = answers_given st /\
  session (start_state user_id st) = new_session user_id DEFAULT_POSITION /\
  user_memory (start_state user_id st)
  = match read_file (user_files st) user_id with
    | Some (Written loaded) => loaded
    | Some Truncated | None => _default_profile user_id
    end.
Proof. repeat split. Qed.


(** X13.  The session of a completed
    interview records the four interviewer rounds in the configured order
    (HR, HiringManager, Technical, CultureFit), each as a main round
    followed by at most one follow-up and by nothing else; the Committee
    records no round.  The summary written with the session counts 4 main
    rounds and between 0 and 4 follow-ups. *)
Theorem completed_interview_record
    (user_id : py_str) (st st' : State) (path : py_str) :
  interview user_id st = (st', Ok path) ->
  let recorded := rounds (session st') in
  let dump := to_dict list_of_set (session st') in
  rounds_for round_order recorded /\
  map r_role (filter (fun r => negb (r_is_follow_up r)) recorded)
    = round_order /\
  d_main_rounds dump = 4 /\
  0 <= d_follow_up_rounds dump <= 4 /\
  d_total_rounds dump = 4 + d_follow_up_rounds dump.
Proof.
  rewrite run_full_interview_from_start. cbn [bind].
  destruct (several round_order (start_state user_id st))
    as [st1 [results|e]] eqn:Hrounds; [|discriminate].
  intros Hrun. cbv zeta.
  destruct (conclude_interview_outcome _ _ _ _ Hrun) as (Hsame & _ & _).
  destruct (run_rounds_added _ _ _ _ Hrounds)
    as (added & Hadd & Hfor & _ & _ & _).
  cbn [start_state] in Hadd.
  destruct (start_state_files user_id st) as (_ & _ & _ & _ & Hsess & _).
  rewrite Hsess in Hadd. cbn [new_session rounds app] in Hadd.
  rewrite Hsame, Hadd.
  destruct (rounds_for_main _ _ Hfor) as (Hmain & Hfollow & Hlen).
  split; [exact Hfor|]. split; [exact Hmain|].
  unfold to_dict.
  cbn [d_main_rounds d_follow_up_rounds d_total_rounds].
  rewrite Hsame, Hadd. unfold len.
  assert (Hm : List.length (filter (fun r => negb (r_is_follow_up r)) added)
               = 4%nat).
  { rewrite <- (length_map r_role), Hmain. reflexivity. }
  rewrite Hm, Hlen.
  change (List.length round_order) with 4%nat in *.
  repeat split; lia.
Qed.

(** X14.  What a completed interview costs:
    between 4 and 8 questions are asked, the candidate is asked for exactly
    one answer per recorded round, and the model is called twice per
    recorded round (question, evaluation), once for the final evaluation
    and once more for the comparison when the candidate has an interview on
    file: between 9 and 18 calls. *)
Theorem completed_interview_cost
    (user_id : py_str) (st st' : State) (path : py_str) :
  interview user_id st = (st', Ok path) ->
  let asked := List.length (rounds (session st')) in
  (4 <= asked <= 8)%nat /\
  answers_given st' = (answers_given st + asked)%nat /\
  llm_calls st'
    = (llm_calls st + 2 * asked + 1
       + comparison_calls (user_files st) user_id)%nat /\
  (llm_calls st + 9 <= llm_calls st' <= llm_calls st + 18)%nat.
Proof.
  rewrite run_full_interview_from_start. cbn [bind].
  pose proof (run_rounds_keeps_profile llm_text llm_json get_user_answer
                follow_up_config hiring_manager technical culture_fit
                round_order (start_state user_id st)) as Hkeep.
  cbv zeta in Hkeep.
  destruct (several round_order (start_state user_id st))
    as [st1 [results|e]] eqn:Hrounds; [|discriminate].
  cbn [fst] in Hkeep. destruct Hkeep as (Hmem & _).
  intros Hrun. cbv zeta.
  destruct (conclude_interview_outcome _ _ _ _ Hrun)
    as (Hsame & Hans & _ & _ & _ & Hllm & _).
  destruct (run_rounds_added _ _ _ _ Hrounds)
    as (added & Hadd & Hfor & Hllm1 & Hans1 & _).
  destruct (start_state_files user_id st)
    as (_ & _ & Hl0 & Ha0 & Hsess & Hum).
  rewrite Hsess in Hadd. cbn [new_session rounds app] in Hadd.
  rewrite Hl0 in Hllm1. rewrite Ha0 in Hans1.
  rewrite Hmem, Hum in Hllm.
  destruct (rounds_for_main _ _ Hfor) as (_ & Hfollow & Hlen).
  change (List.length round_order) with 4%nat in *.
  rewrite Hsame, Hadd, Hans, Hans1, Hllm, Hllm1.
  unfold comparison_calls.
  split; [lia|]. split; [reflexivity|].
  destruct (read_file (user_files st) user_id) as [[loaded|]|].
  - destruct (ud_interview_history loaded); lia.
  - cbn [_default_profile ud_interview_history]. lia.
  - cbn [_default_profile ud_interview_history]. lia.
Qed.

End Rounds.


Lemma completed_interview_record_witness :
  exists st' path,
    demo_interview returning_state = (st', Ok path) /\
    rounds_for round_order (rounds (session st')) /\
    d_main_rounds (to_dict first_seen (session st')) = 4.
Proof.
  unfold demo_interview. run_example Hrun.
  destruct Hrun as (st' & path & Hrun). exists st', path.
  split; [exact Hrun|].
  pose proof (completed_interview_record
                demo_text failing_panel_json demo_answer first_seen
                FOLLOW_UP_CONFIG (demo_agent (u "HiringManager"))
                (demo_agent (u "Technical")) (demo_agent (u "CultureFit"))
                (u "20240101_120000") (u "candidate") returning_state st'
                path Hrun) as (Hfor & _ & Hmain & _).
  split; [exact Hfor | exact Hmain].
Defined.

Lemma completed_interview_cost_witness :
  exists st' path,
    demo_interview returning_state = (st', Ok path) /\
    (llm_calls returning_state + 9 <= llm_calls st'
     <= llm_calls returning_state + 18)%nat.
Proof.
  unfold demo_interview. run_example Hrun.
  destruct Hrun as (st' & path & Hrun). exists st', path.
  split; [exact Hrun|].
  pose proof (completed_interview_cost
                demo_text failing_panel_json demo_answer first_seen
                FOLLOW_UP_CONFIG (demo_agent (u "HiringManager"))
                (demo_agent (u "Technical")) (demo_agent (u "CultureFit"))
                (u "20240101_120000") (u "candidate") returning_state st'
                path Hrun) as (_ & _ & _ & Hcalls).
  exact Hcalls.
Defined.

(** ** Quick practice *)

Section Practice.

Variable llm_text : nat -> py_str.
Variable llm_json : nat -> json.
Variable get_user_answer : nat -> py_str -> py_str -> py_str.
Variable follow_up_config : FollowUpConfig.
Variables hiring_manager technical culture_fit : Agent.

Local Notation single :=
  (run_single_round llm_text llm_json get_user_answer follow_up_config
     hiring_manager technical culture_fit).

Local Notation practice :=
  (run_quick_practice llm_text llm_json get_user_answer follow_up_config
     hiring_manager technical culture_fit).

Lemma single_round_trace (key : py_str) (st : State) :
  exists new,
    trace (fst (single key st)) = trace st ++ new /\
    Forall practice_event
           (filter (fun e => negb (is_follow_up_notice e)) new).
Proof.
  run_split; cbn [fst trace]; rewrite <- ?app_assoc; cbn [app];
    eexists; (split; [try reflexivity; symmetry; apply app_nil_r|]);
    cbn [filter is_follow_up_notice negb];
    repeat constructor.
Qed.

Lemma single_round_session (key : py_str) (st : State) :
  let st' := fst (single key st) in
  sm_position (session st') = sm_position (session st) /\
  final_evaluation (session st') = final_evaluation (session st).
Proof. cbv zeta. run_split; repeat split. Qed.

Lemma skipn_own_length {A} (l new : list A) :
  skipn (List.length l) (l ++ new) = new.
Proof. induction l as [|x l IH]; [reflexivity | exact IH]. Qed.

(** X15.  A quick practice of
    a round type that is not one of the four interviewers (the Committee
    included) is refused with ValueError before anything happens: no
    profile is loaded, no session is opened, the model is not called and
    the candidate is not asked. *)
Theorem quick_practice_of_unknown_round_is_refused
    (user_id round_type : py_str) (st : State) :
  round_type <> u "HR" -> round_type <> u "HiringManager" ->
  round_type <> u "Technical" -> round_type <> u "CultureFit" ->
  practice user_id round_type st = (st, Raise ValueError).
Proof.
  intros H1 H2 H3 H4. unfold run_quick_practice, agents.
  cbn [existsb fst].
  assert (Hn : forall k, round_type <> k -> str_eqb k round_type = false).
  { intros k Hk. destruct (str_eqb k round_type) eqn:E; [|reflexivity].
    apply str_eqb_eq in E. congruence. }
  rewrite (Hn _ H1), (Hn _ H2), (Hn _ H3), (Hn _ H4). reflexivity.
Qed.

(** X16.  A quick practice saves nothing:
    however it ends, no profile file and no session file is written.  The
    only callbacks it calls are those for questions and evaluations: a
    follow-up is announced to nobody. *)
Theorem quick_practice_saves_nothing
    (user_id round_type : py_str) (st : State) :
  let st' := fst (practice user_id round_type st) in
  user_files st' = user_files st /\
  session_files st' = session_files st /\
  exists new, trace st' = trace st ++ new /\ Forall practice_event new.
Proof.
  cbv zeta. unfold run_quick_practice.
  destruct (negb (existsb _ _)).
  - cbn [lift fst]. repeat split. exists []. split; [now rewrite app_nil_r|].
    constructor.
  - cbn [bind load_user get set_user_memory set_session ret fst snd
         user_memory session user_files session_files llm_calls
         answers_given trace].
    unfold without_on_follow_up.
    match goal with
    | |- context [run_single_round ?a ?b ?c ?d ?e ?f ?g ?k ?s] =>
        pose proof (run_single_round_keeps_profile a b c d e f g k s) as Hk;
        pose proof (single_round_trace k s) as Ht;
        destruct (run_single_round a b c d e f g k s) as [st1 r]
    end.
    cbv zeta in Hk. cbn [fst user_memory session user_files session_files
                         trace] in Hk, Ht |- *.
    destruct Hk as (_ & Hu & Hs & _). destruct Ht as (new & Hnew & Hall).
    split; [exact Hu|]. split; [exact Hs|].
    rewrite Hnew, skipn_own_length. eexists. split; [reflexivity|exact Hall].
Qed.

(** X17.  A quick practice that returns has run
    one round on a session of its own, named after the round type and
    without final evaluation: the session holds the main round alone or the
    main round and one follow-up, and the score reported is the score of
    the last of them. *)
Theorem quick_practice_session
    (user_id round_type : py_str) (st st' : State) (outcome : RoundOutcome) :
  practice user_id round_type st = (st', Ok outcome) ->
  sm_position (session st') = u "快速练习-" ++ round_type /\
  final_evaluation (session st') = None /\
  o_round outcome = round_type /\
  ((exists m, rounds (session st') = [m] /\ r_role m = round_type /\
              r_is_follow_up m = false /\ o_final_score outcome = r_score m)
   \/
   (exists m f, rounds (session st') = [m; f] /\ r_role m = round_type /\
                r_is_follow_up m = false /\ r_is_follow_up f = true /\
                o_final_score outcome = r_score f)).
Proof.
  unfold run_quick_practice.
  destruct (negb (existsb _ _)); [discriminate|].
  cbn [bind load_user get set_user_memory set_session ret fst snd
       user_memory session user_files session_files llm_calls
       answers_given trace].
  unfold without_on_follow_up.
  match goal with
  | |- context [run_single_round ?a ?b ?c ?d ?e ?f ?g ?k ?s] =>
      pose proof (single_round_added a b c d e f g k s) as Hk;
      pose proof (single_round_session k s) as Hs;
      destruct (run_single_round a b c d e f g k s) as [st1 r]
  end.
  intros [= <- ->]. cbn [session].
  cbv zeta in Hs. cbn [fst session sm_position final_evaluation new_session]
    in Hs. destruct Hs as [Hpos Hfe].
  destruct (Hk st1 outcome eq_refl)
    as (k & added & (Hadd & _ & _ & Hshape) & _ & Hround & Hscore).
  cbn [session rounds new_session app] in Hadd.
  rewrite Hpos, Hfe, Hadd, Hscore.
  repeat split; [exact Hround|].
  destruct Hshape as [(_ & m & -> & Hm1 & Hm2)
                     |(_ & m & f & -> & Hm1 & Hm2 & Hf)].
  - left. exists m. repeat split; assumption.
  - right. exists m, f. repeat split; assumption.
Qed.

End Practice.

Lemma quick_practice_of_unknown_round_is_refused_witness :
  demo_practice (u "Committee") demo_state = (demo_state, Raise ValueError).
Proof.
  apply (quick_practice_of_unknown_round_is_refused
           demo_text demo_json demo_answer FOLLOW_UP_CONFIG
           (demo_agent (u "HiringManager")) (demo_agent (u "Technical"))
           (demo_agent (u "CultureFit")) (u "candidate") (u "Committee")
           demo_state);
    vm_compute; discriminate.
Defined.

Lemma quick_practice_session_witness :
  exists st' outcome,
    demo_practice (u "Technical") demo_state = (st', Ok outcome) /\
    sm_position (session st') = u "快速练习-" ++ u "Technical" /\
    final_evaluation (session st') = None /\
    o_round outcome = u "Technical".
Proof.
  unfold demo_practice. run_example Hrun.
  destruct Hrun as (st' & outcome & Hrun). exists st', outcome.
  split; [exact Hrun|].
  pose proof (quick_practice_session
                demo_text demo_json demo_answer FOLLOW_UP_CONFIG
                (demo_agent (u "HiringManager"))
                (demo_agent (u "Technical"))
                (demo_agent (u "CultureFit")) (u "candidate")
                (u "Technical") demo_state st' outcome Hrun)
    as (Hpos & Hfe & Hround & _).
  repeat split; assumption.
Defined.
(** ** A history the comparison cannot read *)

Lemma each_ok_inv {A} (f : A -> res unit) (xs : list A) :
  each f xs = Ok tt -> forall x, In x xs -> f x = Ok tt.
Proof.
  induction xs as [|y xs IH]; cbn [each]; intros H x Hx; [destruct Hx|].
  destruct (f y) as [[]|e] eqn:Ey; cbn [rbind] in H; [|discriminate H].
  destruct Hx as [<-|Hx]; [exact Ey | now apply IH].
Qed.

Lemma comparative_prompt_reads_history (e : FinalEvaluation)
    (history : list Summary) (t : text) :
  comparative_prompt e history = Ok t -> ~ unreadable_history history.
Proof.
  unfold comparative_prompt. intros H (h & Hin & Hbad).
  destruct (each _ (last_n 5 history)) as [[]|e0] eqn:Eeach;
    cbn [rbind] in H; [|discriminate H].
  apply Hbad. exact (each_ok_inv _ _ Eeach h Hin).
Qed.

Lemma run_single_round_keeps_evaluation :
  forall llm_text llm_json get_user_answer follow_up_config
         hiring_manager technical culture_fit agent_key st,
    final_evaluation
      (session (fst (run_single_round llm_text llm_json get_user_answer
                       follow_up_config hiring_manager technical culture_fit
                       agent_key st)))
    = final_evaluation (session st).
Proof. intros. run_split; reflexivity. Qed.

Lemma run_rounds_keep_evaluation :
  forall llm_text llm_json get_user_answer follow_up_config
         hiring_manager technical culture_fit keys st,
    final_evaluation
      (session (fst (run_rounds llm_text llm_json get_user_answer
                       follow_up_config hiring_manager technical culture_fit
                       keys st)))
    = final_evaluation (session st).
Proof.
  intros until keys. induction keys as [|key rest IH]; intros st.
  - reflexivity.
  - cbn [run_rounds bind notify fst].
    match goal with
    | |- context [run_single_round ?a ?b ?c ?d ?e ?f ?g ?k ?s] =>
        pose proof (run_single_round_keeps_evaluation a b c d e f g k s)
          as Hk;
        destruct (run_single_round a b c d e f g k s) as [st1 [result|e0]]
    end; cbn [fst session final_evaluation] in Hk.
    + cbn [bind notify fst].
      match goal with
      | |- context [run_rounds ?a ?b ?c ?d ?e ?f ?g ?k ?s] =>
          pose proof (IH s) as Hr;
          destruct (run_rounds a b c d e f g k s) as [st2 [results|e0]]
      end; cbn [fst session final_evaluation ret] in Hr |- *;
        congruence.
    + cbn [fst]. exact Hk.
Qed.

Section Blocked.

Variable llm_text : nat -> py_str.
Variable llm_json : nat -> json.
Variable get_user_answer : nat -> py_str -> py_str -> py_str.
Variable list_of_set : list py_str -> list py_str.
Variable follow_up_config : FollowUpConfig.
Variables hiring_manager technical culture_fit : Agent.
Variable save_stamp : py_str.

Lemma conclude_with_unreadable_history (user_id : py_str)
    (st1 st2 : State) (r : res py_str) :
  unreadable_history (ud_interview_history (user_memory st1)) ->
  conclude_interview llm_text llm_json list_of_set save_stamp user_id st1
    = (st2, r) ->
  (exists e, r = Raise e) /\
  user_files st2 = user_files st1 /\
  session_files st2 = session_files st1 /\
  user_memory st2 = user_memory st1 /\
  final_evaluation (session st2) = final_evaluation (session st1).
Proof.
  intros Hbad.
  full_split; intros [= <- <-];
    cbn [session user_memory user_files session_files final_evaluation];
    first
      [ solve [split; [eexists; reflexivity | repeat split; reflexivity]]
      | exfalso;
        match goal with
        | H : comparative_prompt _ _ = Ok _ |- _ =>
            apply comparative_prompt_reads_history in H; apply H;
            first [exact Hbad | congruence]
        | H : ud_interview_history _ = [] |- _ =>
            try rewrite H in Hbad; destruct Hbad as (h & Hin & _);
            exact Hin
        end ].
Qed.

(** X18.  Once one of a
    candidate's last five stored interviews
    has [key_weaknesses] that the comparison cannot slice and join (the
    null that [_normalize_final_evaluation] copies from the panel's answer
    is one), no full interview of that candidate completes, whatever the
    model and the candidate answer: [run_full_interview] raises, at the
    comparison if not before, and leaves both storage directories as they
    were.  Since no interview is added to the history any more, the entry
    stays among the last five. *)
Theorem unreadable_history_blocks_every_interview
    (user_id : py_str) (st st' : State) (r : res py_str) :
  unreadable_history
    (ud_interview_history (user_memory (start_state user_id st))) ->
  run_full_interview llm_text llm_json get_user_answer list_of_set
    follow_up_config hiring_manager technical culture_fit save_stamp
    user_id st = (st', r) ->
  (exists e, r = Raise e) /\
  user_files st' = user_files st /\
  session_files st' = session_files st /\
  final_evaluation (session st') = None.
Proof.
  intros Hbad. rewrite run_full_interview_from_start. cbn [bind].
  pose proof (run_rounds_keeps_profile llm_text llm_json get_user_answer
                follow_up_config hiring_manager technical culture_fit
                round_order (start_state user_id st)) as Hkeep.
  pose proof (run_rounds_keep_evaluation llm_text llm_json get_user_answer
                follow_up_config hiring_manager technical culture_fit
                round_order (start_state user_id st)) as Hfe.
  cbv zeta in Hkeep, Hfe.
  destruct (run_rounds _ _ _ _ _ _ _ round_order (start_state user_id st))
    as [st1 [results|e]]; cbn [fst] in Hkeep, Hfe;
    destruct Hkeep as (Hmem & Huf & Hsf & _).
  - intros Hrun. rewrite <- Hmem in Hbad.
    destruct (conclude_with_unreadable_history _ _ _ _ Hbad Hrun)
      as (He & Hu & Hs & _ & Hf).
    rewrite Hu, Hs, Hf, Huf, Hsf, Hfe. repeat split. exact He.
  - intros [= <- <-]. rewrite Huf, Hsf, Hfe. repeat split. eexists.
    reflexivity.
Qed.

End Blocked.

Lemma unreadable_history_blocks_every_interview_witness :
  exists e st',
    interview_with demo_json (u "20240102_120000") blocked_state
    = (st', Raise e) /\
    user_files st' = user_files blocked_state /\
    session_files st' = [].
Proof.
  unfold interview_with.
  match goal with
  | |- exists e st', ?run = _ /\ _ =>
      destruct run as [st' r] eqn:Hrun
  end.
  destruct (unreadable_history_blocks_every_interview
              demo_text demo_json demo_answer first_seen
              FOLLOW_UP_CONFIG (demo_agent (u "HiringManager"))
              (demo_agent (u "Technical")) (demo_agent (u "CultureFit"))
              (u "20240102_120000") (u "candidate") blocked_state st' r)
    as ((e & ->) & Hu & Hs & _).
  - exists null_weaknesses_entry. split; [vm_compute; now left|].
    vm_compute. discriminate.
  - exact Hrun.
  - exists e, st'. repeat split; assumption.
Defined.
(** ** Retrying a call *)

Lemma waits_from_step (d a : Z) (k : nat) :
  0 <= a ->
  waits_from d a (S k) = d * 2 ^ a :: waits_from d (a + 1) k.
Proof.
  intros Ha. unfold waits_from. cbn [seq map].
  rewrite Z.add_0_r. f_equal.
  rewrite <- seq_shift, map_map. apply map_ext. intros i.
  do 2 f_equal. lia.
Qed.

Lemma total_waits_from (d a : Z) (k : nat) :
  0 <= a ->
  total (waits_from d a k) = d * 2 ^ a * (2 ^ Z.of_nat k - 1).
Proof.
  revert a. induction k as [|k IH]; intros a Ha.
  - cbn. lia.
  - rewrite (waits_from_step _ _ _ Ha). unfold total in *.
    cbn [fold_right]. rewrite IH by lia.
    rewrite Nat2Z.inj_succ, Z.pow_succ_r by lia.
    rewrite Z.pow_add_r by lia. lia.
Qed.

Lemma attempts_schedule {A : Type} (func : nat -> call_result A) (d : Z) :
  0 <= d ->
  forall (todo : nat) (a : Z) (last : option failure) (w w' : World)
         (r : ended A),
    0 <= a ->
    attempts func d todo a last w = (w', r) ->
    exists k : nat,
      (k <= todo)%nat /\
      (forall i, (i < k)%nat ->
         exists e, func (calls w + i)%nat = Fails e /\ retryable e = true) /\
      slept w' = slept w ++ waits_from d a k /\
      ((k < todo)%nat /\ calls w' = (calls w + k + 1)%nat /\
       match func (calls w + k)%nat with
       | Returns v => r = Returned v
       | Fails e => retryable e = false /\ r = Raised (gives_up e)
       end
       \/
       k = todo /\ calls w' = (calls w + k)%nat /\
       (k = 0%nat /\
        r = Raised match last with
                   | Some e => Propagated e
                   | None => Builtin TypeError
                   end
        \/
        exists j e, k = S j /\ func (calls w + j)%nat = Fails e /\
                    r = Raised (Propagated e))).
Proof.
  intros Hd. induction todo as [|todo IH]; intros a last w w' r Ha.
  - cbn [attempts]. intros [= <- <-]. exists 0%nat.
    split; [lia|]. split; [intros i Hi; lia|].
    split; [cbn; now rewrite app_nil_r|].
    right. split; [reflexivity|]. split; [lia|]. left.
    destruct last; now split.
  - cbn [attempts].
    assert (Hwait : (d * 2 ^ a <? 0) = false)
      by (apply Z.ltb_ge; apply Z.mul_nonneg_nonneg; [lia|];
          apply Z.pow_nonneg; lia).
    assert (Hstop : forall r0 : ended A,
              match func (calls w + 0)%nat with
              | Returns v => r0 = Returned v
              | Fails e => retryable e = false /\ r0 = Raised (gives_up e)
              end ->
              ({| calls := S (calls w); slept := slept w |}, r0) = (w', r) ->
              exists k : nat,
                (k <= S todo)%nat /\
                (forall i, (i < k)%nat ->
                   exists e, func (calls w + i)%nat = Fails e /\
                             retryable e = true) /\
                slept w' = slept w ++ waits_from d a k /\
                ((k < S todo)%nat /\ calls w' = (calls w + k + 1)%nat /\
                 match func (calls w + k)%nat with
                 | Returns v => r = Returned v
                 | Fails e => retryable e = false /\ r = Raised (gives_up e)
                 end
                 \/
                 k = S todo /\ calls w' = (calls w + k)%nat /\
                 (k = 0%nat /\
                  r = Raised match last with
                             | Some e => Propagated e
                             | None => Builtin TypeError
                             end
                  \/
                  exists j e, k = S j /\ func (calls w + j)%nat = Fails e /\
                              r = Raised (Propagated e)))).
    { intros r0 Hr0 [= <- <-]. exists 0%nat.
      split; [lia|]. split; [intros i Hi; lia|].
      split; [cbn; now rewrite app_nil_r|].
      left. split; [lia|]. split; [cbn; lia|]. exact Hr0. }
    assert (Hgo : forall e,
              func (calls w) = Fails e -> retryable e = true ->
              attempts func d todo (a + 1) (Some e)
                {| calls := S (calls w);
                   slept := slept w ++ [d * 2 ^ a] |} = (w', r) ->
              exists k : nat,
                (k <= S todo)%nat /\
                (forall i, (i < k)%nat ->
                   exists e, func (calls w + i)%nat = Fails e /\
                             retryable e = true) /\
                slept w' = slept w ++ waits_from d a k /\
                ((k < S todo)%nat /\ calls w' = (calls w + k + 1)%nat /\
                 match func (calls w + k)%nat with
                 | Returns v => r = Returned v
                 | Fails e => retryable e = false /\ r = Raised (gives_up e)
                 end
                 \/
                 k = S todo /\ calls w' = (calls w + k)%nat /\
                 (k = 0%nat /\
                  r = Raised match last with
                             | Some e => Propagated e
                             | None => Builtin TypeError
                             end
                  \/
                  exists j e, k = S j /\ func (calls w + j)%nat = Fails e /\
                              r = Raised (Propagated e)))).
    { intros e He Hre Hrun.
      destruct (IH _ _ _ _ _ (ltac:(lia) : 0 <= a + 1) Hrun)
        as (k & Hk & Hall & Hslept & Hend).
      cbn [calls slept] in Hall, Hslept, Hend.
      exists (S k). split; [lia|]. split.
      { intros [|i] Hi.
        - exists e. rewrite Nat.add_0_r. now split.
        - destruct (Hall i ltac:(lia)) as (e' & He' & Hre').
          exists e'. split; [|exact Hre'].
          rewrite <- He'. f_equal. lia. }
      split.
      { rewrite Hslept, (waits_from_step _ _ _ Ha), <- app_assoc.
        reflexivity. }
      destruct Hend as [(Hlt & Hcalls & Hlast) | (-> & Hcalls & Hlast)].
      - left. split; [lia|]. split; [lia|].
        replace (calls w + S k)%nat with (S (calls w) + k)%nat by lia.
        exact Hlast.
      - right. split; [reflexivity|]. split; [lia|]. right.
        destruct Hlast as [(-> & ->) | (j & e' & -> & He' & ->)].
        + exists 0%nat, e. rewrite Nat.add_0_r. now repeat split.
        + exists (S j), e'. split; [reflexivity|]. split; [|reflexivity].
          rewrite <- He'. f_equal. lia. }
    rewrite Nat.add_0_r in Hstop.
    destruct (func (calls w)) as [v|e] eqn:Hf.
    + apply Hstop. reflexivity.
    + rewrite Hwait.
      destruct e as [| |[|[code|]]|]; cbn [retryable] in *;
        try (apply Hstop; now split);
        try (apply (Hgo _ eq_refl); reflexivity).
      destruct (negb (code =? 0) && (500 <=? code)) eqn:Hcode.
      * apply (Hgo _ eq_refl). cbn [retryable]. exact Hcode.
      * apply Hstop. now split.
Qed.

(** X19.  [_retry_with_backoff] with a delay that
    is not negative.  The calls that fail with a rate limit, a connection
    error or a server error (status code 500 or more) are followed by a
    wait that doubles each time, starting at the delay.  The run ends at
    the first call that returns or fails in another way, with that result
    (AttributeError when the error caught has no status code to read); or,
    when all [max_retries] calls failed and were waited for, the last
    wait included, by raising the error of the last call (TypeError when
    [max_retries] is not positive, as there is no error to raise).  At most
    [max_retries] calls are made and the waits add up to the delay times
    [2 ^ k - 1] for [k] failed calls. *)
Theorem retry_backoff_schedule {A : Type} (func : nat -> call_result A)
    (retry_delay max_retries : Z) (w w' : World) (r : ended A) :
  0 <= retry_delay ->
  _retry_with_backoff func retry_delay max_retries w = (w', r) ->
  exists k : nat,
    Z.of_nat k <= Z.max 0 max_retries /\
    (forall i, (i < k)%nat ->
       exists e, func (calls w + i)%nat = Fails e /\ retryable e = true) /\
    slept w' = slept w ++ waits_from retry_delay 0 k /\
    total (waits_from retry_delay 0 k) = retry_delay * (2 ^ Z.of_nat k - 1) /\
    (Z.of_nat k < max_retries /\ calls w' = (calls w + k + 1)%nat /\
     match func (calls w + k)%nat with
     | Returns v => r = Returned v
     | Fails e => retryable e = false /\ r = Raised (gives_up e)
     end
     \/
     Z.of_nat k = Z.max 0 max_retries /\ calls w' = (calls w + k)%nat /\
     (k = 0%nat /\ r = Raised (Builtin TypeError)
      \/
      exists j e, k = S j /\ func (calls w + j)%nat = Fails e /\
                  r = Raised (Propagated e))).
Proof.
  intros Hd Hrun. unfold _retry_with_backoff in Hrun.
  destruct (attempts_schedule func retry_delay Hd _ 0 None w w' r
              ltac:(lia) Hrun)
    as (k & Hk & Hall & Hslept & Hend).
  exists k. split; [lia|]. split; [exact Hall|]. split; [exact Hslept|].
  split; [rewrite total_waits_from by lia; cbn; lia|].
  destruct Hend as [(Hlt & Hcalls & Hlast) | (Hkn & Hcalls & Hlast)].
  - left. split; [lia|]. now split.
  - right. split; [lia|]. now split.
Qed.

Lemma retry_backoff_schedule_witness :
  exists w',
    _retry_with_backoff third_time_lucky 2 3 {| calls := 0; slept := [] |}
    = (w', Returned (u "ok")) /\
    calls w' = 3%nat /\ slept w' = [2; 4].
Proof.
  destruct (_retry_with_backoff third_time_lucky 2 3
              {| calls := 0; slept := [] |}) as [w' r] eqn:Hrun.
  destruct (retry_backoff_schedule third_time_lucky 2 3 _ w' r
              ltac:(lia) Hrun)
    as (k & Hk & Hall & Hslept & _ & Hend).
  cbn [calls slept app Nat.add] in *.
  assert (Hk2 : k = 2%nat).
  { destruct k as [|[|[|k]]].
    - destruct Hend as [(_ & _ & Hlast) | (Hkn & _)];
        [cbn in Hlast; destruct Hlast; discriminate | cbn in Hkn; lia].
    - destruct Hend as [(_ & _ & Hlast) | (Hkn & _)];
        [cbn in Hlast; destruct Hlast; discriminate | cbn in Hkn; lia].
    - reflexivity.
    - destruct (Hall 2%nat ltac:(lia)) as (e & He & _). discriminate He. }
  subst k. exists w'.
  destruct Hend as [(_ & Hcalls & Hlast) | (Hkn & _)]; [|cbn in Hkn; lia].
  cbn in Hlast. subst r. repeat split; assumption.
Defined.
(** ** The answer typed at the command line *)

Lemma lstrip_fixed (s : py_str) :
  match s with [] => True | c :: _ => isspace c = false end ->
  lstrip s = s.
Proof. destruct s as [|c s]; cbn [lstrip]; [reflexivity|]. now intros ->. Qed.

Lemma lstrip_head (s : py_str) :
  match lstrip s with [] => True | c :: _ => isspace c = false end.
Proof.
  induction s as [|c s IH]; cbn [lstrip]; [exact I|].
  destruct (isspace c) eqn:Ec; [exact IH | exact Ec].
Qed.

Lemma lstrip_app_keeps (a b : py_str) (c : N) :
  isspace c = false -> lstrip (a ++ c :: b) = lstrip a ++ c :: b.
Proof.
  intros Hc. induction a as [|x a IH]; cbn [app lstrip].
  - now rewrite Hc.
  - destruct (isspace x); [exact IH | reflexivity].
Qed.

Lemma rstrip_head (c : N) (s : py_str) :
  isspace c = false -> rstrip (c :: s) = c :: rstrip s.
Proof.
  intros Hc. unfold rstrip. cbn [rev].
  rewrite (lstrip_app_keeps _ [] _ Hc), rev_app_distr. reflexivity.
Qed.

Lemma strip_is_stripped (s : py_str) : strip (strip s) = strip s.
Proof.
  unfold strip. pose proof (lstrip_head s) as Hh.
  assert (Hl : lstrip (rstrip (lstrip s)) = rstrip (lstrip s)).
  { apply lstrip_fixed. destruct (lstrip s) as [|c t]; [exact I|].
    now rewrite (rstrip_head _ _ Hh). }
  rewrite Hl. unfold rstrip. rewrite rev_involutive. f_equal.
  apply lstrip_fixed. apply lstrip_head.
Qed.

Lemma read_lines_reads (stdin lines : list py_str) :
  exists typed rest,
    Forall answer_line typed /\
    ((exists skip, stdin = typed ++ skip :: rest /\
                   CLI.lowers_to_skip skip = true /\
                   CLI.read_lines stdin lines = (rest, CLI.Skip))
     \/
     (stdin = typed ++ [] :: rest /\
      CLI.read_lines stdin lines
      = (rest, CLI.Lines match lines ++ typed with
                         | [] => [[]]
                         | l :: ls => l :: ls
                         end))
     \/
     (stdin = typed /\ rest = [] /\
      CLI.read_lines stdin lines = ([], CLI.Lines (lines ++ typed)))).
Proof.
  revert lines. induction stdin as [|line stdin IH]; intros lines.
  - exists [], []. split; [constructor|]. right. right.
    rewrite app_nil_r. now repeat split.
  - cbn [CLI.read_lines].
    destruct (CLI.lowers_to_skip line) eqn:Hskip.
    { exists [], stdin. split; [constructor|]. left. exists line.
      now repeat split. }
    destruct line as [|c line].
    + exists [], stdin. split; [constructor|]. right. left.
      split; [reflexivity|]. rewrite app_nil_r.
      destruct lines as [|l ls]; cbn [CLI.is_empty andb negb app last];
        [reflexivity|].
      reflexivity.
    + cbn [CLI.is_empty andb]. rewrite last_last. cbn [CLI.is_empty].
      destruct (IH (lines ++ [c :: line]))
        as (typed & rest & Hty & Hcases).
      exists ((c :: line) :: typed), rest. split.
      { constructor; [split; [discriminate | exact Hskip] | exact Hty]. }
      rewrite <- app_assoc in Hcases. cbn [app] in Hcases |- *.
      destruct Hcases
        as [(skip & Hin & Hs & Hrun) | [(Hin & Hrun) | (Hin & Hr & Hrun)]].
      * left. exists skip.
        split; [now rewrite Hin | split; [exact Hs | exact Hrun]].
      * right. left. split; [now rewrite Hin | exact Hrun].
      * right. right.
        split; [now rewrite Hin | split; [exact Hr | exact Hrun]].
Qed.

(** X20.  The answer that the
    command line hands to the workflow.  The lines are read up to the
    first one that is empty or that lower-cases to [skip], or to the end
    of the input.  A skip line gives the skip placeholder, whatever was
    typed before it; otherwise the answer is the lines read, joined and
    stripped, or the no-answer placeholder when that is empty.  So an
    answer cannot hold an empty line, and it is never empty, nor does it
    start or end with a blank. *)
Theorem cli_answer_ends_at_the_first_blank_line (stdin : list py_str) :
  (exists typed rest,
     Forall answer_line typed /\
     ((exists skip, stdin = typed ++ skip :: rest /\
                    CLI.lowers_to_skip skip = true /\
                    CLI.get_user_answer stdin = (rest, CLI.SKIPPED))
      \/
      (stdin = typed ++ [] :: rest /\
       CLI.get_user_answer stdin = (rest, answer_of typed))
      \/
      (stdin = typed /\ rest = [] /\
       CLI.get_user_answer stdin = ([], answer_of typed)))) /\
  snd (CLI.get_user_answer stdin) <> [] /\
  strip (snd (CLI.get_user_answer stdin)) = snd (CLI.get_user_answer stdin).
Proof.
  assert (Hanswer : forall lines,
            (if CLI.is_empty (strip (CLI.join_lines lines))
             then CLI.NO_ANSWER else strip (CLI.join_lines lines))
            = answer_of lines).
  { intros lines. unfold answer_of.
    destruct (strip (CLI.join_lines lines)); reflexivity. }
  assert (Hgood : forall typed,
            answer_of typed <> [] /\
            strip (answer_of typed) = answer_of typed).
  { intros typed. unfold answer_of.
    destruct (strip (CLI.join_lines typed)) as [|c s] eqn:Es.
    - split; [discriminate | vm_compute; reflexivity].
    - split; [discriminate|]. rewrite <- Es. apply strip_is_stripped. }
  destruct (read_lines_reads stdin []) as (typed & rest & Hty & Hcases).
  cbn [app] in Hcases. unfold CLI.get_user_answer.
  destruct Hcases as [(skip & Hin & Hs & Hrun) | [(Hin & Hrun) | (Hin & Hr & Hrun)]];
    rewrite Hrun; cbn [snd].
  - split; [|split; [discriminate | vm_compute; reflexivity]].
    exists typed, rest. split; [exact Hty|]. left. exists skip.
    now repeat split.
  - assert (Hsame : answer_of match typed with
                              | [] => [[]]
                              | l :: ls => l :: ls
                              end = answer_of typed)
      by (destruct typed; [vm_compute; reflexivity | reflexivity]).
    rewrite Hanswer, Hsame. split; [|apply Hgood].
    exists typed, rest. split; [exact Hty|]. right. left. now split.
  - rewrite Hanswer. split; [|apply Hgood].
    exists typed, rest. split; [exact Hty|]. right. right. now repeat split.
Qed.

(** ** A short answer in a round *)

Lemma short_answer_is_followed_up (cfg : FollowUpConfig) (answer : py_str)
    (evaluation : pydict) (b : bool) (reason : py_str) :
  follow_ups_enabled cfg = true ->
  len (strip answer) < 50 ->
  should_follow_up cfg answer evaluation = Ok (b, reason) -> b = true.
Proof.
  intros Hon Hshort. unfold should_follow_up. rewrite Hon. cbn [negb].
  destruct (lt_int _ _) as [[|]|e]; cbn [rbind]; [| |discriminate].
  - now intros [= <- _].
  - destruct (first_keyword _ _); [now intros [= <- _]|].
    apply Z.ltb_lt in Hshort. rewrite Hshort. now intros [= <- _].
Qed.

Lemma interview_rounds_allow_follow_ups (agent_key : py_str) :
  In agent_key round_order ->
  match round_config INTERVIEW_ROUNDS_CONFIG agent_key with
  | Some c => follow_up_enabled c
  | None => false
  end = true.
Proof.
  intros Hin. vm_compute in Hin.
  repeat (destruct Hin as [<-|Hin]; [vm_compute; reflexivity|]).
  destruct Hin.
Qed.

(** X21.  With follow-ups enabled, a round of
    the interview whose main answer has fewer than 50 characters once
    stripped always goes on to a follow-up question, whatever score the
    model gave the answer: when [run_single_round] returns, the outcome
    holds the main question and one follow-up, and the candidate was asked
    twice.  Both placeholders of the command line are such answers, so
    typing [skip] or nothing brings a second question. *)
Theorem short_answer_draws_a_follow_up :
  forall llm_text llm_json get_user_answer follow_up_config
         hiring_manager technical culture_fit agent_key st st' outcome,
    follow_ups_enabled follow_up_config = true ->
    In agent_key round_order ->
    (forall question round_name,
       len (strip (get_user_answer (answers_given st) question round_name))
       < 50) ->
    run_single_round llm_text llm_json get_user_answer follow_up_config
      hiring_manager technical culture_fit agent_key st = (st', Ok outcome) ->
    len (strip CLI.SKIPPED) < 50 /\ len (strip CLI.NO_ANSWER) < 50 /\
    exists main follow_up,
      o_questions outcome = [main; follow_up] /\
      q_is_follow_up main = false /\
      q_is_follow_up follow_up = true /\
      q_answer main
      = get_user_answer (answers_given st) (q_question main)
          (get_round_name agent_key) /\
      answers_given st' = S (S (answers_given st)).
Proof.
  intros until outcome. intros Hon Hkey Hshort Hrun.
  pose proof (interview_rounds_allow_follow_ups _ Hkey) as Hcfg.
  split; [vm_compute; reflexivity|]. split; [vm_compute; reflexivity|].
  revert Hcfg Hrun.
  run_split; intros Hcfg; intros [= <- <-];
    cbn [o_questions app answers_given];
    try (do 2 eexists; repeat split; fail);
    exfalso;
    try congruence;
    match goal with
    | H : should_follow_up _ _ _ = Ok (?b, _) |- _ =>
        pose proof (short_answer_is_followed_up _ _ _ _ _ Hon
                      (Hshort _ _) H);
        subst b
    end;
    match goal with
    | H : true && _ = false |- _ => rewrite Hon in H; discriminate H
    end.
Qed.

Lemma short_answer_draws_a_follow_up_witness :
  exists st' outcome,
    skipped_round (u "HR") demo_state = (st', Ok outcome) /\
    List.length (o_questions outcome) = 2%nat /\
    answers_given st' = 2%nat.
Proof.
  unfold skipped_round. run_example Hrun.
  destruct Hrun as (st' & outcome & Hrun). exists st', outcome.
  split; [exact Hrun|].
  destruct (short_answer_draws_a_follow_up
              demo_text praising_json skipping FOLLOW_UP_CONFIG
              (demo_agent (u "HiringManager"))
              (demo_agent (u "Technical"))
              (demo_agent (u "CultureFit")) (u "HR") demo_state st' outcome)
    as (_ & _ & main & follow_up & Hq & _ & _ & _ & Hn).
  - reflexivity.
  - vm_compute. now left.
  - intros question round_name. vm_compute. reflexivity.
  - exact Hrun.
  - rewrite Hq, Hn. split; reflexivity.
Defined.
